(** * Kling_Ai: payment ledger, notification verifier, poll loops, sessions

    A shallow embedding of the parts of [payments.py], [kling_bot.py] and
    [webhook_handler.py] that decide the specified properties, and the
    theorems about them.

    Text is modelled as [string], i.e. the sequence of bytes of the UTF-8
    encoding; digits and white space are those of Unicode, read off the
    encoded characters, and [lower] acts on the ASCII range, which is where
    the texts it is applied to before a comparison (["false"], the
    hexadecimal digest, the recognised keys) live. *)

From Stdlib Require Import ZArith Ascii String List Lia Bool.
From Stdlib Require Import DecimalString DecimalPos Permutation.
From stdpp Require Import gmap strings list fin_maps.
Import ListNotations.

Local Open Scope Z_scope.

(** ** hashlib.sha1 (FIPS 180-4), on 32-bit words held in [Z] *)

Module Sha1.

Definition mask32 (x : Z) : Z := Z.land x 0xFFFFFFFF.

Definition add32 (x y : Z) : Z := mask32 (x + y).

Definition rotl (n x : Z) : Z :=
  mask32 (Z.lor (Z.shiftl x n) (Z.shiftr x (32 - n))).

Definition not32 (x : Z) : Z := Z.lxor x 0xFFFFFFFF.

(** The round function and constant of round [t], 0 <= t < 80. *)
Definition f (t : nat) (b c d : Z) : Z :=
  if (t <? 20)%nat then Z.lor (Z.land b c) (Z.land (not32 b) d)
  else if (t <? 40)%nat then Z.lxor (Z.lxor b c) d
  else if (t <? 60)%nat then
    Z.lor (Z.lor (Z.land b c) (Z.land b d)) (Z.land c d)
  else Z.lxor (Z.lxor b c) d.

Definition K (t : nat) : Z :=
  if (t <? 20)%nat then 0x5A827999
  else if (t <? 40)%nat then 0x6ED9EBA1
  else if (t <? 60)%nat then 0x8F1BBCDC
  else 0xCA62C1D6.

Record state := State { h0 : Z; h1 : Z; h2 : Z; h3 : Z; h4 : Z }.

Definition init : state :=
  State 0x67452301 0xEFCDAB89 0x98BADCFE 0x10325476 0xC3D2E1F0.

(** Message bytes, padding and length (in bits, 64-bit big-endian). *)
Definition bytes_of (s : string) : list Z :=
  List.map (fun c => Z.of_N (N_of_ascii c)) (list_ascii_of_string s).

Definition be_bytes (width : nat) (x : Z) : list Z :=
  List.map (fun i => Z.land (Z.shiftr x (8 * Z.of_nat i)) 0xFF)
           (List.rev (List.seq 0 width)).

Definition pad (msg : list Z) : list Z :=
  let len := Z.of_nat (List.length msg) in
  let zeros := Z.to_nat ((55 - len) mod 64) in
  msg ++ [0x80] ++ List.repeat 0 zeros ++ be_bytes 8 (8 * len).

Fixpoint words (n : nat) (bs : list Z) : list Z :=
  match n, bs with
  | S n', b3 :: b2 :: b1 :: b0 :: rest =>
      (Z.shiftl b3 24 + Z.shiftl b2 16 + Z.shiftl b1 8 + b0) :: words n' rest
  | _, _ => []
  end.

(** Message schedule: [ws] holds W[t-1], W[t-2], ... (newest first). *)
Definition next_w (ws : list Z) : Z :=
  rotl 1 (Z.lxor (Z.lxor (List.nth 2 ws 0) (List.nth 7 ws 0))
                 (Z.lxor (List.nth 13 ws 0) (List.nth 15 ws 0))).

Fixpoint extend (n : nat) (ws : list Z) : list Z :=
  match n with
  | O => ws
  | S n' => extend n' (next_w ws :: ws)
  end.

Definition schedule (block : list Z) : list Z :=
  List.rev (extend 64 (List.rev (words 16 block))).

Definition round (st : state) (tw : nat * Z) : state :=
  let '(t, w) := tw in
  let '(State a b c d e) := st in
  State (add32 (add32 (add32 (add32 (rotl 5 a) (f t b c d)) e) (K t)) w)
        a (rotl 30 b) c d.

Definition compress (h : state) (block : list Z) : state :=
  let ws := schedule block in
  let r := List.fold_left round (List.combine (List.seq 0 80) ws) h in
  State (add32 (h0 h) (h0 r)) (add32 (h1 h) (h1 r)) (add32 (h2 h) (h2 r))
        (add32 (h3 h) (h3 r)) (add32 (h4 h) (h4 r)).

Fixpoint blocks (n : nat) (bs : list Z) (h : state) : state :=
  match n with
  | O => h
  | S n' => blocks n' (List.skipn 64 bs) (compress h (List.firstn 64 bs))
  end.

Definition digest (s : string) : state :=
  let bs := pad (bytes_of s) in
  blocks (List.length bs / 64) bs init.

(** [hexdigest]: lower-case hexadecimal, eight digits per word. *)
Definition hex_digit (x : Z) : ascii :=
  match x with
  | 0 => "0" | 1 => "1" | 2 => "2" | 3 => "3" | 4 => "4" | 5 => "5"
  | 6 => "6" | 7 => "7" | 8 => "8" | 9 => "9" | 10 => "a" | 11 => "b"
  | 12 => "c" | 13 => "d" | 14 => "e" | _ => "f"
  end%char.

Definition nibble (w : Z) (i : Z) : ascii :=
  hex_digit (Z.land (Z.shiftr w (4 * i)) 0xF).

Definition word_hex (w : Z) (tail : string) : string :=
  String (nibble w 7) (String (nibble w 6) (String (nibble w 5)
  (String (nibble w 4) (String (nibble w 3) (String (nibble w 2)
  (String (nibble w 1) (String (nibble w 0) tail))))))).

Definition hexdigest (s : string) : string :=
  let d := digest s in
  word_hex (h0 d) (word_hex (h1 d) (word_hex (h2 d) (word_hex (h3 d)
  (word_hex (h4 d) EmptyString)))).

End Sha1.

(** ** Python text operations used by the handlers *)

Module Py.

(** The exceptions the modelled code meets, and the result of a call that
    may raise one. *)
Inductive exception := ValueError | OverflowError | OperationalError.

Inductive result (A : Type) :=
  | Ok (a : A)
  | Raise (e : exception).

Arguments Ok {A} a.
Arguments Raise {A} e.

Definition is_upper (c : ascii) : bool :=
  let n := nat_of_ascii c in ((65 <=? n) && (n <=? 90))%nat.

Definition lower_ascii (c : ascii) : ascii :=
  if is_upper c then ascii_of_nat (nat_of_ascii c + 32) else c.

(** [str.lower()] *)
Fixpoint lower (s : string) : string :=
  match s with
  | EmptyString => EmptyString
  | String c rest => String (lower_ascii c) (lower rest)
  end.

(** *** The characters of a text

    A [str] is held as its UTF-8 encoding; its characters are the encoded
    code points, each kept as its own bytes. *)

Definition byte (c : ascii) : Z := Z.of_nat (nat_of_ascii c).

Definition is_continuation (c : ascii) : bool :=
  (128 <=? byte c) && (byte c <? 192).

(** How many continuation bytes follow the lead byte [c]. *)
Definition followers (c : ascii) : nat :=
  let b := byte c in
  if b <? 192 then 0%nat
  else if b <? 224 then 1%nat
  else if b <? 240 then 2%nat
  else if b <? 248 then 3%nat
  else 0%nat.

(** [pending] holds the bytes read of a character that still lacks [need]
    continuation bytes.  A byte that cannot continue it ends it there. *)
Fixpoint chars_from (pending : string) (need : nat) (s : string) : list string :=
  match s with
  | EmptyString =>
      match pending with
      | EmptyString => []
      | String _ _ => [pending]
      end
  | String c rest =>
      let fresh :=
        match followers c with
        | O => String c EmptyString :: chars_from EmptyString 0 rest
        | S n => chars_from (String c EmptyString) (S n) rest
        end in
      match need with
      | O => fresh
      | S n =>
          if is_continuation c then
            match n with
            | O => (pending +:+ String c EmptyString) :: chars_from EmptyString 0 rest
            | S _ => chars_from (pending +:+ String c EmptyString) n rest
            end
          else pending :: fresh
      end
  end.

(** [list(s)]: the characters of [s], in order. *)
Definition chars (s : string) : list string := chars_from EmptyString 0 s.

Fixpoint all_continuation (s : string) : bool :=
  match s with
  | EmptyString => true
  | String c rest => is_continuation c && all_continuation rest
  end.

(** A lead byte with as many continuation bytes as it announces. *)
Definition well_formed (ch : string) : bool :=
  match ch with
  | EmptyString => false
  | String a rest =>
      Nat.eqb (String.length rest) (followers a) && all_continuation rest
  end.

(** [ord(ch)] for a well-formed character; [-1] for bytes that encode
    none. *)
Definition code_point (ch : string) : Z :=
  match ch with
  | String a EmptyString => if byte a <? 128 then byte a else -1
  | String a (String b EmptyString) =>
      let cp := (byte a - 192) * 64 + (byte b - 128) in
      if Nat.eqb (followers a) 1 && (128 <=? cp) && is_continuation b
      then cp else -1
  | String a (String b (String c EmptyString)) =>
      let cp := (byte a - 224) * 4096 + (byte b - 128) * 64 + (byte c - 128) in
      if Nat.eqb (followers a) 2 && (2048 <=? cp)
         && is_continuation b && is_continuation c
         && negb ((55296 <=? cp) && (cp <=? 57343))
      then cp else -1
  | String a (String b (String c (String d EmptyString))) =>
      let cp := (byte a - 240) * 262144 + (byte b - 128) * 4096
                + (byte c - 128) * 64 + (byte d - 128) in
      if Nat.eqb (followers a) 3 && (65536 <=? cp) && (cp <=? 1114111)
         && is_continuation b && is_continuation c && is_continuation d
      then cp else -1
  | _ => -1
  end.

(** The code point of the digit zero of every script with decimal digits
    (general category Nd; Unicode 14.0, the data of Python 3.11); the
    other nine digits follow it. *)
Definition decimal_zeros : list Z :=
  [ 48; 1632; 1776; 1984; 2406; 2534; 2662; 2790; 2918; 3046; 3174; 3302;
    3430; 3558; 3664; 3792; 3872; 4160; 4240; 6112; 6160; 6470; 6608; 6784;
    6800; 6992; 7088; 7232; 7248; 42528; 43216; 43264; 43472; 43504; 43600;
    44016; 65296; 66720; 68912; 69734; 69872; 69942; 70096; 70384; 70736;
    70864; 71248; 71360; 71472; 71904; 72016; 72784; 73040; 73120; 92768;
    92864; 93008; 120782; 120792; 120802; 120812; 120822; 123200; 123632;
    125264; 130032 ].

(** The characters that are digits without being decimal digits
    (superscripts, circled digits and the like), as ranges. *)
Definition other_digits : list (Z * Z) :=
  [ (178, 179); (185, 185); (4969, 4977); (6618, 6618); (8304, 8304);
    (8308, 8313); (8320, 8329); (9312, 9320); (9332, 9340); (9352, 9360);
    (9450, 9450); (9461, 9469); (9471, 9471); (10102, 10110);
    (10112, 10120); (10122, 10130); (68160, 68163); (69216, 69224);
    (69714, 69722); (127232, 127242) ].

(** The value of a decimal digit. *)
Definition decimal_value (cp : Z) : option Z :=
  match List.find (fun z => (z <=? cp) && (cp <? z + 10)) decimal_zeros with
  | Some z => Some (cp - z)
  | None => None
  end.

(** [ch.isdecimal()] for one character *)
Definition char_isdecimal (ch : string) : bool :=
  match decimal_value (code_point ch) with
  | Some _ => true
  | None => false
  end.

(** [ch.isdigit()] for one character *)
Definition char_isdigit (ch : string) : bool :=
  char_isdecimal ch
  || List.existsb (fun r => (r.1 <=? code_point ch) && (code_point ch <=? r.2))
       other_digits.

(** [str.isdigit()]: every character is a digit and there is at least one. *)
Definition isdigit (s : string) : bool :=
  match chars s with
  | [] => false
  | c :: cs => List.forallb char_isdigit (c :: cs)
  end.

Fixpoint int_from (acc : Z) (cs : list string) : option Z :=
  match cs with
  | [] => Some acc
  | ch :: rest =>
      match decimal_value (code_point ch) with
      | Some d => int_from (10 * acc + d) rest
      | None => None
      end
  end.

(** [sys.get_int_max_str_digits()] *)
Definition int_max_str_digits : nat := 4300.

(** [int(s)] for a text of digit characters, which is what every call in
    the code passes: the number read in base ten, ValueError when a
    character is not a decimal digit or there are more than 4300. *)
Definition int (s : string) : result Z :=
  match chars s with
  | [] => Raise ValueError
  | c :: cs =>
      if (List.length (c :: cs) <=? int_max_str_digits)%nat then
        match int_from 0 (c :: cs) with
        | Some n => Ok n
        | None => Raise ValueError
        end
      else Raise ValueError
  end.

(** [s.startswith(p)] *)
Definition startswith (s p : string) : bool := String.prefix p s.

(** [s.split(sep, 1)[1]]: the text after the first [sep]; [None] stands
    for the IndexError raised when [sep] does not occur. *)
Fixpoint split1_tail (sep : ascii) (s : string) : option string :=
  match s with
  | EmptyString => None
  | String c rest =>
      if Ascii.eqb c sep then Some rest else split1_tail sep rest
  end.

(** [a or b] on text: the empty string is falsy. *)
Definition or_str (a b : string) : string :=
  match a with
  | EmptyString => b
  | String _ _ => a
  end.

(** [d.get(k) or b]: [None] and the empty string are falsy. *)
Definition get_or (a : option string) (b : string) : string :=
  match a with
  | Some (String _ _ as s) => s
  | _ => b
  end.

(** [sep.join(parts)] *)
Definition join (sep : string) (parts : list string) : string :=
  String.concat sep parts.

End Py.

(** ** The balance ledger: table [payments] of payments.py / kling_bot.py *)

(** One row of the table.  The table of kling_bot.py has no [username]
    column; there the field stays [None]. *)
Record Row := mkRow {
  username : option string;
  paid_generations : Z;
  last_payment_at : option string;
  total_spent_cents : Z;
  created_at : string;
  updated_at : string
}.

(** The two clock readings an operation observes:
    [datetime.utcnow().isoformat()] and SQLite's [datetime('now')]. *)
Record Clock := mkClock { utc_iso : string; sql_now : string }.

(** The database file once an [init_db] has run: whether table [payments]
    has the [username] column (payments.py creates or adds it, kling_bot.py
    does not), and the rows, keyed by [user_id] (PRIMARY KEY).  A statement
    that raises leaves the file as it was: the connection's [with] block
    rolls back. *)
Record database := mkDb { username_column : bool; rows : gmap Z Row }.

(** SQLite's INTEGER is 64-bit signed; binding any other Python int raises
    OverflowError. *)
Definition min_int64 : Z := - 2 ^ 63.
Definition max_int64 : Z := 2 ^ 63 - 1.

Definition storable (n : Z) : bool := (min_int64 <=? n) && (n <=? max_int64).

(** [COALESCE(?, username)] *)
Definition coalesce (new old : option string) : option string :=
  match new with
  | Some _ => new
  | None => old
  end.

(** The stored balance of a user: [paid_generations] of the row, 0 without
    a row. *)
Definition balance (db : database) (user_id : Z) : Z :=
  match rows db !! user_id with
  | Some row => paid_generations row
  | None => 0
  end.

(** [get_user_balance], the same text in both files. *)
Definition get_user_balance (db : database) (user_id : Z) : Py.result Z :=
  if storable user_id then Py.Ok (balance db user_id)
  else Py.Raise Py.OverflowError.

(** The UPDATE of [increment_user_balance], followed by the trigger
    [trg_payments_updated_at]. *)
Definition update_row (clk : Clock) (row : Row) (new_val : Z)
    (last : option string) (uname : option string) : Row :=
  {| username := coalesce uname (username row);
     paid_generations := new_val;
     last_payment_at := last;
     total_spent_cents := total_spent_cents row;
     created_at := created_at row;
     updated_at := sql_now clk |}.

(** The INSERT of [increment_user_balance]; the other columns take their
    declared defaults. *)
Definition insert_row (clk : Clock) (new_val : Z) (last : option string)
    (uname : option string) : Row :=
  {| username := uname;
     paid_generations := new_val;
     last_payment_at := last;
     total_spent_cents := 0;
     created_at := sql_now clk;
     updated_at := sql_now clk |}.

(** The database with the row of [user_id] written. *)
Definition put (db : database) (user_id : Z) (row : Row) : database :=
  mkDb (username_column db) (<[user_id := row]> (rows db)).

(** The row [increment_user_balance] writes for a non-zero [delta]: the
    UPDATE of the row found, or the INSERT. *)
Definition written_row (db : database) (clk : Clock) (user_id delta : Z)
    (uname : option string) : Row :=
  let new_val := Z.max 0 (balance db user_id + delta) in
  match rows db !! user_id with
  | Some r =>
      update_row clk r new_val
        (if delta >? 0 then Some (utc_iso clk) else last_payment_at r) uname
  | None =>
      insert_row clk new_val (if delta >? 0 then Some (utc_iso clk) else None)
        uname
  end.

Module Payments.

(** payments.py, [init_db]: the table is created with the [username]
    column, or the column is added to the table found.  [None]: no table
    yet. *)
Definition init_db (file : option database) : database :=
  match file with
  | None => mkDb true ∅
  | Some db => mkDb true (rows db)
  end.

(** payments.py, [increment_user_balance]: the result and the database
    after, or the exception of the statement that fails.  The SELECT binds
    [user_id]; the UPDATE or INSERT names the [username] column and binds
    [new_val]. *)
Definition increment_user_balance (db : database) (clk : Clock)
    (user_id delta : Z) (uname : option string) : Py.result (Z * database) :=
  if delta =? 0 then
    match get_user_balance db user_id with
    | Py.Ok b => Py.Ok (b, db)
    | Py.Raise e => Py.Raise e
    end
  else if negb (storable user_id) then Py.Raise Py.OverflowError
  else
    let row := rows db !! user_id in
    let current := match row with Some r => paid_generations r | None => 0 end in
    let new_val := Z.max 0 (current + delta) in
    let iso := utc_iso clk in
    if negb (username_column db) then Py.Raise Py.OperationalError
    else if negb (storable new_val) then Py.Raise Py.OverflowError
    else
      match row with
      | Some r =>
          Py.Ok (new_val,
                 put db user_id
                   (update_row clk r new_val
                      (if delta >? 0 then Some iso else last_payment_at r)
                      uname))
      | None =>
          Py.Ok (new_val,
                 put db user_id
                   (insert_row clk new_val
                      (if delta >? 0 then Some iso else None) uname))
      end.

End Payments.

Module KlingBot.

(** kling_bot.py, [init_db], which [main] runs at start-up: the table is
    created without a [username] column; a table found is left as it is. *)
Definition init_db (file : option database) : database :=
  match file with
  | None => mkDb false ∅
  | Some db => db
  end.

(** kling_bot.py, [increment_user_balance]: no [username] parameter, and
    no [username] column in its statements. *)
Definition increment_user_balance (db : database) (clk : Clock)
    (user_id delta : Z) : Py.result (Z * database) :=
  if delta =? 0 then
    match get_user_balance db user_id with
    | Py.Ok b => Py.Ok (b, db)
    | Py.Raise e => Py.Raise e
    end
  else if negb (storable user_id) then Py.Raise Py.OverflowError
  else
    let row := rows db !! user_id in
    let current := match row with Some r => paid_generations r | None => 0 end in
    let new_val := Z.max 0 (current + delta) in
    let iso := utc_iso clk in
    if negb (storable new_val) then Py.Raise Py.OverflowError
    else
      match row with
      | Some r =>
          Py.Ok (new_val,
                 put db user_id
                   (update_row clk r new_val
                      (if delta >? 0 then Some iso else last_payment_at r)
                      None))
      | None =>
          Py.Ok (new_val,
                 put db user_id
                   (insert_row clk new_val
                      (if delta >? 0 then Some iso else None) None))
      end.

End KlingBot.

(** ** The payment notification: normalisation and signature

    [on_yoomoney_notification] (kling_bot.py) and [yoomoney_webhook]
    (webhook_handler.py) share this text line for line. *)

Module Notification.

Definition key_map : gmap string string :=
  list_to_map
    [ ("notificationtype", "notification_type");
      ("notification_type", "notification_type");
      ("operationid", "operation_id");
      ("operation_id", "operation_id");
      ("amount", "amount");
      ("currency", "currency");
      ("datetime", "datetime");
      ("sender", "sender");
      ("codepro", "codepro");
      ("label", "label");
      ("sha1-hash", "sha1_hash");
      ("sha1_hash", "sha1_hash");
      ("md5", "md5");
      ("notification_secret", "notification_secret");
      ("secret", "secret") ].

(** [key_map.get(k.lower(), k.lower())] *)
Definition canonical (k : string) : string :=
  default (Py.lower k) (key_map !! Py.lower k).

(** The loop [for k, v in raw.items(): params[...] = v], over the items
    of the source dict in iteration order. *)
Definition normalize (items : list (string * string)) : gmap string string :=
  List.fold_left (fun params kv => <[canonical kv.1 := kv.2]> params) items ∅.

Definition ordered_keys : list string :=
  [ "notification_type"; "operation_id"; "amount"; "currency";
    "datetime"; "sender"; "codepro"; "label" ].

(** [params.get(k, "")] *)
Definition get (params : gmap string string) (k : string) : string :=
  default "" (params !! k).

(** [YOOMONEY_SECRET or params.get("secret", "")] *)
Definition secret (YOOMONEY_SECRET : string) (params : gmap string string) : string :=
  Py.or_str YOOMONEY_SECRET (get params "secret").

Definition sign_string (YOOMONEY_SECRET : string) (params : gmap string string) : string :=
  Py.join "&" (List.map (get params) ordered_keys ++ [secret YOOMONEY_SECRET params]).

Definition sha1_hex (YOOMONEY_SECRET : string) (params : gmap string string) : string :=
  Sha1.hexdigest (sign_string YOOMONEY_SECRET params).

Definition received_hash (params : gmap string string) : string :=
  Py.get_or (params !! "sha1_hash")
    (Py.get_or (params !! "md5")
       (Py.get_or (params !! "notification_secret") "")).

(** [received_hash.lower() == sha1_hex.lower()] *)
Definition hash_matches (YOOMONEY_SECRET : string) (params : gmap string string) : bool :=
  String.eqb (Py.lower (received_hash params))
             (Py.lower (sha1_hex YOOMONEY_SECRET params)).

(** [params.get("codepro", "false").lower() == "false"] *)
Definition codepro_ok (params : gmap string string) : bool :=
  String.eqb (Py.lower (default "false" (params !! "codepro"))) "false".

(** [params.get("currency") == "643"] *)
Definition currency_ok (params : gmap string string) : bool :=
  match params !! "currency" with
  | Some c => String.eqb c "643"
  | None => false
  end.

(** ["".join(ch for ch in label if ch.isdigit())] *)
Definition digits (label : string) : string :=
  Py.join "" (List.filter Py.char_isdigit (Py.chars label)).

(** The user id assigned from a conversion. *)
Definition int_id_of (r : Py.result Z) : Py.result (option Z) :=
  match r with
  | Py.Ok n => Py.Ok (Some n)
  | Py.Raise e => Py.Raise e
  end.

(** [user_id = int(s)] *)
Definition int_id (s : string) : Py.result (option Z) := int_id_of (Py.int s).

(** Label resolution of kling_bot.py: [if] / [elif], then the fallback
    under [if user_id_from_label is None], whose [int] alone is guarded by
    [except ValueError]. *)
Definition user_id_from_label (label : string) : Py.result (option Z) :=
  let first :=
    if Py.isdigit label then int_id label
    else if Py.startswith label "user_id:" then
      match Py.split1_tail ":" label with
      | Some rest => if Py.isdigit rest then int_id rest else Py.Ok None
      | None => Py.Ok None
      end
    else Py.Ok None in
  match first with
  | Py.Raise e => Py.Raise e
  | Py.Ok (Some uid) => Py.Ok (Some uid)
  | Py.Ok None =>
      match digits label with
      | String _ _ as digits =>
          match Py.int digits with
          | Py.Ok n => Py.Ok (Some n)
          | Py.Raise Py.ValueError => Py.Ok None
          | Py.Raise e => Py.Raise e
          end
      | EmptyString => Py.Ok None
      end
  end.

(** Label resolution of webhook_handler.py: [if] / [elif] / [else], no
    [int] guarded. *)
Definition user_id (label : string) : Py.result (option Z) :=
  if Py.isdigit label then int_id label
  else
    let tagged :=
      if Py.startswith label "user_id:" then
        match Py.split1_tail ":" label with
        | Some rest => Py.isdigit rest
        | None => false
        end
      else false in
    if tagged then
      match Py.split1_tail ":" label with
      | Some rest => int_id rest
      | None => Py.Ok None
      end
    else
      match digits label with
      | String _ _ as digits => int_id digits
      | EmptyString => Py.Ok None
      end.

End Notification.

(** What a notification handler ends with, as far as the ledger goes.
    [HandlerError] is the report of the bot's [except Exception] and the
    HTTP 500 of the webhook for an exception of the label's conversion or
    of the write; the database is then as before.  [Credited] is the
    committed write; the message sent over Telegram after it is not part
    of the outcome. *)
Inductive outcome :=
  | InvalidSignature (computed received : string)
  | UnresolvedUser
  | Credited (user_id new_balance : Z)
  | HandlerError (e : Py.exception).

Module BotHandler.
Import Notification.

Definition is_valid (YOOMONEY_SECRET : string) (params : gmap string string) : bool :=
  hash_matches YOOMONEY_SECRET params && codepro_ok params.

(** kling_bot.py, [on_yoomoney_notification], from the parsed pairs
    [raw] on: the outcome and the database after. *)
Definition on_yoomoney_notification (YOOMONEY_SECRET : string)
    (raw : list (string * string)) (clk : Clock) (db : database)
    : outcome * database :=
  let params := normalize raw in
  if negb (is_valid YOOMONEY_SECRET params) then
    (InvalidSignature (sha1_hex YOOMONEY_SECRET params) (received_hash params), db)
  else
    match user_id_from_label (get params "label") with
    | Py.Raise e => (HandlerError e, db)
    | Py.Ok None => (UnresolvedUser, db)
    | Py.Ok (Some uid) =>
        match KlingBot.increment_user_balance db clk uid 1 with
        | Py.Ok (new_balance, db') => (Credited uid new_balance, db')
        | Py.Raise e => (HandlerError e, db)
        end
    end.

End BotHandler.

Module WebhookHandler.
Import Notification.

Definition is_valid (YOOMONEY_SECRET : string) (params : gmap string string) : bool :=
  hash_matches YOOMONEY_SECRET params && codepro_ok params && currency_ok params.

(** webhook_handler.py, [yoomoney_webhook], from the request's pairs
    [params] on; the two rejections are its HTTP 400 answers.  The
    [increment_user_balance] it imports is the one of payments.py. *)
Definition yoomoney_webhook (YOOMONEY_SECRET : string)
    (params : list (string * string)) (clk : Clock) (db : database)
    : outcome * database :=
  let normalized_params := normalize params in
  if negb (is_valid YOOMONEY_SECRET normalized_params) then
    (InvalidSignature (sha1_hex YOOMONEY_SECRET normalized_params)
                      (received_hash normalized_params), db)
  else
    match user_id (get normalized_params "label") with
    | Py.Raise e => (HandlerError e, db)
    | Py.Ok None => (UnresolvedUser, db)
    | Py.Ok (Some uid) =>
        match Payments.increment_user_balance db clk uid 1 None with
        | Py.Ok (new_balance, db') => (Credited uid new_balance, db')
        | Py.Raise e => (HandlerError e, db)
        end
    end.

End WebhookHandler.

(** ** kling_bot.py, [kling_generate_video]: submission and status polling

    Time is simulated, in whole seconds.  An attempt's [world] fixes what
    the service answers: the reply to the POST, the reply to the i-th
    status GET, and how long the i-th round takes beyond the sleep itself
    (the request, at most its 90 s timeout, and any oversleep). *)

Inductive exn :=
  | TimeoutError
  | ApiError (message : option string)
  | StatusError (message : option string)
  | GenerationFailed (reason : option string)
  | OtherError.

Inductive gen_result :=
  | VideoUrl (url : string)
  | Raised (e : exn).

Inductive submit_reply :=
  | SubmitFailed                               (* the token, the POST or raise_for_status raised *)
  | SubmitCode (message : option string)        (* code != 0 *)
  | Submitted (task_id : string).

Inductive poll_reply :=
  | ReadTimeout                                (* requests.exceptions.ReadTimeout *)
  | RequestFailed                              (* any other exception of the GET *)
  | ReplyCode (message : option string)         (* code != 0 *)
  | TaskStatus (task_status : string) (video : option string)
               (task_status_msg : option string).

Record world := mkWorld {
  submit : submit_reply;
  polls : nat -> poll_reply;
  latency : nat -> nat
}.

Definition MAX_WAIT : Z := 20 * 60.

(** [if poll_interval < 15: poll_interval = min(poll_interval + 3, 15)] *)
Definition next_poll_interval (poll_interval : Z) : Z :=
  if poll_interval <? 15 then Z.min (poll_interval + 3) 15 else poll_interval.

(** The [while True] loop; [elapsed] is [time.time() - start_time] at the
    top of round [i].  The result comes with the log of the
    [time.sleep(poll_interval)] calls made, oldest first.  [None]: the
    fuel ran out. *)
Fixpoint poll_loop (fuel : nat) (w : world) (i : nat) (elapsed poll_interval : Z)
    (slept : list Z) : option (list Z * gen_result) :=
  match fuel with
  | O => None
  | S fuel' =>
      if elapsed >? MAX_WAIT then Some (slept, Raised TimeoutError)
      else
        let again :=
          poll_loop fuel' w (S i)
            (elapsed + Z.of_nat (latency w i) + poll_interval)
            (next_poll_interval poll_interval)
            (slept ++ [poll_interval]) in
        match polls w i with
        | ReadTimeout => again
        | RequestFailed => Some (slept, Raised OtherError)
        | ReplyCode message => Some (slept, Raised (StatusError message))
        | TaskStatus status video reason =>
            if String.eqb status "succeed" then
              match video with
              | Some url => Some (slept, VideoUrl url)
              | None => Some (slept, Raised OtherError)
              end
            else if String.eqb status "failed" then
              Some (slept, Raised (GenerationFailed reason))
            else again
        end
  end.

Definition kling_generate_video (fuel : nat) (w : world)
    : option (list Z * gen_result) :=
  match submit w with
  | SubmitFailed => Some ([], Raised OtherError)
  | SubmitCode message => Some ([], Raised (ApiError message))
  | Submitted _ => poll_loop fuel w 0 0 5 []
  end.

(** The sleeps of the status loop while no terminal status arrives:
    5, 8, 11, 14, 15, 15, ... *)
Fixpoint poll_intervals (n : nat) (poll_interval : Z) : list Z :=
  match n with
  | O => []
  | S n' => poll_interval :: poll_intervals n' (next_poll_interval poll_interval)
  end.

(** ** kling_bot.py, [_poll_and_send]: the retry loop around it *)

Inductive event :=
  | Sleep (seconds : Z)
  | Generate (attempt : nat) (slept : list Z) (result : gen_result)
  | NotifyWaitMinute          (* first progress message *)
  | NotifyChecking            (* the later progress messages *)
  | AnswerVideo (url : string)
  | AnswerTimeout.

(** [min(next_delay + 30 if next_delay < 60 else min(next_delay + 15, 90), 90)] *)
Definition bump_delay (next_delay : Z) : Z :=
  Z.min (if next_delay <? 60 then next_delay + 30
         else Z.min (next_delay + 15) 90) 90.

(** After the loop: [if video_url: ... else: ...]; an empty url is falsy. *)
Definition finish (video_url : option string) : list event :=
  match video_url with
  | Some (String _ _ as url) => [AnswerVideo url]
  | _ => [AnswerTimeout]
  end.

(** The [while True] loop of [_poll_and_send]; attempt [k] of
    [kling_generate_video] runs in [worlds k] with [gen_fuel] rounds of
    fuel, the loop itself with [fuel]. *)
Fixpoint send_loop (fuel : nat) (gen_fuel : nat) (worlds : nat -> world) (k : nat)
    (notify_count next_delay : Z) : option (list event) :=
  match fuel with
  | O => None
  | S fuel' =>
      match kling_generate_video gen_fuel (worlds k) with
      | None => None
      | Some (slept, r) =>
          let head := [Sleep next_delay; Generate k slept r] in
          match r with
          | VideoUrl url => Some (head ++ finish (Some url))
          | Raised TimeoutError => Some (head ++ finish None)
          | Raised _ =>
              let note := if notify_count =? 0 then NotifyWaitMinute
                          else NotifyChecking in
              let notify_count := notify_count + 1 in
              if notify_count >=? 20 then Some (head ++ [note] ++ finish None)
              else
                match send_loop fuel' gen_fuel worlds (S k) notify_count
                                (bump_delay next_delay) with
                | Some rest => Some (head ++ [note] ++ rest)
                | None => None
                end
          end
      end
  end.

Definition _poll_and_send (fuel gen_fuel : nat) (worlds : nat -> world)
    : option (list event) :=
  send_loop fuel gen_fuel worlds 0 0 30.

(** The terminal outcomes of the scheduler as the user sees them. *)
Inductive terminal := Succeeded (url : string) | TimedOut.

Definition terminal_of (tr : list event) : option terminal :=
  match List.last tr (Sleep 0) with
  | AnswerVideo url => Some (Succeeded url)
  | AnswerTimeout => Some TimedOut
  | _ => None
  end.

Definition sleeps (tr : list event) : list Z :=
  List.flat_map (fun e => match e with Sleep d => [d] | _ => [] end) tr.

Definition is_notification (e : event) : bool :=
  match e with
  | NotifyWaitMinute | NotifyChecking => true
  | _ => false
  end.

Definition notifications (tr : list event) : nat :=
  List.length (List.filter is_notification tr).


(** ** kling_bot.py, the per-user sessions

    [SESSIONS] maps a user to a [Session] object; a handler keeps the
    object it fetched across its awaits while another handler may rebind
    the user's entry.  Objects therefore live in a heap of their own and
    [SESSIONS] holds addresses. *)

Record Session := mkSession {
  start_b64 : option string;
  end_b64 : option string;
  workdir : option string
}.

(** [Session()] *)
Definition fresh_session : Session := mkSession None None None.

Record store := mkStore {
  heap : gmap nat Session;
  SESSIONS : gmap Z nat;
  next_addr : nat
}.

Definition initial_store : store := mkStore ∅ ∅ O.

(** [not x] on an optional text: [None] and the empty string are falsy. *)
Definition falsy (x : option string) : bool :=
  match x with
  | Some (String _ _) => false
  | _ => true
  end.

(** [SESSIONS[user_id] = Session()] *)
Definition reset (st : store) (user_id : Z) : store :=
  mkStore (<[next_addr st := fresh_session]> (heap st))
          (<[user_id := next_addr st]> (SESSIONS st))
          (S (next_addr st)).

(** [session = SESSIONS.setdefault(user_id, Session())] *)
Definition setdefault (st : store) (user_id : Z) : nat * store :=
  match SESSIONS st !! user_id with
  | Some a => (a, st)
  | None => (next_addr st, reset st user_id)
  end.

Definition update_session (st : store) (a : nat) (g : Session -> Session) : store :=
  mkStore (alter g a (heap st)) (SESSIONS st) (next_addr st).

(** [if not session.workdir: session.workdir = ...]; a path is never falsy. *)
Definition ensure_workdir (dir : string) (s : Session) : Session :=
  match workdir s with
  | None => mkSession (start_b64 s) (end_b64 s) (Some dir)
  | Some _ => s
  end.

(** The branch on [not session.start_b64] with its assignment: the image
    becomes the first one, or else the second. *)
Definition store_image (b64 : string) (s : Session) : Session :=
  if falsy (start_b64 s) then mkSession (Some b64) (end_b64 s) (workdir s)
  else mkSession (start_b64 s) (Some b64) (workdir s).

(** The steps between which a handler can be suspended.  [a] is the
    address of the session object the running handler holds. *)
Inductive action :=
  | Reset (user_id : Z)
  | SetDefault (user_id : Z)
  | EnsureWorkdir (a : nat) (dir : string)
  | StoreImage (a : nat) (b64 : string).

Definition do_action (st : store) (act : action) : store :=
  match act with
  | Reset user_id => reset st user_id
  | SetDefault user_id => (setdefault st user_id).2
  | EnsureWorkdir a dir => update_session st a (ensure_workdir dir)
  | StoreImage a b64 => update_session st a (store_image b64)
  end.

Definition run_actions (st : store) (acts : list action) : store :=
  List.fold_left do_action acts st.

Inductive reachable : store -> Prop :=
  | reach_init : reachable initial_store
  | reach_step st act : reachable st -> reachable (do_action st act).

(** [cmd_start], and likewise [cmd_cancel] and [start_flow_by_text]. *)
Definition cmd_start (st : store) (user_id : Z) : store := reset st user_id.
Definition cmd_cancel (st : store) (user_id : Z) : store := reset st user_id.
Definition start_flow_by_text (st : store) (user_id : Z) : store := reset st user_id.

(** What [on_image] is given: something that is no image, a download that
    raises, or the image's base64 text with the directory name drawn for
    a new working directory. *)
Inductive incoming :=
  | NotAnImage
  | DownloadRaises
  | ImageData (b64 : string) (dir : string).

(** [on_image] run without interruption. *)
Definition on_image (st : store) (user_id : Z) (msg : incoming) : store :=
  let '(a, st) := setdefault st user_id in
  match msg with
  | NotAnImage => st
  | DownloadRaises => reset st user_id
  | ImageData b64 dir =>
      let st := update_session st a (ensure_workdir dir) in
      let first := match heap st !! a with
                   | Some s => falsy (start_b64 s)
                   | None => true
                   end in
      let st := update_session st a (store_image b64) in
      if first then st else reset st user_id
  end.

(** The session bound to a user, if any. *)
Definition session_of (st : store) (user_id : Z) : option Session :=
  match SESSIONS st !! user_id with
  | Some a => heap st !! a
  | None => None
  end.

(** ** The specification's wording, for comparison with the code *)

Module Spec.

(** A field's value, a missing field contributing the empty string. *)
Definition field (params : gmap string string) (k : string) : string :=
  match params !! k with
  | Some v => v
  | None => ""
  end.

(** The pre-shared value; the payload's [secret] only when none is
    configured. *)
Definition secret (configured : string) (params : gmap string string) : string :=
  if String.eqb configured "" then field params "secret" else configured.

(** The eight fields in their fixed order, joined by [&], followed by
    [&] and the secret. *)
Definition base_string (configured : string) (params : gmap string string) : string :=
  field params "notification_type" +:+ "&" +:+
  field params "operation_id" +:+ "&" +:+
  field params "amount" +:+ "&" +:+
  field params "currency" +:+ "&" +:+
  field params "datetime" +:+ "&" +:+
  field params "sender" +:+ "&" +:+
  field params "codepro" +:+ "&" +:+
  field params "label" +:+ "&" +:+ secret configured params.

Definition present (v : option string) : bool :=
  match v with
  | Some (String _ _) => true
  | _ => false
  end.

(** [sha1_hash], else [md5], else [notification_secret]. *)
Definition received (params : gmap string string) : string :=
  if present (params !! "sha1_hash") then field params "sha1_hash"
  else if present (params !! "md5") then field params "md5"
  else if present (params !! "notification_secret")
       then field params "notification_secret"
  else "".

(** The three ways of reading a user id off a label.  A way that does
    not apply gives [None]; one that applies gives the number its digits
    spell, or the error of digits that spell none. *)
Definition whole_label (label : string) : option (Py.result Z) :=
  if Py.isdigit label then Some (Py.int label) else None.

Fixpoint strip_prefix (p s : string) : option string :=
  match p, s with
  | EmptyString, _ => Some s
  | String a p', String b s' => if Ascii.eqb a b then strip_prefix p' s' else None
  | String _ _, EmptyString => None
  end.

Definition prefixed (label : string) : option (Py.result Z) :=
  match strip_prefix "user_id:" label with
  | Some rest => if Py.isdigit rest then Some (Py.int rest) else None
  | None => None
  end.

(** The digit characters among [cs], put together in their order. *)
Fixpoint digit_characters (cs : list string) : string :=
  match cs with
  | [] => EmptyString
  | ch :: rest =>
      if Py.char_isdigit ch then ch +:+ digit_characters rest
      else digit_characters rest
  end.

Definition stripped (label : string) : option (Py.result Z) :=
  match digit_characters (Py.chars label) with
  | EmptyString => None
  | String _ _ as digits => Some (Py.int digits)
  end.

(** The first way that applies. *)
Fixpoint first_of (tries : list (option (Py.result Z))) : option (Py.result Z) :=
  match tries with
  | [] => None
  | Some answer :: _ => Some answer
  | None :: rest => first_of rest
  end.

(** Tried in order; [None] is UnresolvedUser. *)
Definition resolve (label : string) : option (Py.result Z) :=
  first_of [whole_label label; prefixed label; stripped label].

(** The label contains a digit. *)
Definition has_digit (label : string) : bool :=
  List.existsb Py.char_isdigit (Py.chars label).

(** The field the received hash is taken from. *)
Definition hash_field (params : gmap string string) : option string :=
  if present (params !! "sha1_hash") then Some "sha1_hash"
  else if present (params !! "md5") then Some "md5"
  else if present (params !! "notification_secret")
       then Some "notification_secret"
  else None.

(** The text [s] with its character at index [i] changed to [c]. *)
Fixpoint set_char (i : nat) (c : ascii) (s : string) : string :=
  match s, i with
  | EmptyString, _ => EmptyString
  | String _ rest, O => String c rest
  | String a rest, S i' => String a (set_char i' c rest)
  end.

(** The poll-wait schedule: 30, 60, 75, 90, 90, ... *)
Definition delay_schedule (k : nat) : Z :=
  match k with
  | 0%nat => 30
  | 1%nat => 60
  | 2%nat => 75
  | _ => 90
  end.

(** A call that raised an error other than the timeout. *)
Definition failed (r : gen_result) : bool :=
  match r with
  | Raised TimeoutError => false
  | Raised _ => true
  | VideoUrl _ => false
  end.

(** The progress notification after failed call [k]. *)
Definition progress (k : nat) : event :=
  match k with
  | O => NotifyWaitMinute
  | S _ => NotifyChecking
  end.

(** The answer after a call that did not fail. *)
Definition answer (r : gen_result) : event :=
  match r with
  | VideoUrl (String _ _ as url) => AnswerVideo url
  | _ => AnswerTimeout
  end.

(** The cap on the notifications. *)
Definition cap : nat := 20.

(** The run from call [k] on, when [left] more calls may follow it:
    the wait of the schedule, the call; after a failed call one progress
    notification and, unless the cap is reached, the next wait and call;
    after any other call the answer.  [calls k] is what call [k] gives. *)
Fixpoint run (calls : nat -> list Z * gen_result) (k left : nat) : list event :=
  Sleep (delay_schedule k) :: Generate k (calls k).1 (calls k).2 ::
  if failed (calls k).2 then
    progress k ::
    match left with
    | O => [AnswerTimeout]
    | S left' => run calls (S k) left'
    end
  else [answer (calls k).2].

(** The whole run: at most [cap] calls. *)
Definition schedule (calls : nat -> list Z * gen_result) : list event :=
  run calls 0 (cap - 1).

End Spec.

(** ** The rest of the ledger: [set_user_balance] *)

Module PaymentsSet.

(** payments.py, [set_user_balance]: the upsert, with the trigger on its
    UPDATE arm.  [last_payment_at or datetime.utcnow().isoformat()].  The
    statement names the [username] column and binds [user_id] and
    [value]. *)
Definition set_user_balance (db : database) (clk : Clock) (user_id value : Z)
    (last_payment_at : option string) (uname : option string)
    : Py.result database :=
  let iso := Py.get_or last_payment_at (utc_iso clk) in
  if negb (username_column db) then Py.Raise Py.OperationalError
  else if negb (storable user_id && storable value) then Py.Raise Py.OverflowError
  else
    match rows db !! user_id with
    | Some r => Py.Ok (put db user_id (update_row clk r value (Some iso) uname))
    | None => Py.Ok (put db user_id (insert_row clk value (Some iso) uname))
    end.

End PaymentsSet.

Module KlingBotSet.

(** kling_bot.py, [set_user_balance]: no [username] column. *)
Definition set_user_balance (db : database) (clk : Clock) (user_id value : Z)
    (last_payment_at : option string) : Py.result database :=
  let iso := Py.get_or last_payment_at (utc_iso clk) in
  if negb (storable user_id && storable value) then Py.Raise Py.OverflowError
  else
    match rows db !! user_id with
    | Some r => Py.Ok (put db user_id (update_row clk r value (Some iso) None))
    | None => Py.Ok (put db user_id (insert_row clk value (Some iso) None))
    end.

End KlingBotSet.

(** One call of [increment_user_balance]: when, by how much, under which
    name. *)
Record call := mkCall { at_clock : Clock; by_delta : Z; as_name : option string }.

(** Calls for one user, one after the other, up to the first that
    raises. *)
Fixpoint increments (db : database) (user_id : Z) (calls : list call)
    : Py.result database :=
  match calls with
  | [] => Py.Ok db
  | c :: rest =>
      match Payments.increment_user_balance db (at_clock c) user_id (by_delta c)
              (as_name c) with
      | Py.Ok (_, db') => increments db' user_id rest
      | Py.Raise e => Py.Raise e
      end
  end.

Definition total (calls : list call) : Z :=
  List.fold_right (fun c acc => by_delta c + acc) 0 calls.

(** ** kling_bot.py, [pay_by_text]: the payment form *)

(** [str(n)] for an integer. *)
Definition str_int (n : Z) : string := NilZero.string_of_int (Z.to_int n).

(** The [data] of the checkout request; [None] when [YOOMONEY_RECEIVER] is
    not set and the handler answers that payment is unavailable. *)
Definition pay_by_text (YOOMONEY_RECEIVER PAY_PAYMENT_TYPE PAY_PRICE_RUB
    PAY_SUCCESS_URL : string) (user_id : Z) (user_name : string)
    : option (list (string * string)) :=
  match YOOMONEY_RECEIVER with
  | EmptyString => None
  | String _ _ =>
      Some [ ("receiver", YOOMONEY_RECEIVER);
             ("quickpay-form", "button");
             ("paymentType", PAY_PAYMENT_TYPE);
             ("sum", PAY_PRICE_RUB);
             ("label", str_int user_id +:+ user_name);
             ("successURL", PAY_SUCCESS_URL) ]
  end.

(** [data["label"]] *)
Definition form_label (data : list (string * string)) : string :=
  match List.find (fun kv => String.eqb kv.1 "label") data with
  | Some kv => kv.2
  | None => ""
  end.

(** ** kling_bot.py, [on_yoomoney_notification]: reading the message text *)

Module Text.

Definition LF : ascii := "010"%char.
Definition CR : ascii := "013"%char.

(** The code points of the characters [str.strip()] removes, those for
    which [str.isspace()] holds, as ranges (Unicode 14.0). *)
Definition spaces : list (Z * Z) :=
  [ (9, 13); (28, 32); (133, 133); (160, 160); (5760, 5760); (8192, 8202);
    (8232, 8233); (8239, 8239); (8287, 8287); (12288, 12288) ].

(** [ch.isspace()] for one character *)
Definition is_space (ch : string) : bool :=
  List.existsb
    (fun r => (r.1 <=? Py.code_point ch) && (Py.code_point ch <=? r.2)) spaces.

Fixpoint lstrip (cs : list string) : list string :=
  match cs with
  | [] => []
  | ch :: rest => if is_space ch then lstrip rest else cs
  end.

Fixpoint rstrip (cs : list string) : list string :=
  match cs with
  | [] => []
  | ch :: rest =>
      match rstrip rest with
      | [] => if is_space ch then [] else [ch]
      | k :: ks => ch :: k :: ks
      end
  end.

(** [s.strip()], on the characters of [s] *)
Definition strip (s : string) : string :=
  Py.join "" (rstrip (lstrip (Py.chars s))).

(** [c in s] for a one-character [c] *)
Fixpoint contains (c : ascii) (s : string) : bool :=
  match s with
  | EmptyString => false
  | String a rest => Ascii.eqb a c || contains c rest
  end.

(** [s.replace(c, "")] *)
Fixpoint remove_char (c : ascii) (s : string) : string :=
  match s with
  | EmptyString => EmptyString
  | String a rest =>
      if Ascii.eqb a c then remove_char c rest else String a (remove_char c rest)
  end.

(** [s.replace(a, b)] for one-character [a] and [b] *)
Fixpoint replace_char (a b : ascii) (s : string) : string :=
  match s with
  | EmptyString => EmptyString
  | String x rest =>
      String (if Ascii.eqb x a then b else x) (replace_char a b rest)
  end.

(** [s.split(sep)] for a one-character [sep]: never an empty list. *)
Fixpoint split_on (sep : ascii) (s : string) : list string :=
  match s with
  | EmptyString => [EmptyString]
  | String c rest =>
      if Ascii.eqb c sep then EmptyString :: split_on sep rest
      else
        match split_on sep rest with
        | hd :: tl => String c hd :: tl
        | [] => [String c EmptyString]
        end
  end.

(** [k, v = part.split(sep, 1)] when [sep] is in [part]. *)
Fixpoint split_first (sep : ascii) (s : string) : option (string * string) :=
  match s with
  | EmptyString => None
  | String c rest =>
      if Ascii.eqb c sep then Some (EmptyString, rest)
      else
        match split_first sep rest with
        | Some (k, v) => Some (String c k, v)
        | None => None
        end
  end.

(** [d[k] = v] on a dict kept as its items in iteration order: an old key
    keeps its place. *)
Fixpoint dict_set (d : list (string * string)) (k v : string)
    : list (string * string) :=
  match d with
  | [] => [(k, v)]
  | (k', v') :: rest =>
      if String.eqb k' k then (k', v) :: rest
      else (k', v') :: dict_set rest k v
  end.

(** The body of the loop over the parts. *)
Definition add_part (raw : list (string * string)) (part : string)
    : list (string * string) :=
  if String.eqb part "" || negb (contains "=" part) then raw
  else
    match split_first "=" part with
    | Some (k, v) => dict_set raw (strip k) (strip v)
    | None => raw
    end.

(** The non-blank lines, without a first line that has neither [=] nor
    [&]. *)
Definition message_lines (body : string) : list string :=
  let lines :=
    List.filter (fun ln => negb (String.eqb (strip ln) ""))
                (split_on LF (remove_char CR body)) in
  match lines with
  | first :: rest =>
      if negb (contains "=" first || contains "&" first) then rest else lines
  | [] => lines
  end.

(** From [body] to the dict [raw]. *)
Definition parse (body : string) : list (string * string) :=
  let content := Py.join (String LF "") (message_lines body) in
  List.fold_left add_part (split_on "&" (replace_char LF "&" content)) [].

End Text.

(** [on_yoomoney_notification] from the message on; [message.text or ""]. *)
Definition on_yoomoney_message (YOOMONEY_SECRET : string) (text : option string)
    (clk : Clock) (db : database) : outcome * database :=
  BotHandler.on_yoomoney_notification YOOMONEY_SECRET
    (Text.parse (default "" text)) clk db.

(** [test_body] of [cmd_test_notification]. *)
Definition test_body : string :=
  Py.join (String Text.LF "")
    [ "Платеж получен!";
      "operationid=test-notification";
      "notificationtype=p2p-incoming";
      "amount=255.80";
      "currency=643";
      "datetime=2025-10-29T23:57:00Z";
      "sender=41001000040";
      "codepro=false";
      "label=user_id:123456789";
      "sha1-hash=46898d2aaddb327c902e958ea3bb71822183923a" ].

(** [cmd_test_notification]: the handler called on the test message. *)
Definition cmd_test_notification (YOOMONEY_SECRET : string) (clk : Clock)
    (db : database) : outcome * database :=
  on_yoomoney_message YOOMONEY_SECRET (Some test_body) clk db.

(** A key or value as the loop stores it: stripped, and free of the
    characters the text was cut at. *)
Definition clean (s : string) : Prop :=
  Text.strip s = s
  /\ Text.contains "&" s = false
  /\ Text.contains Text.LF s = false
  /\ Text.contains Text.CR s = false.

(** A pair as the loop stores it. *)
Definition stored (kv : string * string) : Prop :=
  clean kv.1 /\ clean kv.2 /\ Text.contains "=" kv.1 = false.

(** A text that neither begins nor ends with a white-space character. *)
Definition trimmed (s : string) : Prop :=
  match Py.chars s with
  | [] => True
  | c :: cs =>
      Text.is_space c = false /\ Text.is_space (List.last (c :: cs) c) = false
  end.

(** The no-break space U+00A0, as encoded. *)
Definition NBSP : string := String "194" (String "160" EmptyString).

(** The base string of the test message, up to the secret. *)
Definition test_base : string :=
  "p2p-incoming&test-notification&255.80&643&2025-10-29T23:57:00Z&41001000040&false&user_id:123456789&".

(** ** Reading the status loop *)

(** What one status reply decides, as the branches of the loop body have
    it; [None] while the job is pending (a read timeout, or a status other
    than [succeed] and [failed]). *)
Definition reply_result (p : poll_reply) : option gen_result :=
  match p with
  | ReadTimeout => None
  | RequestFailed => Some (Raised OtherError)
  | ReplyCode message => Some (Raised (StatusError message))
  | TaskStatus status video reason =>
      if String.eqb status "succeed" then
        match video with
        | Some url => Some (VideoUrl url)
        | None => Some (Raised OtherError)
        end
      else if String.eqb status "failed" then Some (Raised (GenerationFailed reason))
      else None
  end.

(** [time.time() - start_time] at the top of the round reached after [n]
    pending rounds from round [i]. *)
Fixpoint elapsed_after (w : world) (i : nat) (elapsed poll_interval : Z)
    (n : nat) : Z :=
  match n with
  | O => elapsed
  | S n' =>
      elapsed_after w (S i) (elapsed + Z.of_nat (latency w i) + poll_interval)
                    (next_poll_interval poll_interval) n'
  end.

Definition elapsed_at (w : world) (n : nat) : Z := elapsed_after w 0 0 5 n.

Definition sum_Z (l : list Z) : Z := List.fold_right Z.add 0 l.

(** The time the first [n] rounds take beyond their sleeps. *)
Definition latencies (w : world) (n : nat) : Z :=
  sum_Z (List.map (fun j => Z.of_nat (latency w j)) (List.seq 0 n)).

Definition is_answer (e : event) : bool :=
  match e with
  | AnswerVideo _ | AnswerTimeout => true
  | _ => false
  end.

(** A job done at the first poll, reported with an empty url. *)
Definition done_without_url : world :=
  mkWorld (Submitted "task-1") (fun _ => TaskStatus "succeed" (Some "") None)
          (fun _ => O).

(** The seconds a run sleeps: between the calls and inside them. *)
Definition total_sleep (tr : list event) : Z :=
  sum_Z (List.map (fun e => match e with
                            | Sleep d => d
                            | Generate _ slept _ => sum_Z slept
                            | _ => 0
                            end) tr).

Definition is_call (e : event) : bool :=
  match e with
  | Generate _ _ _ => true
  | _ => false
  end.

(** The most a run can still sleep from its call [k] on: the waits of
    the schedule left, and 1215 seconds inside each call left. *)
Definition sleep_budget (k : nat) : Z :=
  sum_Z (List.map Spec.delay_schedule (List.seq k (20 - k)))
  + 1215 * Z.of_nat (20 - k).

(** The calls of [kling_generate_video] a run makes. *)
Definition calls (tr : list event) : nat :=
  List.length (List.filter is_call tr).

(** ** Well-formed session stores *)

(** Addresses in use lie below the next free one, and no two users share
    a session object. *)
Definition store_wf (st : store) : Prop :=
  (forall u a, SESSIONS st !! u = Some a -> (a < next_addr st)%nat)
  /\ (forall u1 u2 a,
        SESSIONS st !! u1 = Some a -> SESSIONS st !! u2 = Some a -> u1 = u2).

(** ** kling_bot.py, [bytes_to_b64]: base64 (RFC 4648) of the image bytes *)

Module Base64.

Definition alphabet : string :=
  "ABCDEFGHIJKLMNOPQRSTUVWXYZabcdefghijklmnopqrstuvwxyz0123456789+/".

(** The character of a 6-bit value. *)
Definition char (sextet : Z) : ascii :=
  match String.get (Z.to_nat sextet) alphabet with
  | Some c => c
  | None => "="%char
  end.

(** Three bytes at a time, each group read as four 6-bit values; a last
    group of one or two bytes is padded with [=]. *)
Fixpoint encode (bytes : list Z) : string :=
  match bytes with
  | [] => EmptyString
  | [a] =>
      String (char (a / 4)) (String (char (a mod 4 * 16)) "==")
  | [a; b] =>
      String (char (a / 4))
        (String (char (a mod 4 * 16 + b / 16))
           (String (char (b mod 16 * 4)) "="))
  | a :: b :: c :: rest =>
      String (char (a / 4))
        (String (char (a mod 4 * 16 + b / 16))
           (String (char (b mod 16 * 4 + c / 64))
              (String (char (c mod 64)) (encode rest))))
  end.

(** The reading back, to say that the text determines the bytes. *)
Fixpoint index_from (i : Z) (c : ascii) (abc : string) : Z :=
  match abc with
  | EmptyString => i
  | String x rest => if Ascii.eqb x c then i else index_from (i + 1) c rest
  end.

Definition index (c : ascii) : Z := index_from 0 c alphabet.

Fixpoint decode (s : string) : list Z :=
  match s with
  | String c0 (String c1 (String c2 (String c3 rest))) =>
      let b0 := index c0 * 4 + index c1 / 16 in
      let b1 := index c1 mod 16 * 16 + index c2 / 4 in
      let b2 := index c2 mod 4 * 64 + index c3 in
      if Ascii.eqb c2 "=" then [b0]
      else if Ascii.eqb c3 "=" then [b0; b1]
      else b0 :: b1 :: b2 :: decode rest
  | _ => []
  end.

End Base64.

Definition is_byte (b : Z) : Prop := 0 <= b < 256.

(** [bytes_to_b64(data)], the bytes given as numbers from 0 to 255. *)
Definition bytes_to_b64 (data : list Z) : string := Base64.encode data.

(** [on_image] for a downloaded file of bytes [data]. *)
Definition on_image_file (st : store) (user_id : Z) (data : list Z) (dir : string)
    : store :=
  on_image st user_id (ImageData (bytes_to_b64 data) dir).

(** ** Deliveries of a notification *)

(** The same pairs handed to [on_yoomoney_notification] once per clock
    reading, the table carried from one delivery to the next. *)
Definition deliveries_bot (YOOMONEY_SECRET : string) (raw : list (string * string))
    (clocks : list Clock) (db : database) : database :=
  List.fold_left
    (fun db clk =>
       (BotHandler.on_yoomoney_notification YOOMONEY_SECRET raw clk db).2)
    clocks db.

(** Likewise for [yoomoney_webhook]. *)
Definition deliveries_webhook (YOOMONEY_SECRET : string)
    (params : list (string * string)) (clocks : list Clock) (db : database)
    : database :=
  List.fold_left
    (fun db clk =>
       (WebhookHandler.yoomoney_webhook YOOMONEY_SECRET params clk db).2)
    clocks db.

(** ** Concrete tables, notifications and runs *)

(** The table of kling_bot.py after [set_user_balance(7, -5)]. *)
Definition overdrawn : database :=
  match KlingBotSet.set_user_balance (KlingBot.init_db None)
          (mkClock "2025-10-30T00:00:00" "2025-10-30 00:00:00") 7 (-5) None with
  | Py.Ok db => db
  | Py.Raise _ => KlingBot.init_db None
  end.

(** A table of payments.py with one row. *)
Definition one_user : database :=
  mkDb true {[ 7 := mkRow (Some "ann") 3 (Some "2025-01-01T00:00:00") 0 "c" "u" ]}.

(** The same row in a table of kling_bot.py, where there is no name. *)
Definition one_user_bot : database :=
  mkDb false {[ 7 := mkRow None 3 (Some "2025-01-01T00:00:00") 0 "c" "u" ]}.

(** The empty tables the two [init_db] create. *)
Definition payments_table : database := Payments.init_db None.
Definition bot_table : database := KlingBot.init_db None.

Definition clock0 : Clock := mkClock "2025-10-30T00:00:00" "2025-10-30 00:00:00".

(** The sample of [cmd_test_notification], signed with the secret
    ["s3cret"], with [codepro] as given. *)
Definition notification (codepro sha1 : string) : list (string * string) :=
  [ ("operationid", "test-notification");
    ("notificationtype", "p2p-incoming");
    ("amount", "255.80");
    ("currency", "643");
    ("datetime", "2025-10-29T23:57:00Z");
    ("sender", "41001000040");
    ("codepro", codepro);
    ("label", "user_id:123456789");
    ("sha1-hash", sha1) ].

Definition signed_ok : list (string * string) :=
  notification "false" "b9ddc0075320b8434c14c5c67a60a4cf2e043293".

(** The same with the first character of the signature in upper case. *)
Definition signed_case_flipped : list (string * string) :=
  notification "false" "B9ddc0075320b8434c14c5c67a60a4cf2e043293".

(** The same with the first character of the signature changed to [c]. *)
Definition signed_tampered : list (string * string) :=
  notification "false" "c9ddc0075320b8434c14c5c67a60a4cf2e043293".

(** [codepro=FALSE], correctly signed. *)
Definition signed_codepro_upper : list (string * string) :=
  notification "FALSE" "c6e8acb9e9949e7760ae119ae436de073c7ff934".

(** No hash field at all. *)
Definition unsigned : list (string * string) :=
  [ ("notificationtype", "p2p-incoming"); ("amount", "255.80");
    ("currency", "643"); ("codepro", "false"); ("label", "123456789") ].

(** A correctly signed notification whose label has no digit. *)
Definition signed_no_digits : list (string * string) :=
  [ ("codepro", "false"); ("currency", "643"); ("label", "ann");
    ("sha1_hash", "6e0905e7ad5a15f7f18c2d38b5f27a9032942be9") ].


(** A call of [kling_generate_video] that ended in an error other than
    [TimeoutError]. *)
Definition is_failed_attempt (e : event) : bool :=
  match e with
  | Generate _ _ (Raised TimeoutError) => false
  | Generate _ _ (Raised _) => true
  | _ => false
  end.

Definition failed_attempts (tr : list event) : nat :=
  List.length (List.filter is_failed_attempt tr).

(** The sleeps inside a call follow 5, 8, 11, 14, 15, 15, ... *)
Definition polled_as_scheduled (e : event) : Prop :=
  match e with
  | Generate _ slept _ => slept = poll_intervals (List.length slept) 5
  | _ => True
  end.

(** What a run of the loop from attempt [k] on looks like. *)
Definition scheduled_from (k : nat) (tr : list event) (m : nat) : Prop :=
  (1 <= m)%nat /\ (k + m <= 20)%nat
  /\ sleeps tr = List.map Spec.delay_schedule (List.seq k m)
  /\ notifications tr = failed_attempts tr
  /\ (m - 1 <= notifications tr <= m)%nat
  /\ Forall polled_as_scheduled tr.

(** A job that stays in [processing] for ever. *)
Definition processing_world : world :=
  mkWorld (Submitted "task-1")
          (fun _ => TaskStatus "processing" None None) (fun _ => O).

(** A job that is pending at the first poll and done at the second. *)
Definition pending_then_done : world :=
  mkWorld (Submitted "task-1")
          (fun i => match i with
                    | O => TaskStatus "processing" None None
                    | S _ => TaskStatus "succeed" (Some "https://v/1.mp4") None
                    end)
          (fun _ => O).

(** A job the service reports as failed at the first poll. *)
Definition failing_world : world :=
  mkWorld (Submitted "task-1")
          (fun _ => TaskStatus "failed" None (Some "bad input")) (fun _ => O).

(** The second image is only there with a first one. *)
Definition session_ok (s : Session) : Prop :=
  is_Some (end_b64 s) -> falsy (start_b64 s) = false.

Definition store_ok (st : store) : Prop :=
  forall a s, heap st !! a = Some s -> session_ok s.

(** Two images sent by user 7, the handler stopped before its reset. *)
Definition two_images_stored : store :=
  run_actions initial_store
    [SetDefault 7; EnsureWorkdir 0 "runs/a"; StoreImage 0 "AAAA";
     SetDefault 7; EnsureWorkdir 0 "runs/b"; StoreImage 0 "BBBB"].

(** * Properties *)

(** ** The ledger *)

Section Ledger.

Variables (db : database) (clk : Clock) (user_id : Z).

Lemma balance_missing : rows db !! user_id = None -> balance db user_id = 0.
Proof. unfold balance. intros ->. reflexivity. Qed.

Lemma balance_put (row : Row) :
  balance (put db user_id row) user_id = paid_generations row.
Proof. unfold balance, put. cbn. rewrite lookup_insert_eq. reflexivity. Qed.

Lemma rows_put_other (row : Row) (other : Z) :
  other <> user_id -> rows (put db user_id row) !! other = rows db !! other.
Proof. intros Hne. unfold put. cbn. rewrite lookup_insert_ne; congruence. Qed.

Lemma balance_put_other (row : Row) (other : Z) :
  other <> user_id -> balance (put db user_id row) other = balance db other.
Proof. intros Hne. unfold balance. now rewrite rows_put_other. Qed.

Lemma written_row_balance (delta : Z) (uname : option string) :
  paid_generations (written_row db clk user_id delta uname)
  = Z.max 0 (balance db user_id + delta).
Proof. unfold written_row. destruct (rows db !! user_id); reflexivity. Qed.

(** A value between 0 and the largest 64-bit integer can be stored. *)
Lemma storable_clamped (n : Z) :
  Z.max 0 n <= max_int64 -> storable (Z.max 0 n) = true.
Proof.
  intros H. unfold storable, min_int64.
  apply andb_true_iff. split; apply Z.leb_le; [lia | exact H].
Qed.

Lemma not_storable_above (n : Z) : max_int64 < n -> storable n = false.
Proof.
  intros H. unfold storable. apply andb_false_iff. right.
  apply Z.leb_gt. exact H.
Qed.

(** With a non-zero delta, a user id and a clamped sum that fit the
    column: the bot's copy returns the clamped sum and writes the row. *)
Lemma bot_increment_nonzero (delta : Z) :
  delta <> 0 -> storable user_id = true ->
  Z.max 0 (balance db user_id + delta) <= max_int64 ->
  KlingBot.increment_user_balance db clk user_id delta
  = Py.Ok (Z.max 0 (balance db user_id + delta),
           put db user_id (written_row db clk user_id delta None)).
Proof.
  intros Hd Hid Hfit. unfold KlingBot.increment_user_balance, written_row, balance.
  destruct (Z.eqb_spec delta 0) as [->|_]; [congruence|].
  rewrite Hid. cbn [negb].
  pose proof (storable_clamped _ Hfit) as Hs. unfold balance in Hs.
  destruct (rows db !! user_id) as [row|]; rewrite Hs; reflexivity.
Qed.

(** So does the copy of payments.py on a table with the [username]
    column. *)
Lemma increment_nonzero (delta : Z) (uname : option string) :
  delta <> 0 -> storable user_id = true -> username_column db = true ->
  Z.max 0 (balance db user_id + delta) <= max_int64 ->
  Payments.increment_user_balance db clk user_id delta uname
  = Py.Ok (Z.max 0 (balance db user_id + delta),
           put db user_id (written_row db clk user_id delta uname)).
Proof.
  intros Hd Hid Hcol Hfit.
  unfold Payments.increment_user_balance, written_row, balance.
  destruct (Z.eqb_spec delta 0) as [->|_]; [congruence|].
  rewrite Hid, Hcol. cbn [negb].
  pose proof (storable_clamped _ Hfit) as Hs. unfold balance in Hs.
  destruct (rows db !! user_id) as [row|]; rewrite Hs; reflexivity.
Qed.

(** Past the largest 64-bit integer the write raises. *)
Lemma bot_increment_overflow (delta : Z) :
  delta <> 0 -> storable user_id = true ->
  max_int64 < Z.max 0 (balance db user_id + delta) ->
  KlingBot.increment_user_balance db clk user_id delta
  = Py.Raise Py.OverflowError.
Proof.
  intros Hd Hid Hbig. unfold KlingBot.increment_user_balance.
  destruct (Z.eqb_spec delta 0) as [->|_]; [congruence|].
  rewrite Hid. cbn [negb].
  pose proof (not_storable_above _ Hbig) as Hs. unfold balance in Hs.
  now rewrite Hs.
Qed.

Lemma increment_overflow (delta : Z) (uname : option string) :
  delta <> 0 -> storable user_id = true -> username_column db = true ->
  max_int64 < Z.max 0 (balance db user_id + delta) ->
  Payments.increment_user_balance db clk user_id delta uname
  = Py.Raise Py.OverflowError.
Proof.
  intros Hd Hid Hcol Hbig. unfold Payments.increment_user_balance.
  destruct (Z.eqb_spec delta 0) as [->|_]; [congruence|].
  rewrite Hid, Hcol. cbn [negb].
  pose proof (not_storable_above _ Hbig) as Hs. unfold balance in Hs.
  now rewrite Hs.
Qed.

(** Without the [username] column the write of payments.py raises. *)
Lemma increment_without_column (delta : Z) (uname : option string) :
  delta <> 0 -> storable user_id = true -> username_column db = false ->
  Payments.increment_user_balance db clk user_id delta uname
  = Py.Raise Py.OperationalError.
Proof.
  intros Hd Hid Hcol. unfold Payments.increment_user_balance.
  destruct (Z.eqb_spec delta 0) as [->|_]; [congruence|].
  now rewrite Hid, Hcol.
Qed.

(** With delta = 0 both copies only read. *)
Lemma increment_zero (uname : option string) :
  Payments.increment_user_balance db clk user_id 0 uname
  = (if storable user_id then Py.Ok (balance db user_id, db)
     else Py.Raise Py.OverflowError)
  /\ KlingBot.increment_user_balance db clk user_id 0
     = (if storable user_id then Py.Ok (balance db user_id, db)
        else Py.Raise Py.OverflowError).
Proof.
  unfold Payments.increment_user_balance, KlingBot.increment_user_balance,
    get_user_balance. cbn.
  destruct (storable user_id); split; reflexivity.
Qed.

(** On a table with the column the bot's copy is the library's with no
    user name given. *)
Lemma bot_increment_eq (delta : Z) :
  username_column db = true ->
  KlingBot.increment_user_balance db clk user_id delta
  = Payments.increment_user_balance db clk user_id delta None.
Proof.
  intros Hcol.
  unfold KlingBot.increment_user_balance, Payments.increment_user_balance.
  now rewrite Hcol.
Qed.

(** A call that returns leaves the rows of other users and the columns as
    they were. *)
Lemma increment_other (delta : Z) (uname : option string) (n : Z)
    (db' : database) (other : Z) :
  Payments.increment_user_balance db clk user_id delta uname = Py.Ok (n, db') ->
  username_column db' = username_column db
  /\ (other <> user_id -> rows db' !! other = rows db !! other).
Proof.
  unfold Payments.increment_user_balance, get_user_balance.
  destruct (delta =? 0).
  { destruct (storable user_id); [|discriminate].
    intros H. injection H as _ <-. split; reflexivity. }
  destruct (negb (storable user_id)); [discriminate|].
  destruct (negb (username_column db)); [discriminate|].
  destruct (negb (storable _)); [discriminate|].
  destruct (rows db !! user_id); intros H; injection H as _ <-;
    (split; [reflexivity | apply rows_put_other]).
Qed.

Lemma bot_increment_other (delta : Z) (n : Z) (db' : database) (other : Z) :
  KlingBot.increment_user_balance db clk user_id delta = Py.Ok (n, db') ->
  username_column db' = username_column db
  /\ (other <> user_id -> rows db' !! other = rows db !! other).
Proof.
  unfold KlingBot.increment_user_balance, get_user_balance.
  destruct (delta =? 0).
  { destruct (storable user_id); [|discriminate].
    intros H. injection H as _ <-. split; reflexivity. }
  destruct (negb (storable user_id)); [discriminate|].
  destruct (negb (storable _)); [discriminate|].
  destruct (rows db !! user_id); intros H; injection H as _ <-;
    (split; [reflexivity | apply rows_put_other]).
Qed.

End Ledger.

(** C3, as the code has it.  For every user id that fits the 64-bit
    INTEGER column and every integer delta, [increment_user_balance]
    applied to a stored balance b (not negative when delta = 0, where
    nothing is written) returns max(0, b + delta) and that is the balance
    the table holds afterwards, hence never a negative one, whenever
    max(0, b + delta) is at most 2^63 - 1; past it the write raises
    OverflowError and nothing is stored.  In particular a delta of -1000
    on a zero balance gives 0.  So for the copy in kling_bot.py, and for
    the one in payments.py on a table that has its [username] column;
    without the column its write raises OperationalError. *)
Theorem increment_clamps_at_zero
    (db : database) (clk : Clock) (user_id delta : Z) (uname : option string)
    (Hid : storable user_id = true)
    (Hstored : balance db user_id <= max_int64)
    (Hb : delta = 0 -> 0 <= balance db user_id) :
  let b := balance db user_id in
  let new_val := Z.max 0 (b + delta) in
  (new_val <= max_int64 ->
   exists db',
     KlingBot.increment_user_balance db clk user_id delta = Py.Ok (new_val, db')
     /\ balance db' user_id = new_val
     /\ 0 <= balance db' user_id)
  /\ (new_val <= max_int64 -> username_column db = true ->
      exists db',
        Payments.increment_user_balance db clk user_id delta uname
        = Py.Ok (new_val, db')
        /\ balance db' user_id = new_val
        /\ 0 <= balance db' user_id)
  /\ (max_int64 < new_val ->
      KlingBot.increment_user_balance db clk user_id delta
      = Py.Raise Py.OverflowError
      /\ (username_column db = true ->
          Payments.increment_user_balance db clk user_id delta uname
          = Py.Raise Py.OverflowError))
  /\ (delta <> 0 -> username_column db = false ->
      Payments.increment_user_balance db clk user_id delta uname
      = Py.Raise Py.OperationalError)
  /\ (b = 0 ->
      (exists db',
         KlingBot.increment_user_balance db clk user_id (-1000) = Py.Ok (0, db')
         /\ balance db' user_id = 0)
      /\ (username_column db = true ->
          exists db',
            Payments.increment_user_balance db clk user_id (-1000) uname
            = Py.Ok (0, db')
            /\ balance db' user_id = 0)).
Proof.
  intros b new_val.
  assert (Hz : delta = 0 -> new_val = b) by (intros ->; subst new_val b; specialize (Hb eq_refl); lia).
  split; [|split; [|split; [|split]]].
  - intros Hfit. destruct (Z.eq_dec delta 0) as [Hd|Hd].
    + exists db. destruct (increment_zero db clk user_id uname) as [_ H].
      rewrite Hd in *. rewrite H, Hid, (Hz eq_refl). fold b.
      specialize (Hb eq_refl). fold b in Hb. auto.
    + eexists. rewrite bot_increment_nonzero by assumption.
      split; [reflexivity|]. rewrite balance_put, written_row_balance.
      fold b new_val. split; [reflexivity | subst new_val; lia].
  - intros Hfit Hcol. destruct (Z.eq_dec delta 0) as [Hd|Hd].
    + exists db. destruct (increment_zero db clk user_id uname) as [H _].
      rewrite Hd in *. rewrite H, Hid, (Hz eq_refl). fold b.
      specialize (Hb eq_refl). fold b in Hb. auto.
    + eexists. rewrite increment_nonzero by assumption.
      split; [reflexivity|]. rewrite balance_put, written_row_balance.
      fold b new_val. split; [reflexivity | subst new_val; lia].
  - intros Hbig.
    assert (Hd : delta <> 0).
    { intros Hd. rewrite (Hz Hd) in Hbig. subst b. lia. }
    split; [apply bot_increment_overflow; assumption|].
    intros Hcol. apply increment_overflow; assumption.
  - intros Hd Hcol. apply increment_without_column; assumption.
  - intros Hzero.
    assert (Hn : Z.max 0 (balance db user_id + -1000) = 0) by (fold b; lia).
    assert (Hfit : Z.max 0 (balance db user_id + -1000) <= max_int64)
      by (rewrite Hn; unfold max_int64; lia).
    split.
    + eexists. rewrite bot_increment_nonzero by (assumption || lia).
      rewrite Hn. split; [reflexivity|].
      now rewrite balance_put, written_row_balance.
    + intros Hcol. eexists. rewrite increment_nonzero by (assumption || lia).
      rewrite Hn. split; [reflexivity|].
      now rewrite balance_put, written_row_balance.
Qed.

Lemma increment_clamps_at_zero_witness :
  (exists db',
     KlingBot.increment_user_balance bot_table clock0 7 (-1000) = Py.Ok (0, db')
     /\ balance db' 7 = 0 /\ 0 <= balance db' 7)
  /\ (exists db',
        Payments.increment_user_balance one_user clock0 7 2 (Some "ann")
        = Py.Ok (5, db')
        /\ balance db' 7 = 5 /\ 0 <= balance db' 7)
  /\ (exists db',
        KlingBot.increment_user_balance one_user_bot clock0 7 (-5) = Py.Ok (0, db')
        /\ balance db' 7 = 0 /\ 0 <= balance db' 7).
Proof.
  split; [|split].
  - apply (increment_clamps_at_zero bot_table clock0 7 (-1000) None);
      [reflexivity | vm_compute; discriminate | lia | vm_compute; discriminate].
  - apply (increment_clamps_at_zero one_user clock0 7 2 (Some "ann"));
      [reflexivity | vm_compute; discriminate | lia | vm_compute; discriminate
      | reflexivity].
  - apply (increment_clamps_at_zero one_user_bot clock0 7 (-5) None);
      [reflexivity | vm_compute; discriminate | lia | vm_compute; discriminate].
Defined.

(** C3 as stated fails: with a balance of 3, a delta of 2^63 makes both
    copies raise OverflowError where max(0, b + delta) = 2^63 + 3 should
    be stored and returned; on the table [kling_bot.init_db] creates,
    which has no [username] column, every write of the copy in payments.py
    raises OperationalError; and with delta = 0 a balance of -5, as
    [set_user_balance] stores it, is returned as it is, not as 0. *)
Lemma increment_overflows :
  balance one_user_bot 7 = 3
  /\ Z.max 0 (balance one_user_bot 7 + 2 ^ 63) = 2 ^ 63 + 3
  /\ KlingBot.increment_user_balance one_user_bot clock0 7 (2 ^ 63)
     = Py.Raise Py.OverflowError
  /\ Payments.increment_user_balance one_user clock0 7 (2 ^ 63) None
     = Py.Raise Py.OverflowError
  /\ Payments.increment_user_balance one_user_bot clock0 7 1 None
     = Py.Raise Py.OperationalError
  /\ KlingBotSet.set_user_balance bot_table clock0 7 (-5) None = Py.Ok overdrawn
  /\ KlingBot.increment_user_balance overdrawn clock0 7 0 = Py.Ok (-5, overdrawn).
Proof. vm_compute. repeat split; reflexivity. Qed.

(** C9. With delta = 0, [increment_user_balance] writes nothing: it
    returns the current balance, 0 when there is no row, together with the
    very database it was given, so the user's row keeps every field
    ([paid_generations], [last_payment_at], [username], [updated_at]).
    A user id that does not fit the 64-bit INTEGER column makes the read
    itself raise OverflowError. *)
Theorem increment_zero_is_read_only
    (db : database) (clk : Clock) (user_id : Z) (uname : option string) :
  Payments.increment_user_balance db clk user_id 0 uname
    = (if storable user_id then Py.Ok (balance db user_id, db)
       else Py.Raise Py.OverflowError)
  /\ KlingBot.increment_user_balance db clk user_id 0
    = (if storable user_id then Py.Ok (balance db user_id, db)
       else Py.Raise Py.OverflowError)
  /\ Payments.increment_user_balance db clk user_id 0 uname
    = match get_user_balance db user_id with
      | Py.Ok b => Py.Ok (b, db)
      | Py.Raise e => Py.Raise e
      end
  /\ KlingBot.increment_user_balance db clk user_id 0
    = match get_user_balance db user_id with
      | Py.Ok b => Py.Ok (b, db)
      | Py.Raise e => Py.Raise e
      end
  /\ (rows db !! user_id = None ->
      Payments.increment_user_balance db clk user_id 0 uname
        = (if storable user_id then Py.Ok (0, db) else Py.Raise Py.OverflowError)
      /\ KlingBot.increment_user_balance db clk user_id 0
        = (if storable user_id then Py.Ok (0, db) else Py.Raise Py.OverflowError)).
Proof.
  destruct (increment_zero db clk user_id uname) as [H1 H2].
  split; [exact H1|]. split; [exact H2|].
  split; [reflexivity|]. split; [reflexivity|].
  intros Hnone. rewrite H1, H2, (balance_missing _ _ Hnone). split; reflexivity.
Qed.

Lemma increment_zero_is_read_only_witness :
  Payments.increment_user_balance payments_table (mkClock "t" "s") 7 0 None
  = Py.Ok (0, payments_table).
Proof.
  apply (increment_zero_is_read_only payments_table (mkClock "t" "s") 7 None).
  apply lookup_empty.
Defined.

(** ** Text *)

Lemma lower_length s : String.length (Py.lower s) = String.length s.
Proof. induction s as [|c s IH]; cbn; [reflexivity | now rewrite IH]. Qed.

Lemma hexdigest_length s : String.length (Sha1.hexdigest s) = 40%nat.
Proof. reflexivity. Qed.

Lemma eqb_false_of_length a b :
  String.length a <> String.length b -> String.eqb a b = false.
Proof.
  intros H. apply String.eqb_neq. intros ->. apply H. reflexivity.
Qed.

Lemma get_or_absent v b :
  Spec.present v = false -> Py.get_or v b = b.
Proof. destruct v as [[|c s]|]; cbn; intros H; congruence. Qed.

Lemma get_or_present v b :
  Spec.present v = true -> Py.get_or v b = default "" v.
Proof. destruct v as [[|c s]|]; cbn; intros H; congruence. Qed.

(** ** The signature check *)

Section Verifier.

Import Notification.
Variables (YOOMONEY_SECRET : string) (params : gmap string string).

Lemma secret_refines :
  secret YOOMONEY_SECRET params = Spec.secret YOOMONEY_SECRET params.
Proof. unfold secret, Spec.secret. destruct YOOMONEY_SECRET; reflexivity. Qed.

Lemma sign_string_refines :
  sign_string YOOMONEY_SECRET params = Spec.base_string YOOMONEY_SECRET params.
Proof.
  unfold sign_string, Spec.base_string. rewrite secret_refines.
  reflexivity.
Qed.

Lemma received_hash_refines : received_hash params = Spec.received params.
Proof.
  unfold received_hash, Spec.received, Spec.field.
  destruct (params !! "sha1_hash") as [[|c1 s1]|];
    destruct (params !! "md5") as [[|c2 s2]|];
    destruct (params !! "notification_secret") as [[|c3 s3]|]; reflexivity.
Qed.

Lemma hash_matches_spec :
  hash_matches YOOMONEY_SECRET params = true
  <-> Py.lower (received_hash params) = Py.lower (sha1_hex YOOMONEY_SECRET params).
Proof. unfold hash_matches. apply String.eqb_eq. Qed.

Lemma codepro_ok_spec :
  codepro_ok params = true
  <-> Py.lower (default "false" (params !! "codepro")) = "false".
Proof. unfold codepro_ok. apply String.eqb_eq. Qed.

Lemma currency_ok_spec :
  currency_ok params = true <-> params !! "currency" = Some "643".
Proof.
  unfold currency_ok. destruct (params !! "currency") as [c|].
  - rewrite String.eqb_eq. split; [intros ->; reflexivity | congruence].
  - split; discriminate.
Qed.

(** An empty received hash never matches: the digest has 40 characters. *)
Lemma empty_hash_rejected :
  received_hash params = "" -> hash_matches YOOMONEY_SECRET params = false.
Proof.
  intros He. unfold hash_matches. rewrite He.
  apply eqb_false_of_length. rewrite !lower_length.
  unfold sha1_hex. rewrite hexdigest_length. cbn. discriminate.
Qed.

End Verifier.

Section Handlers.

Import Notification.
Variables (YOOMONEY_SECRET : string) (raw : list (string * string))
          (clk : Clock) (db : database).

Lemma bot_rejects :
  BotHandler.is_valid YOOMONEY_SECRET (normalize raw) = false ->
  BotHandler.on_yoomoney_notification YOOMONEY_SECRET raw clk db
  = (InvalidSignature (sha1_hex YOOMONEY_SECRET (normalize raw))
                      (received_hash (normalize raw)), db).
Proof.
  intros H. unfold BotHandler.on_yoomoney_notification. rewrite H. reflexivity.
Qed.

Lemma webhook_rejects :
  WebhookHandler.is_valid YOOMONEY_SECRET (normalize raw) = false ->
  WebhookHandler.yoomoney_webhook YOOMONEY_SECRET raw clk db
  = (InvalidSignature (sha1_hex YOOMONEY_SECRET (normalize raw))
                      (received_hash (normalize raw)), db).
Proof.
  intros H. unfold WebhookHandler.yoomoney_webhook. rewrite H. reflexivity.
Qed.

Lemma bot_unresolved :
  user_id_from_label (get (normalize raw) "label") = Py.Ok None ->
  (BotHandler.on_yoomoney_notification YOOMONEY_SECRET raw clk db).2 = db
  /\ (BotHandler.is_valid YOOMONEY_SECRET (normalize raw) = true ->
      (BotHandler.on_yoomoney_notification YOOMONEY_SECRET raw clk db).1
      = UnresolvedUser).
Proof.
  intros H. unfold BotHandler.on_yoomoney_notification. rewrite H.
  destruct (BotHandler.is_valid _ _); cbn; split; try reflexivity; discriminate.
Qed.

Lemma webhook_unresolved :
  user_id (get (normalize raw) "label") = Py.Ok None ->
  (WebhookHandler.yoomoney_webhook YOOMONEY_SECRET raw clk db).2 = db
  /\ (WebhookHandler.is_valid YOOMONEY_SECRET (normalize raw) = true ->
      (WebhookHandler.yoomoney_webhook YOOMONEY_SECRET raw clk db).1
      = UnresolvedUser).
Proof.
  intros H. unfold WebhookHandler.yoomoney_webhook. rewrite H.
  destruct (WebhookHandler.is_valid _ _); cbn; split; try reflexivity; discriminate.
Qed.

(** A label whose digits spell no number: the handler reports the error
    and writes nothing. *)
Lemma bot_raises e :
  user_id_from_label (get (normalize raw) "label") = Py.Raise e ->
  (BotHandler.on_yoomoney_notification YOOMONEY_SECRET raw clk db).2 = db
  /\ (BotHandler.is_valid YOOMONEY_SECRET (normalize raw) = true ->
      (BotHandler.on_yoomoney_notification YOOMONEY_SECRET raw clk db).1
      = HandlerError e).
Proof.
  intros H. unfold BotHandler.on_yoomoney_notification. rewrite H.
  destruct (BotHandler.is_valid _ _); cbn; split; try reflexivity; discriminate.
Qed.

Lemma webhook_raises e :
  user_id (get (normalize raw) "label") = Py.Raise e ->
  (WebhookHandler.yoomoney_webhook YOOMONEY_SECRET raw clk db).2 = db
  /\ (WebhookHandler.is_valid YOOMONEY_SECRET (normalize raw) = true ->
      (WebhookHandler.yoomoney_webhook YOOMONEY_SECRET raw clk db).1
      = HandlerError e).
Proof.
  intros H. unfold WebhookHandler.yoomoney_webhook. rewrite H.
  destruct (WebhookHandler.is_valid _ _); cbn; split; try reflexivity; discriminate.
Qed.

(** An accepted notification whose label resolves: the outcome is that of
    the increment. *)
Lemma bot_resolved uid :
  BotHandler.is_valid YOOMONEY_SECRET (normalize raw) = true ->
  user_id_from_label (get (normalize raw) "label") = Py.Ok (Some uid) ->
  BotHandler.on_yoomoney_notification YOOMONEY_SECRET raw clk db
  = match KlingBot.increment_user_balance db clk uid 1 with
    | Py.Ok (new_balance, db') => (Credited uid new_balance, db')
    | Py.Raise e => (HandlerError e, db)
    end.
Proof.
  intros Hv Hu. unfold BotHandler.on_yoomoney_notification.
  rewrite Hv, Hu. reflexivity.
Qed.

Lemma webhook_resolved uid :
  WebhookHandler.is_valid YOOMONEY_SECRET (normalize raw) = true ->
  user_id (get (normalize raw) "label") = Py.Ok (Some uid) ->
  WebhookHandler.yoomoney_webhook YOOMONEY_SECRET raw clk db
  = match Payments.increment_user_balance db clk uid 1 None with
    | Py.Ok (new_balance, db') => (Credited uid new_balance, db')
    | Py.Raise e => (HandlerError e, db)
    end.
Proof.
  intros Hv Hu. unfold WebhookHandler.yoomoney_webhook.
  rewrite Hv, Hu. reflexivity.
Qed.

End Handlers.

(** C1, as the code has it.  A notification is accepted exactly when the
    SHA-1 digest of the base string equals the received hash up to letter
    case and [codepro], read as ["false"] when the field is missing, is
    ["false"] up to letter case; the webhook also requires the currency
    field to be ["643"].  When the check fails the handler leaves the
    table as it was. *)
Theorem verifier_accepts_iff
    (YOOMONEY_SECRET : string) (params : gmap string string)
    (raw : list (string * string)) (clk : Clock) (db : database) :
  (BotHandler.is_valid YOOMONEY_SECRET params = true
   <-> Py.lower (Notification.received_hash params)
       = Py.lower (Sha1.hexdigest (Notification.sign_string YOOMONEY_SECRET params))
       /\ Py.lower (default "false" (params !! "codepro")) = "false")
  /\ (WebhookHandler.is_valid YOOMONEY_SECRET params = true
      <-> Py.lower (Notification.received_hash params)
          = Py.lower (Sha1.hexdigest (Notification.sign_string YOOMONEY_SECRET params))
          /\ Py.lower (default "false" (params !! "codepro")) = "false"
          /\ params !! "currency" = Some "643")
  /\ (BotHandler.is_valid YOOMONEY_SECRET (Notification.normalize raw) = false ->
      (BotHandler.on_yoomoney_notification YOOMONEY_SECRET raw clk db).2 = db)
  /\ (WebhookHandler.is_valid YOOMONEY_SECRET (Notification.normalize raw) = false ->
      (WebhookHandler.yoomoney_webhook YOOMONEY_SECRET raw clk db).2 = db).
Proof.
  split; [|split; [|split]].
  - unfold BotHandler.is_valid. rewrite andb_true_iff.
    rewrite hash_matches_spec, codepro_ok_spec. reflexivity.
  - unfold WebhookHandler.is_valid. rewrite !andb_true_iff.
    rewrite hash_matches_spec, codepro_ok_spec, currency_ok_spec.
    unfold Notification.sha1_hex. tauto.
  - intros H. rewrite bot_rejects by exact H. reflexivity.
  - intros H. rewrite webhook_rejects by exact H. reflexivity.
Qed.

Lemma verifier_accepts_iff_witness :
  BotHandler.is_valid "s3cret" (Notification.normalize signed_tampered) = false
  /\ (BotHandler.on_yoomoney_notification "s3cret" signed_tampered clock0 one_user).2
     = one_user.
Proof.
  assert (H : BotHandler.is_valid "s3cret" (Notification.normalize signed_tampered)
              = false) by (vm_compute; reflexivity).
  split; [exact H|].
  exact (proj1 (proj2 (proj2
    (verifier_accepts_iff "s3cret" ∅ signed_tampered clock0 one_user))) H).
Defined.

(** C1 as stated fails: a correctly signed notification whose [codepro]
    field is ["FALSE"], not ["false"], is accepted by both handlers and
    credited. *)
Lemma codepro_upper_case_is_credited :
  Notification.normalize signed_codepro_upper !! "codepro" = Some "FALSE"
  /\ String.eqb "FALSE" "false" = false
  /\ BotHandler.is_valid "s3cret" (Notification.normalize signed_codepro_upper) = true
  /\ WebhookHandler.is_valid "s3cret" (Notification.normalize signed_codepro_upper) = true
  /\ (BotHandler.on_yoomoney_notification "s3cret" signed_codepro_upper clock0
        bot_table).1
     = Credited 123456789 1
  /\ (WebhookHandler.yoomoney_webhook "s3cret" signed_codepro_upper clock0
        payments_table).1
     = Credited 123456789 1.
Proof. vm_compute. repeat split; reflexivity. Qed.

(** C2. The base string is the eight fields in their fixed order (the
    empty string for a missing one), joined by [&], followed by [&] and
    the secret; the secret is the configured value and the payload's
    [secret] field only when none is configured; the received hash is
    [sha1_hash], else [md5], else [notification_secret]; and the check
    compares it, letter case apart, with the SHA-1 hex digest of the base
    string. *)
Theorem signature_base_string
    (YOOMONEY_SECRET : string) (params : gmap string string) :
  Notification.sign_string YOOMONEY_SECRET params
    = Spec.base_string YOOMONEY_SECRET params
  /\ Notification.secret YOOMONEY_SECRET params
     = (if String.eqb YOOMONEY_SECRET "" then Spec.field params "secret"
        else YOOMONEY_SECRET)
  /\ Notification.received_hash params = Spec.received params
  /\ Notification.sha1_hex YOOMONEY_SECRET params
     = Sha1.hexdigest (Spec.base_string YOOMONEY_SECRET params)
  /\ (Notification.hash_matches YOOMONEY_SECRET params = true
      <-> Py.lower (Spec.received params)
          = Py.lower (Sha1.hexdigest (Spec.base_string YOOMONEY_SECRET params))).
Proof.
  split; [apply sign_string_refines|].
  split; [apply secret_refines|].
  split; [apply received_hash_refines|].
  split.
  - unfold Notification.sha1_hex. now rewrite sign_string_refines.
  - rewrite hash_matches_spec. unfold Notification.sha1_hex.
    now rewrite sign_string_refines, received_hash_refines.
Qed.

(** C10. A notification in which none of [sha1_hash], [md5],
    [notification_secret] is present with a non-empty value is rejected,
    whatever its other fields and the configured secret: the received hash
    is then the empty string, which no 40-character digest equals.  Both
    handlers answer with the rejection and leave the table as it was. *)
Theorem unsigned_notification_rejected
    (YOOMONEY_SECRET : string) (params : gmap string string)
    (H1 : Spec.present (params !! "sha1_hash") = false)
    (H2 : Spec.present (params !! "md5") = false)
    (H3 : Spec.present (params !! "notification_secret") = false) :
  Notification.received_hash params = ""
  /\ String.length (Notification.sha1_hex YOOMONEY_SECRET params) = 40%nat
  /\ BotHandler.is_valid YOOMONEY_SECRET params = false
  /\ WebhookHandler.is_valid YOOMONEY_SECRET params = false
  /\ forall raw clk db,
       Notification.normalize raw = params ->
       BotHandler.on_yoomoney_notification YOOMONEY_SECRET raw clk db
       = (InvalidSignature (Notification.sha1_hex YOOMONEY_SECRET params) "", db)
       /\ WebhookHandler.yoomoney_webhook YOOMONEY_SECRET raw clk db
          = (InvalidSignature (Notification.sha1_hex YOOMONEY_SECRET params) "", db).
Proof.
  assert (He : Notification.received_hash params = "").
  { unfold Notification.received_hash. now rewrite !get_or_absent. }
  assert (Hm : Notification.hash_matches YOOMONEY_SECRET params = false)
    by (apply empty_hash_rejected; exact He).
  assert (Hb : BotHandler.is_valid YOOMONEY_SECRET params = false)
    by (unfold BotHandler.is_valid; now rewrite Hm).
  assert (Hw : WebhookHandler.is_valid YOOMONEY_SECRET params = false)
    by (unfold WebhookHandler.is_valid; now rewrite Hm).
  split; [exact He|]. split; [apply hexdigest_length|].
  split; [exact Hb|]. split; [exact Hw|].
  intros raw clk db <-. split.
  - rewrite bot_rejects by exact Hb. now rewrite He.
  - rewrite webhook_rejects by exact Hw. now rewrite He.
Qed.

Lemma unsigned_notification_rejected_witness :
  BotHandler.on_yoomoney_notification "s3cret" unsigned clock0 one_user
  = (InvalidSignature
       (Notification.sha1_hex "s3cret" (Notification.normalize unsigned)) "",
     one_user).
Proof.
  refine (proj1 (proj2 (proj2 (proj2 (proj2
    (unsigned_notification_rejected "s3cret" (Notification.normalize unsigned)
       _ _ _)))) unsigned clock0 one_user eq_refl));
    vm_compute; reflexivity.
Defined.

(** ** Tampering with the signature *)

Lemma set_char_present i c h :
  Spec.present (Some h) = true -> Spec.present (Some (Spec.set_char i c h)) = true.
Proof. destruct h as [|a h], i; cbn; congruence. Qed.

Lemma lower_set_char_differs i c a h :
  String.get i h = Some a ->
  Py.lower_ascii c <> Py.lower_ascii a ->
  Py.lower (Spec.set_char i c h) <> Py.lower h.
Proof.
  revert i. induction h as [|b h IH]; intros i Hget Hne; [discriminate|].
  destruct i as [|i]; cbn in *.
  - injection Hget as ->. intros Heq. injection Heq as Heq. contradiction.
  - intros Heq. injection Heq as Heq. exact (IH i Hget Hne Heq).
Qed.

Lemma hash_field_cases params k :
  Spec.hash_field params = Some k ->
  k = "sha1_hash" \/ k = "md5" \/ k = "notification_secret".
Proof.
  unfold Spec.hash_field.
  repeat (destruct (Spec.present _)); intros H; inversion H; tauto.
Qed.

Lemma sign_string_hash_field YOOMONEY_SECRET params k v :
  k = "sha1_hash" \/ k = "md5" \/ k = "notification_secret" ->
  Notification.sign_string YOOMONEY_SECRET (<[k := v]> params)
  = Notification.sign_string YOOMONEY_SECRET params.
Proof.
  intros Hk. unfold Notification.sign_string, Notification.secret, Notification.get.
  cbn [List.map Notification.ordered_keys].
  destruct Hk as [-> | [-> | ->]]; rewrite !lookup_insert_ne by discriminate;
    reflexivity.
Qed.

Lemma received_hash_hash_field params k v :
  Spec.hash_field params = Some k ->
  Spec.present (Some v) = true ->
  Notification.received_hash (<[k := v]> params) = v.
Proof.
  unfold Spec.hash_field, Notification.received_hash. intros Hk Hv.
  destruct (Spec.present (params !! "sha1_hash")) eqn:E1.
  { injection Hk as <-. rewrite lookup_insert_eq.
    now rewrite get_or_present by exact Hv. }
  destruct (Spec.present (params !! "md5")) eqn:E2.
  { injection Hk as <-. rewrite lookup_insert_ne by discriminate.
    rewrite get_or_absent by exact E1. rewrite lookup_insert_eq.
    now rewrite get_or_present by exact Hv. }
  destruct (Spec.present (params !! "notification_secret")) eqn:E3;
    [|discriminate].
  injection Hk as <-. rewrite !lookup_insert_ne by discriminate.
  rewrite get_or_absent by exact E1. rewrite get_or_absent by exact E2.
  rewrite lookup_insert_eq. now rewrite get_or_present by exact Hv.
Qed.

Lemma received_hash_of_field params k h :
  Spec.hash_field params = Some k -> params !! k = Some h ->
  Notification.received_hash params = h /\ Spec.present (Some h) = true.
Proof.
  unfold Spec.hash_field, Notification.received_hash. intros Hk Hh.
  destruct (Spec.present (params !! "sha1_hash")) eqn:E1.
  { injection Hk as <-. rewrite Hh in *. split; [|exact E1].
    now rewrite get_or_present by exact E1. }
  rewrite get_or_absent by exact E1.
  destruct (Spec.present (params !! "md5")) eqn:E2.
  { injection Hk as <-. rewrite Hh in *. split; [|exact E2].
    now rewrite get_or_present by exact E2. }
  rewrite get_or_absent by exact E2.
  destruct (Spec.present (params !! "notification_secret")) eqn:E3;
    [|discriminate].
  injection Hk as <-. rewrite Hh in *. split; [|exact E3].
  now rewrite get_or_present by exact E3.
Qed.

(** C6, as the code has it.  Take a notification whose signature check
    passes, and change one character of the field the received hash comes
    from to a character that is not the same letter in the other case:
    the notification is rejected by both handlers. *)
Theorem tampered_signature_rejected
    (YOOMONEY_SECRET : string) (params : gmap string string)
    (k h : string) (i : nat) (a c : ascii)
    (Hvalid : Notification.hash_matches YOOMONEY_SECRET params = true)
    (Hfield : Spec.hash_field params = Some k)
    (Hhash : params !! k = Some h)
    (Hchar : String.get i h = Some a)
    (Hother : Py.lower_ascii c <> Py.lower_ascii a) :
  let params' := <[k := Spec.set_char i c h]> params in
  Notification.received_hash params' = Spec.set_char i c h
  /\ Notification.hash_matches YOOMONEY_SECRET params' = false
  /\ BotHandler.is_valid YOOMONEY_SECRET params' = false
  /\ WebhookHandler.is_valid YOOMONEY_SECRET params' = false.
Proof.
  intros params'.
  destruct (received_hash_of_field params k h Hfield Hhash) as [Hr Hp].
  assert (Hr' : Notification.received_hash params' = Spec.set_char i c h).
  { apply received_hash_hash_field; [exact Hfield|].
    apply set_char_present; exact Hp. }
  assert (Hm : Notification.hash_matches YOOMONEY_SECRET params' = false).
  { apply hash_matches_spec in Hvalid. rewrite Hr in Hvalid.
    unfold Notification.hash_matches. apply String.eqb_neq.
    rewrite Hr'. unfold Notification.sha1_hex, params'.
    rewrite sign_string_hash_field by (eapply hash_field_cases; exact Hfield).
    unfold Notification.sha1_hex in Hvalid. rewrite <- Hvalid.
    eapply lower_set_char_differs; eassumption. }
  split; [exact Hr'|]. split; [exact Hm|].
  unfold BotHandler.is_valid, WebhookHandler.is_valid. rewrite Hm.
  split; reflexivity.
Qed.

Lemma tampered_signature_rejected_witness :
  BotHandler.is_valid "s3cret"
    (<["sha1_hash" := Spec.set_char 0 "c" "b9ddc0075320b8434c14c5c67a60a4cf2e043293"]>
       (Notification.normalize signed_ok)) = false.
Proof.
  refine (proj1 (proj2 (proj2
    (tampered_signature_rejected "s3cret" (Notification.normalize signed_ok)
       "sha1_hash" "b9ddc0075320b8434c14c5c67a60a4cf2e043293" 0 "b" "c"
       _ _ _ _ _)))).
  - vm_compute; reflexivity.
  - vm_compute; reflexivity.
  - vm_compute; reflexivity.
  - reflexivity.
  - vm_compute. discriminate.
Defined.

(** C6 as stated fails: the signature of a valid notification with its
    first character [b] changed to [B] is a different text, and the
    notification is still accepted and credited by both handlers. *)
Lemma case_flipped_signature_is_accepted :
  BotHandler.is_valid "s3cret" (Notification.normalize signed_ok) = true
  /\ Notification.received_hash (Notification.normalize signed_case_flipped)
     = Spec.set_char 0 "B"
         (Notification.received_hash (Notification.normalize signed_ok))
  /\ String.eqb
       (Notification.received_hash (Notification.normalize signed_case_flipped))
       (Notification.received_hash (Notification.normalize signed_ok)) = false
  /\ BotHandler.is_valid "s3cret" (Notification.normalize signed_case_flipped) = true
  /\ WebhookHandler.is_valid "s3cret" (Notification.normalize signed_case_flipped)
     = true
  /\ (BotHandler.on_yoomoney_notification "s3cret" signed_case_flipped clock0
        bot_table).1
     = Credited 123456789 1
  /\ (WebhookHandler.yoomoney_webhook "s3cret" signed_case_flipped clock0
        payments_table).1
     = Credited 123456789 1.
Proof. vm_compute. repeat split; reflexivity. Qed.

(** ** Resolving the user from the label *)

Lemma strip_prefix_app p s rest :
  Spec.strip_prefix p s = Some rest -> s = p +:+ rest.
Proof.
  revert s. induction p as [|a p IH]; intros s H; cbn in *.
  - injection H as ->. reflexivity.
  - destruct s as [|b s]; [discriminate|].
    destruct (Ascii.eqb_spec a b) as [->|_]; [|discriminate].
    rewrite (IH s H). reflexivity.
Qed.

Lemma prefix_strip_prefix p s :
  String.prefix p s = match Spec.strip_prefix p s with
                      | Some _ => true
                      | None => false
                      end.
Proof.
  revert s. induction p as [|a p IH]; intros s.
  - destruct s; reflexivity.
  - destruct s as [|b s]; [reflexivity|]. simpl.
    destruct (ascii_dec a b) as [->|Hne].
    + rewrite Ascii.eqb_refl. apply IH.
    + destruct (Ascii.eqb_spec a b); [contradiction | reflexivity].
Qed.

Lemma append_empty_r s : s +:+ "" = s.
Proof.
  induction s as [|c s IH]; [reflexivity|].
  change (String c s +:+ "") with (String c (s +:+ "")). now rewrite IH.
Qed.

Lemma join_empty_cons x l : Py.join "" (x :: l) = x +:+ Py.join "" l.
Proof.
  destruct l as [|y l]; cbn; [now rewrite append_empty_r | reflexivity].
Qed.

(** The handlers' comprehension gives the digit characters in their
    order. *)
Lemma digits_refines label :
  Notification.digits label = Spec.digit_characters (Py.chars label).
Proof.
  unfold Notification.digits.
  induction (Py.chars label) as [|ch cs IH]; [reflexivity|].
  cbn [List.filter Spec.digit_characters].
  destruct (Py.char_isdigit ch); [|exact IH].
  now rewrite join_empty_cons, IH.
Qed.

Lemma char_isdigit_nonempty ch : Py.char_isdigit ch = true -> ch <> "".
Proof. intros H ->. vm_compute in H. discriminate. Qed.

Lemma digit_characters_empty cs :
  Spec.digit_characters cs = ""
  <-> List.existsb Py.char_isdigit cs = false.
Proof.
  induction cs as [|ch cs IH]; cbn; [tauto|].
  destruct (Py.char_isdigit ch) eqn:E; cbn; [|exact IH].
  split; [|discriminate].
  intros H. pose proof (char_isdigit_nonempty ch E) as Hne.
  destruct ch; [congruence | discriminate].
Qed.

Lemma stripped_none label :
  Spec.stripped label = None <-> Spec.has_digit label = false.
Proof.
  unfold Spec.stripped, Spec.has_digit.
  rewrite <- digit_characters_empty.
  destruct (Spec.digit_characters (Py.chars label)); split;
    congruence || discriminate.
Qed.

Lemma isdigit_has_digit s : Py.isdigit s = true -> Spec.has_digit s = true.
Proof.
  unfold Py.isdigit, Spec.has_digit.
  destruct (Py.chars s) as [|c cs]; [discriminate|]. cbn.
  intros H. apply andb_true_iff in H as [-> _]. reflexivity.
Qed.

Lemma split_user_id rest : Py.split1_tail ":" ("user_id:" +:+ rest) = Some rest.
Proof. reflexivity. Qed.

Lemma chars_user_id rest :
  Py.chars ("user_id:" +:+ rest)
  = ["u"; "s"; "e"; "r"; "_"; "i"; "d"; ":"] ++ Py.chars rest.
Proof. reflexivity. Qed.

Lemma has_digit_user_id rest :
  Spec.has_digit ("user_id:" +:+ rest) = Spec.has_digit rest.
Proof. unfold Spec.has_digit. rewrite chars_user_id. reflexivity. Qed.

(** [int] raises nothing but ValueError. *)
Lemma int_raises s e : Py.int s = Py.Raise e -> e = Py.ValueError.
Proof.
  unfold Py.int. destruct (Py.chars s) as [|c cs]; [congruence|].
  destruct (_ <=? _)%nat; [|congruence].
  destruct (Py.int_from 0 (c :: cs)); [discriminate | congruence].
Qed.

(** The bot's resolution follows the three documented steps: the first
    that applies answers, and only the third has its conversion error
    turned into "no user". *)
Lemma user_id_from_label_refines label :
  Notification.user_id_from_label label
  = match Spec.whole_label label, Spec.prefixed label, Spec.stripped label with
    | Some r, _, _ | None, Some r, _ => Notification.int_id_of r
    | None, None, Some (Py.Ok n) => Py.Ok (Some n)
    | None, None, Some (Py.Raise _) => Py.Ok None
    | None, None, None => Py.Ok None
    end.
Proof.
  unfold Notification.user_id_from_label, Spec.whole_label, Spec.prefixed,
    Spec.stripped, Py.startswith, Notification.int_id.
  rewrite digits_refines.
  destruct (Py.isdigit label).
  { destruct (Py.int label); reflexivity. }
  rewrite prefix_strip_prefix.
  assert (Hthird :
    match Spec.digit_characters (Py.chars label) with
    | "" => Py.Ok None
    | String _ _ as digits =>
        match Py.int digits with
        | Py.Ok n => Py.Ok (Some n)
        | Py.Raise Py.ValueError => Py.Ok None
        | Py.Raise e => Py.Raise e
        end
    end
    = match match Spec.digit_characters (Py.chars label) with
            | "" => None
            | String _ _ as digits => Some (Py.int digits)
            end with
      | Some (Py.Ok n) => Py.Ok (Some n)
      | Some (Py.Raise _) => Py.Ok None
      | None => Py.Ok None
      end).
  { destruct (Spec.digit_characters (Py.chars label)) as [|c d]; [reflexivity|].
    destruct (Py.int (String c d)) as [n|e] eqn:E; [reflexivity|].
    apply int_raises in E. subst e. reflexivity. }
  destruct (Spec.strip_prefix "user_id:" label) as [rest|] eqn:E.
  - pose proof (strip_prefix_app _ _ _ E) as Hl.
    assert (Hs : Py.split1_tail ":" label = Some rest)
      by (rewrite Hl; apply split_user_id).
    rewrite !Hs.
    destruct (Py.isdigit rest).
    + destruct (Py.int rest); reflexivity.
    + exact Hthird.
  - exact Hthird.
Qed.

(** So does the webhook's, where no conversion error is caught. *)
Lemma user_id_refines label :
  Notification.user_id label
  = match Spec.resolve label with
    | Some r => Notification.int_id_of r
    | None => Py.Ok None
    end.
Proof.
  unfold Notification.user_id, Spec.resolve, Spec.whole_label, Spec.prefixed,
    Spec.stripped, Py.startswith, Notification.int_id. cbn [Spec.first_of].
  rewrite digits_refines.
  destruct (Py.isdigit label).
  { destruct (Py.int label); reflexivity. }
  rewrite prefix_strip_prefix.
  destruct (Spec.strip_prefix "user_id:" label) as [rest|] eqn:E.
  - pose proof (strip_prefix_app _ _ _ E) as Hl.
    assert (Hs : Py.split1_tail ":" label = Some rest)
      by (rewrite Hl; apply split_user_id).
    rewrite !Hs.
    destruct (Py.isdigit rest).
    + destruct (Py.int rest); reflexivity.
    + destruct (Spec.digit_characters (Py.chars label)); reflexivity.
  - destruct (Spec.digit_characters (Py.chars label)); reflexivity.
Qed.

(** Both handlers extract an id exactly when the first step that applies
    gives one. *)
Lemma resolved_iff label uid :
  (Notification.user_id_from_label label = Py.Ok (Some uid)
   <-> Spec.resolve label = Some (Py.Ok uid))
  /\ (Notification.user_id label = Py.Ok (Some uid)
      <-> Spec.resolve label = Some (Py.Ok uid)).
Proof.
  rewrite user_id_from_label_refines, user_id_refines.
  unfold Spec.resolve. cbn [Spec.first_of].
  destruct (Spec.whole_label label) as [[n|e]|];
    [cbn; split; split; congruence | cbn; split; split; congruence |].
  destruct (Spec.prefixed label) as [[n|e]|];
    [cbn; split; split; congruence | cbn; split; split; congruence |].
  destruct (Spec.stripped label) as [[n|e]|]; cbn; split; split; congruence.
Qed.

(** There is a step that applies exactly when the label has a digit. *)
Lemma resolve_none label :
  Spec.resolve label = None <-> Spec.has_digit label = false.
Proof.
  unfold Spec.resolve, Spec.whole_label, Spec.prefixed. cbn [Spec.first_of].
  destruct (Py.isdigit label) eqn:E1.
  { rewrite (isdigit_has_digit _ E1). split; discriminate. }
  destruct (Spec.strip_prefix "user_id:" label) as [rest|] eqn:E2.
  - destruct (Py.isdigit rest) eqn:E3.
    + apply strip_prefix_app in E2. subst label.
      rewrite has_digit_user_id, (isdigit_has_digit _ E3). split; discriminate.
    + rewrite <- stripped_none. destruct (Spec.stripped label); split; congruence.
  - rewrite <- stripped_none. destruct (Spec.stripped label); split; congruence.
Qed.

Lemma unresolved_without_digit label :
  Spec.has_digit label = false ->
  Notification.user_id_from_label label = Py.Ok None
  /\ Notification.user_id label = Py.Ok None.
Proof.
  intros H. apply resolve_none in H.
  rewrite user_id_from_label_refines, user_id_refines, H.
  unfold Spec.resolve in H. cbn [Spec.first_of] in H.
  destruct (Spec.whole_label label); [discriminate|].
  destruct (Spec.prefixed label); [discriminate|].
  destruct (Spec.stripped label); [discriminate|]. split; reflexivity.
Qed.

(** C4. For every label the user id is found by trying, in order, the
    whole label as digits, then the digits after a [user_id:] prefix,
    then all the digit characters of the label put together: each handler
    extracts an id exactly when the first of these that applies spells a
    number, and then that number.  One of them applies exactly when the
    label has a digit; a label without a digit resolves to nothing
    (UnresolvedUser), and then neither handler credits anything: the
    table is as before.  (Digits that spell no number, as a superscript
    two does, end the webhook in its error answer and the bot in its error
    report, or in UnresolvedUser when met at the third step.) *)
Theorem label_resolution
    (label : string) (YOOMONEY_SECRET : string) (raw : list (string * string))
    (clk : Clock) (db : database) :
  (forall uid,
     Notification.user_id_from_label label = Py.Ok (Some uid)
     <-> Spec.first_of [Spec.whole_label label; Spec.prefixed label;
                        Spec.stripped label] = Some (Py.Ok uid))
  /\ (forall uid,
        Notification.user_id label = Py.Ok (Some uid)
        <-> Spec.first_of [Spec.whole_label label; Spec.prefixed label;
                           Spec.stripped label] = Some (Py.Ok uid))
  /\ (Spec.first_of [Spec.whole_label label; Spec.prefixed label;
                     Spec.stripped label] = None
      <-> Spec.has_digit label = false)
  /\ (forall e,
        Spec.first_of [Spec.whole_label label; Spec.prefixed label;
                       Spec.stripped label] = Some (Py.Raise e) ->
        Notification.user_id label = Py.Raise e
        /\ (Notification.user_id_from_label label = Py.Raise e
            \/ Notification.user_id_from_label label = Py.Ok None))
  /\ (Spec.has_digit label = false ->
      Notification.user_id_from_label label = Py.Ok None
      /\ Notification.user_id label = Py.Ok None)
  /\ (Spec.has_digit (Notification.get (Notification.normalize raw) "label") = false ->
      (BotHandler.on_yoomoney_notification YOOMONEY_SECRET raw clk db).2 = db
      /\ (WebhookHandler.yoomoney_webhook YOOMONEY_SECRET raw clk db).2 = db
      /\ (BotHandler.is_valid YOOMONEY_SECRET (Notification.normalize raw) = true ->
          (BotHandler.on_yoomoney_notification YOOMONEY_SECRET raw clk db).1
          = UnresolvedUser)
      /\ (WebhookHandler.is_valid YOOMONEY_SECRET (Notification.normalize raw) = true ->
          (WebhookHandler.yoomoney_webhook YOOMONEY_SECRET raw clk db).1
          = UnresolvedUser))
  /\ ((forall uid,
         Spec.resolve (Notification.get (Notification.normalize raw) "label")
         <> Some (Py.Ok uid)) ->
      (BotHandler.on_yoomoney_notification YOOMONEY_SECRET raw clk db).2 = db
      /\ (WebhookHandler.yoomoney_webhook YOOMONEY_SECRET raw clk db).2 = db).
Proof.
  assert (Hquiet :
    (forall uid,
       Spec.resolve (Notification.get (Notification.normalize raw) "label")
       <> Some (Py.Ok uid)) ->
    (BotHandler.on_yoomoney_notification YOOMONEY_SECRET raw clk db).2 = db
    /\ (WebhookHandler.yoomoney_webhook YOOMONEY_SECRET raw clk db).2 = db).
  { intros Hno. split.
    - destruct (Notification.user_id_from_label
                  (Notification.get (Notification.normalize raw) "label"))
        as [[uid|]|e] eqn:E.
      + apply resolved_iff in E. destruct (Hno uid E).
      + apply (bot_unresolved YOOMONEY_SECRET raw clk db E).
      + apply (bot_raises YOOMONEY_SECRET raw clk db e E).
    - destruct (Notification.user_id
                  (Notification.get (Notification.normalize raw) "label"))
        as [[uid|]|e] eqn:E.
      + apply resolved_iff in E. destruct (Hno uid E).
      + apply (webhook_unresolved YOOMONEY_SECRET raw clk db E).
      + apply (webhook_raises YOOMONEY_SECRET raw clk db e E). }
  split; [intros uid; apply resolved_iff|].
  split; [intros uid; apply resolved_iff|].
  split; [apply resolve_none|].
  split.
  { intros e He. change (Spec.resolve label = Some (Py.Raise e)) in He.
    rewrite user_id_from_label_refines, user_id_refines, He.
    unfold Spec.resolve in He. cbn [Spec.first_of] in He.
    split; [reflexivity|].
    destruct (Spec.whole_label label) as [r|].
    { injection He as ->. left. reflexivity. }
    destruct (Spec.prefixed label) as [r|].
    { injection He as ->. left. reflexivity. }
    destruct (Spec.stripped label) as [r|]; [|discriminate].
    injection He as ->. right. reflexivity. }
  split; [apply unresolved_without_digit|].
  split; [|exact Hquiet].
  intros Hl. destruct (unresolved_without_digit _ Hl) as [Hb Hw].
  destruct (bot_unresolved YOOMONEY_SECRET raw clk db Hb) as [B1 B2].
  destruct (webhook_unresolved YOOMONEY_SECRET raw clk db Hw) as [W1 W2].
  auto.
Qed.

Lemma label_resolution_witness :
  Notification.user_id_from_label "ab12c3" = Py.Ok (Some 123)
  /\ Notification.user_id "id 4 and 5" = Py.Ok (Some 45)
  /\ Spec.has_digit
       (Notification.get (Notification.normalize signed_no_digits) "label") = false
  /\ (BotHandler.on_yoomoney_notification "s3cret" signed_no_digits clock0 one_user).2
     = one_user
  /\ (BotHandler.on_yoomoney_notification "s3cret" signed_no_digits clock0 one_user).1
     = UnresolvedUser.
Proof.
  assert (H : Spec.has_digit
                (Notification.get (Notification.normalize signed_no_digits) "label")
              = false) by (vm_compute; reflexivity).
  destruct (proj1 (proj2 (proj2 (proj2 (proj2 (proj2
    (label_resolution "" "s3cret" signed_no_digits clock0 one_user)))))) H)
    as (H1 & _ & H3 & _).
  split.
  { apply (proj1 (label_resolution "ab12c3" "" [] clock0 one_user) 123).
    vm_compute. reflexivity. }
  split.
  { apply (proj1 (proj2 (label_resolution "id 4 and 5" "" [] clock0 one_user)) 45).
    vm_compute. reflexivity. }
  split; [exact H|]. split; [exact H1|].
  apply H3. vm_compute; reflexivity.
Defined.

(** ** The status loop of [kling_generate_video] *)

Lemma next_poll_interval_ge pi : 5 <= pi -> 5 <= next_poll_interval pi.
Proof. unfold next_poll_interval. destruct (pi <? 15) eqn:E; lia. Qed.

(** Every round sleeps at least five seconds, so the deadline check ends
    the loop: it always returns. *)
Lemma poll_loop_total w :
  forall fuel i elapsed pi slept,
    5 <= pi ->
    Z.max 0 (MAX_WAIT + 5 - elapsed) < 5 * Z.of_nat fuel ->
    exists r, poll_loop fuel w i elapsed pi slept = Some r.
Proof.
  induction fuel as [|fuel IH]; intros i elapsed pi slept Hpi Hfuel; [lia|].
  cbn [poll_loop].
  destruct (elapsed >? MAX_WAIT) eqn:E; [eauto|].
  assert (Hagain : exists r,
            poll_loop fuel w (S i) (elapsed + Z.of_nat (latency w i) + pi)
              (next_poll_interval pi) (slept ++ [pi]) = Some r).
  { apply IH; [apply next_poll_interval_ge; exact Hpi | lia]. }
  destruct (polls w i) as [| |m|status video reason]; eauto.
  destruct (String.eqb status "succeed"); [destruct video; eauto|].
  destruct (String.eqb status "failed"); eauto.
Qed.


Lemma iter_next_poll_interval n pi :
  Nat.iter n next_poll_interval (next_poll_interval pi)
  = next_poll_interval (Nat.iter n next_poll_interval pi).
Proof.
  induction n as [|n IH]; [reflexivity|].
  change (Nat.iter (S n) next_poll_interval (next_poll_interval pi))
    with (next_poll_interval (Nat.iter n next_poll_interval (next_poll_interval pi))).
  now rewrite IH.
Qed.

Lemma poll_intervals_snoc n : forall pi,
  poll_intervals (S n) pi
  = poll_intervals n pi ++ [Nat.iter n next_poll_interval pi].
Proof.
  induction n as [|n IH]; intros pi; [reflexivity|].
  change (poll_intervals (S (S n)) pi)
    with (pi :: poll_intervals (S n) (next_poll_interval pi)).
  rewrite IH, iter_next_poll_interval. reflexivity.
Qed.

(** The log of sleeps is the schedule 5, 8, 11, 14, 15, 15, ... *)
Lemma poll_loop_log w :
  forall fuel i elapsed n slept r,
    poll_loop fuel w i elapsed (Nat.iter n next_poll_interval 5)
              (poll_intervals n 5) = Some (slept, r) ->
    slept = poll_intervals (List.length slept) 5.
Proof.
  assert (Hlen : forall n pi, List.length (poll_intervals n pi) = n).
  { induction n as [|n IH]; intros pi; cbn; [reflexivity | now rewrite IH]. }
  induction fuel as [|fuel IH]; intros i elapsed n slept r H; [discriminate|].
  cbn [poll_loop] in H.
  assert (Hstop : forall r', Some (poll_intervals n 5, r') = Some (slept, r) ->
            slept = poll_intervals (List.length slept) 5).
  { intros r' Hr. injection Hr as <- _. now rewrite Hlen. }
  assert (Hagain :
            poll_loop fuel w (S i)
              (elapsed + Z.of_nat (latency w i) + Nat.iter n next_poll_interval 5)
              (next_poll_interval (Nat.iter n next_poll_interval 5))
              (poll_intervals n 5 ++ [Nat.iter n next_poll_interval 5])
            = Some (slept, r) ->
            slept = poll_intervals (List.length slept) 5).
  { rewrite <- poll_intervals_snoc. apply (IH (S i) _ (S n)). }
  destruct (elapsed >? MAX_WAIT); [eauto|].
  destruct (polls w i) as [| |m|status video reason]; eauto.
  destruct (String.eqb status "succeed"); [destruct video; eauto|].
  destruct (String.eqb status "failed"); eauto.
Qed.

Lemma kling_generate_video_total w fuel :
  (242 <= fuel)%nat -> exists r, kling_generate_video fuel w = Some r.
Proof.
  intros Hfuel. unfold kling_generate_video.
  destruct (submit w); eauto.
  apply poll_loop_total; [lia | unfold MAX_WAIT; lia].
Qed.

Lemma kling_generate_video_log w fuel slept r :
  kling_generate_video fuel w = Some (slept, r) ->
  slept = poll_intervals (List.length slept) 5.
Proof.
  unfold kling_generate_video.
  destruct (submit w); try (intros H; injection H as <- _; reflexivity).
  apply (poll_loop_log w fuel 0 0 0%nat).
Qed.

(** ** The retry loop of [_poll_and_send] *)

Lemma bump_delay_schedule k :
  bump_delay (Spec.delay_schedule k) = Spec.delay_schedule (S k).
Proof. destruct k as [|[|[|k]]]; reflexivity. Qed.

Lemma finish_quiet v :
  sleeps (finish v) = [] /\ notifications (finish v) = 0%nat
  /\ failed_attempts (finish v) = 0%nat /\ Forall polled_as_scheduled (finish v).
Proof.
  destruct v as [[|c u]|]; cbn; repeat split; repeat constructor.
Qed.

Lemma send_loop_scheduled worlds gen_fuel :
  (242 <= gen_fuel)%nat ->
  forall fuel k,
    (k < 20)%nat -> (20 <= fuel + k)%nat ->
    exists tr m,
      send_loop fuel gen_fuel worlds k (Z.of_nat k) (Spec.delay_schedule k) = Some tr
      /\ scheduled_from k tr m.
Proof.
  intros Hgen.
  induction fuel as [|fuel IH]; intros k Hk Hfuel; [lia|].
  cbn [send_loop].
  destruct (kling_generate_video_total (worlds k) gen_fuel Hgen) as [[slept r] Hr].
  rewrite Hr.
  pose proof (kling_generate_video_log _ _ _ _ Hr) as Hlog.
  assert (Hstop : forall v,
            is_failed_attempt (Generate k slept r) = false ->
            exists tr m,
              Some ([Sleep (Spec.delay_schedule k); Generate k slept r] ++ finish v)
              = Some tr /\ scheduled_from k tr m).
  { intros v Hnf. eexists; exists 1%nat. split; [reflexivity|].
    destruct (finish_quiet v) as (F1 & F2 & F3 & F4).
    unfold scheduled_from, notifications, failed_attempts in *.
    destruct r as [url|[| | | |]]; try discriminate Hnf;
      cbn [app sleeps flat_map List.filter is_notification is_failed_attempt
           List.seq List.map];
      fold (sleeps (finish v)); rewrite F1, F2, F3;
      (repeat split; try lia; try reflexivity);
      (constructor; [exact I|]; constructor; [exact Hlog | exact F4]). }
  assert (Hretry : is_failed_attempt (Generate k slept r) = true ->
            exists tr m,
              (let note := if Z.of_nat k =? 0 then NotifyWaitMinute
                           else NotifyChecking in
               if Z.of_nat k + 1 >=? 20
               then Some ([Sleep (Spec.delay_schedule k); Generate k slept r]
                            ++ [note] ++ finish None)
               else
                 match send_loop fuel gen_fuel worlds (S k) (Z.of_nat k + 1)
                                 (bump_delay (Spec.delay_schedule k)) with
                 | Some rest =>
                     Some ([Sleep (Spec.delay_schedule k); Generate k slept r]
                             ++ [note] ++ rest)
                 | None => None
                 end) = Some tr
              /\ scheduled_from k tr m).
  { intros Hf. cbv zeta.
    assert (Hnote : is_notification (if Z.of_nat k =? 0 then NotifyWaitMinute
                                     else NotifyChecking) = true
                    /\ is_failed_attempt (if Z.of_nat k =? 0 then NotifyWaitMinute
                                          else NotifyChecking) = false).
    { destruct (Z.of_nat k =? 0); split; reflexivity. }
    destruct Hnote as [Hn1 Hn2].
    assert (Hn3 : forall tr, sleeps ((if Z.of_nat k =? 0 then NotifyWaitMinute
                                     else NotifyChecking) :: tr) = sleeps tr).
    { intros tr. destruct (Z.of_nat k =? 0); reflexivity. }
    assert (Hg : forall tr, List.filter is_failed_attempt (Generate k slept r :: tr)
                            = Generate k slept r :: List.filter is_failed_attempt tr).
    { intros tr. cbn [List.filter]. now rewrite Hf. }
    assert (Hg' : forall tr, List.filter is_notification (Generate k slept r :: tr)
                             = List.filter is_notification tr) by reflexivity.
    assert (Hg'' : forall tr, sleeps (Generate k slept r :: tr) = sleeps tr)
      by reflexivity.
    assert (Hs : forall d tr, sleeps (Sleep d :: tr) = d :: sleeps tr)
      by reflexivity.
    assert (Hs1 : forall d tr, List.filter is_failed_attempt (Sleep d :: tr)
                               = List.filter is_failed_attempt tr) by reflexivity.
    assert (Hs2 : forall d tr, List.filter is_notification (Sleep d :: tr)
                               = List.filter is_notification tr) by reflexivity.
    destruct (Z.of_nat k + 1 >=? 20) eqn:Ecap.
    - eexists; exists 1%nat. split; [reflexivity|].
      unfold scheduled_from, notifications, failed_attempts.
      cbn [app finish]. rewrite Hs, Hg'', Hn3, Hs1, Hs2, Hg, Hg'.
      cbn [List.filter]. rewrite Hn1, Hn2.
      cbn. repeat split; try lia.
      repeat (constructor; try exact I; try exact Hlog).
      destruct (Z.of_nat k =? 0); exact I.
    - assert (Hk' : (S k < 20)%nat) by lia.
      destruct (IH (S k) Hk') as (rest & m & Hrest & Hm); [lia|].
      rewrite bump_delay_schedule.
      replace (Z.of_nat k + 1) with (Z.of_nat (S k)) by lia.
      rewrite Hrest. eexists; exists (S m). split; [reflexivity|].
      destruct Hm as (M1 & M2 & M3 & M4 & M5 & M6).
      unfold scheduled_from, notifications, failed_attempts in *.
      cbn [app]. rewrite Hs, Hg'', Hn3, M3, Hs1, Hs2, Hg, Hg'.
      cbn [List.filter]. rewrite Hn1, Hn2.
      cbn [List.length List.seq List.map]. rewrite M4.
      repeat split; try lia.
      constructor; [exact I|]. constructor; [exact Hlog|].
      constructor; [destruct (Z.of_nat k =? 0); exact I | exact M6]. }
  destruct r as [url|e].
  - apply (Hstop (Some url)). reflexivity.
  - destruct e; try (apply Hretry; reflexivity).
    apply (Hstop None). reflexivity.
Qed.

(** Every run starts with its wait, then the call. *)
Lemma send_loop_head worlds fuel gen_fuel k notify_count next_delay tr :
  send_loop fuel gen_fuel worlds k notify_count next_delay = Some tr ->
  exists slept r rest, tr = Sleep next_delay :: Generate k slept r :: rest.
Proof.
  destruct fuel as [|fuel]; [discriminate|]. cbn [send_loop].
  destruct (kling_generate_video gen_fuel (worlds k)) as [[slept r]|];
    [|discriminate].
  destruct r as [url|e].
  - intros H. injection H as <-. cbn. eauto.
  - destruct e;
      try (destruct (notify_count + 1 >=? 20);
           [|destruct (send_loop fuel gen_fuel worlds (S k) _ _); [|discriminate]]);
      intros H; injection H as <-; cbn; eauto.
Qed.

Lemma terminal_of_skip e1 e2 e3 rest :
  rest <> [] ->
  terminal_of (e1 :: e2 :: e3 :: rest) = terminal_of rest.
Proof.
  intros Hne. unfold terminal_of. destruct rest as [|e4 rest]; [congruence|].
  reflexivity.
Qed.











(** ** Sessions *)

Lemma fresh_session_ok : session_ok fresh_session.
Proof. intros [x Hx]. discriminate. Qed.

Lemma ensure_workdir_ok dir s : session_ok s -> session_ok (ensure_workdir dir s).
Proof. unfold ensure_workdir. destruct (workdir s); intros H; exact H. Qed.

(** The second image is stored only over a first one that is there. *)
Lemma store_image_ok b64 s : session_ok s -> session_ok (store_image b64 s).
Proof.
  unfold store_image, session_ok. intros Hs.
  destruct (falsy (start_b64 s)) eqn:E; cbn.
  - intros Hend. specialize (Hs Hend). congruence.
  - intros _. exact E.
Qed.

Lemma reset_ok st user_id : store_ok st -> store_ok (reset st user_id).
Proof.
  intros Hst a s. unfold reset. cbn.
  destruct (decide (next_addr st = a)) as [->|Hne].
  - rewrite lookup_insert_eq. intros H. injection H as <-. apply fresh_session_ok.
  - rewrite lookup_insert_ne by exact Hne. apply Hst.
Qed.

Lemma update_session_ok st a g :
  (forall s, session_ok s -> session_ok (g s)) ->
  store_ok st -> store_ok (update_session st a g).
Proof.
  intros Hg Hst b s. unfold update_session. cbn.
  destruct (decide (a = b)) as [->|Hne].
  - rewrite lookup_alter_eq. destruct (heap st !! b) as [s0|] eqn:E; cbn;
      [|discriminate].
    intros H. injection H as <-. apply Hg. exact (Hst b s0 E).
  - rewrite lookup_alter_ne by exact Hne. apply Hst.
Qed.

Lemma do_action_ok st act : store_ok st -> store_ok (do_action st act).
Proof.
  intros Hst. destruct act as [u|u|a dir|a b64]; cbn.
  - apply reset_ok; exact Hst.
  - unfold setdefault. destruct (SESSIONS st !! u); cbn;
      [exact Hst | apply reset_ok; exact Hst].
  - apply update_session_ok; [apply ensure_workdir_ok | exact Hst].
  - apply update_session_ok; [apply store_image_ok | exact Hst].
Qed.

Lemma reachable_ok st : reachable st -> store_ok st.
Proof.
  induction 1 as [|st act _ IH].
  - intros a s. cbn. rewrite lookup_empty. discriminate.
  - apply do_action_ok; exact IH.
Qed.

Lemma run_actions_reachable acts : forall st,
  reachable st -> reachable (run_actions st acts).
Proof.
  induction acts as [|act acts IH]; intros st Hst; [exact Hst|].
  apply IH. apply reach_step. exact Hst.
Qed.

(** The handlers are made of the steps. *)
Lemma cmd_start_reachable st user_id :
  reachable st -> reachable (cmd_start st user_id).
Proof. intros H. exact (reach_step st (Reset user_id) H). Qed.

Lemma on_image_reachable st user_id msg :
  reachable st -> reachable (on_image st user_id msg).
Proof.
  intros H. unfold on_image.
  pose proof (reach_step st (SetDefault user_id) H) as H1. cbn in H1.
  destruct (setdefault st user_id) as [a st1]. cbn in H1.
  destruct msg as [| |b64 dir].
  - exact H1.
  - exact (reach_step st1 (Reset user_id) H1).
  - pose proof (reach_step _ (EnsureWorkdir a dir) H1) as H2.
    pose proof (reach_step _ (StoreImage a b64) H2) as H3. cbn in H2, H3.
    destruct (match heap (update_session st1 a (ensure_workdir dir)) !! a with
              | Some s => falsy (start_b64 s)
              | None => true
              end).
    + exact H3.
    + exact (reach_step _ (Reset user_id) H3).
Qed.

Lemma session_of_reset st user_id :
  session_of (reset st user_id) user_id = Some fresh_session.
Proof.
  unfold session_of, reset. cbn. rewrite lookup_insert_eq.
  apply lookup_insert_eq.
Qed.

(** C8. In every reachable state a session that holds a second image
    holds a first one: this is so for every session object, bound to a
    user or still held by a running handler.  The intake stores the
    second image only where the first is present, and a reset binds the
    user to a fresh empty session. *)
Theorem second_image_only_after_first (st : store) (Hreach : reachable st) :
  (forall a s, heap st !! a = Some s ->
     is_Some (end_b64 s) -> is_Some (start_b64 s))
  /\ (forall user_id s, session_of st user_id = Some s ->
        is_Some (end_b64 s) -> is_Some (start_b64 s))
  /\ (forall b64 s, end_b64 (store_image b64 s) <> end_b64 s ->
        is_Some (start_b64 s))
  /\ (forall user_id, session_of (reset st user_id) user_id = Some fresh_session)
  /\ (forall user_id msg, reachable (on_image st user_id msg))
  /\ (forall user_id, reachable (cmd_start st user_id)
        /\ reachable (cmd_cancel st user_id)
        /\ reachable (start_flow_by_text st user_id)).
Proof.
  assert (Hset : forall s, falsy (start_b64 s) = false -> is_Some (start_b64 s)).
  { intros s. destruct (start_b64 s) as [x|]; [eauto | discriminate]. }
  pose proof (reachable_ok st Hreach) as Hok.
  split; [|split; [|split; [|split; [|split]]]].
  - intros a s Hs Hend. apply Hset. exact (Hok a s Hs Hend).
  - intros u s. unfold session_of. destruct (SESSIONS st !! u) as [a|];
      [|discriminate].
    intros Hs Hend. apply Hset. exact (Hok a s Hs Hend).
  - intros b64 s. unfold store_image.
    destruct (falsy (start_b64 s)) eqn:E; cbn; [congruence|].
    intros _. apply Hset. exact E.
  - intros u. apply session_of_reset.
  - intros u msg. apply on_image_reachable. exact Hreach.
  - intros u. repeat split; apply cmd_start_reachable; exact Hreach.
Qed.

Lemma second_image_only_after_first_witness :
  reachable two_images_stored
  /\ session_of two_images_stored 7
     = Some (mkSession (Some "AAAA") (Some "BBBB") (Some "runs/a"))
  /\ (forall s, session_of two_images_stored 7 = Some s ->
        is_Some (end_b64 s) -> is_Some (start_b64 s)).
Proof.
  assert (H : reachable two_images_stored).
  { apply run_actions_reachable. apply reach_init. }
  split; [exact H|]. split; [vm_compute; reflexivity|].
  exact (proj1 (proj2 (second_image_only_after_first two_images_stored H)) 7).
Defined.

(** * More properties of the code *)

(** ** [set_user_balance] and sequences of increments *)

(** X1. [set_user_balance] stores the value as given (it does not clamp):
    for a user id and a value that fit the 64-bit INTEGER column,
    [get_user_balance] reads the value back, whatever was there, and the
    rows of the other users are untouched.  So for the copy in
    kling_bot.py, and for the one in payments.py on a table that has its
    [username] column; an id or a value that does not fit is refused with
    OverflowError, and without the column the statement of payments.py is
    refused with OperationalError. *)
Theorem set_then_get (db : database) (clk : Clock) (user_id value : Z)
    (last : option string) (uname : option string) :
  (storable user_id = true -> storable value = true ->
   exists db',
     KlingBotSet.set_user_balance db clk user_id value last = Py.Ok db'
     /\ get_user_balance db' user_id = Py.Ok value
     /\ (forall other, other <> user_id -> rows db' !! other = rows db !! other))
  /\ (storable user_id = true -> storable value = true ->
      username_column db = true ->
      exists db',
        PaymentsSet.set_user_balance db clk user_id value last uname = Py.Ok db'
        /\ get_user_balance db' user_id = Py.Ok value
        /\ (forall other, other <> user_id -> rows db' !! other = rows db !! other))
  /\ (storable user_id && storable value = false ->
      KlingBotSet.set_user_balance db clk user_id value last
      = Py.Raise Py.OverflowError
      /\ (username_column db = true ->
          PaymentsSet.set_user_balance db clk user_id value last uname
          = Py.Raise Py.OverflowError))
  /\ (username_column db = false ->
      PaymentsSet.set_user_balance db clk user_id value last uname
      = Py.Raise Py.OperationalError).
Proof.
  unfold PaymentsSet.set_user_balance, KlingBotSet.set_user_balance,
    get_user_balance.
  split; [|split; [|split]].
  - intros Hid Hv. rewrite Hid, Hv. cbn [andb negb].
    destruct (rows db !! user_id) as [r|]; eexists; (split; [reflexivity|]);
      unfold balance, put; cbn; rewrite lookup_insert_eq;
      (split; [reflexivity|]);
      intros other Hne; rewrite lookup_insert_ne by congruence; reflexivity.
  - intros Hid Hv Hcol. rewrite Hid, Hv, Hcol. cbn [andb negb].
    destruct (rows db !! user_id) as [r|]; eexists; (split; [reflexivity|]);
      unfold balance, put; cbn; rewrite lookup_insert_eq;
      (split; [reflexivity|]);
      intros other Hne; rewrite lookup_insert_ne by congruence; reflexivity.
  - intros H. rewrite H. cbn [negb]. split; [reflexivity|].
    intros ->. reflexivity.
  - intros ->. reflexivity.
Qed.

Lemma set_then_get_witness :
  exists db',
    KlingBotSet.set_user_balance one_user_bot clock0 7 (-5) None = Py.Ok db'
    /\ get_user_balance db' 7 = Py.Ok (-5).
Proof.
  destruct (proj1 (set_then_get one_user_bot clock0 7 (-5) None None)
              eq_refl eq_refl) as (db' & H1 & H2 & _).
  exists db'. split; assumption.
Defined.

(** X2. The upsert of [set_user_balance] on a user who has a row keeps
    what the row records of its history: [created_at] and
    [total_spent_cents] stay, the user name stays unless a new one is
    given, and [updated_at] is refreshed; [last_payment_at] becomes the
    given time, or the current time when none or an empty one is given.
    (For an id and a value that fit the column, on a table with the
    [username] column.) *)
Theorem set_keeps_history (db : database) (clk : Clock) (user_id value : Z)
    (last : option string) (uname : option string) (old : Row)
    (Hold : rows db !! user_id = Some old)
    (Hid : storable user_id = true) (Hvalue : storable value = true)
    (Hcol : username_column db = true) :
  exists db' new,
    PaymentsSet.set_user_balance db clk user_id value last uname = Py.Ok db'
    /\ rows db' !! user_id = Some new
    /\ paid_generations new = value
    /\ created_at new = created_at old
    /\ total_spent_cents new = total_spent_cents old
    /\ updated_at new = sql_now clk
    /\ (uname = None -> username new = username old)
    /\ (forall name, uname = Some name -> username new = Some name)
    /\ (Spec.present last = false -> last_payment_at new = Some (utc_iso clk))
    /\ (forall t, last = Some t -> Spec.present last = true ->
          last_payment_at new = Some t).
Proof.
  unfold PaymentsSet.set_user_balance. rewrite Hold, Hid, Hvalue, Hcol.
  cbn [andb negb]. do 2 eexists. split; [reflexivity|].
  unfold put. cbn [rows]. rewrite lookup_insert_eq.
  split; [reflexivity|]. cbn.
  split; [reflexivity|]. split; [reflexivity|]. split; [reflexivity|].
  split; [reflexivity|].
  split; [intros ->; reflexivity|].
  split; [intros name ->; reflexivity|].
  split.
  - intros H. now rewrite get_or_absent.
  - intros t -> H. now rewrite get_or_present.
Qed.

Lemma set_keeps_history_witness :
  exists db' new,
    PaymentsSet.set_user_balance one_user clock0 7 10 (Some "") None = Py.Ok db'
    /\ rows db' !! 7 = Some new
    /\ username new = Some "ann"
    /\ last_payment_at new = Some (utc_iso clock0).
Proof.
  destruct (set_keeps_history one_user clock0 7 10 (Some "") None
              (mkRow (Some "ann") 3 (Some "2025-01-01T00:00:00") 0 "c" "u"))
    as (db' & new & H0 & H1 & _ & _ & _ & _ & H2 & _ & H3 & _);
    try reflexivity.
  exists db', new. split; [exact H0|]. split; [exact H1|].
  split; [apply H2 | apply H3]; reflexivity.
Defined.

(** One call on a table with the column, for an id that fits: the balance
    becomes the clamped sum when that fits, and the call raises when it
    does not. *)
Lemma increment_step db clk user_id delta uname :
  storable user_id = true -> username_column db = true ->
  balance db user_id <= max_int64 ->
  0 <= balance db user_id ->
  let new_val := Z.max 0 (balance db user_id + delta) in
  (new_val <= max_int64 ->
   exists db',
     Payments.increment_user_balance db clk user_id delta uname
     = Py.Ok (new_val, db')
     /\ balance db' user_id = new_val
     /\ username_column db' = true)
  /\ (max_int64 < new_val ->
      Payments.increment_user_balance db clk user_id delta uname
      = Py.Raise Py.OverflowError).
Proof.
  intros Hid Hcol Hstored Hb new_val.
  destruct (Z.eq_dec delta 0) as [->|Hd].
  - destruct (increment_zero db clk user_id uname) as [H _].
    rewrite H, Hid. subst new_val. rewrite Z.add_0_r, Z.max_r by exact Hb.
    split; [|lia]. intros _. exists db. auto.
  - split.
    + intros Hfit. eexists. rewrite increment_nonzero by assumption.
      split; [reflexivity|].
      rewrite balance_put, written_row_balance. split; [reflexivity | exact Hcol].
    + intros Hbig. apply increment_overflow; assumption.
Qed.

(** The balance after a sequence of calls that all fit. *)
Lemma increments_balance user_id calls : forall db,
  storable user_id = true -> username_column db = true ->
  0 <= balance db user_id ->
  Forall (fun c => 0 <= by_delta c) calls ->
  balance db user_id + total calls <= max_int64 ->
  exists db',
    increments db user_id calls = Py.Ok db'
    /\ balance db' user_id = balance db user_id + total calls.
Proof.
  intros db Hid. revert db.
  induction calls as [|c calls IH]; intros db Hcol Hb Hall Hfit.
  { exists db. split; [reflexivity|]. cbn. lia. }
  inversion Hall as [|? ? Hc Hrest]; subst.
  change (total (c :: calls)) with (by_delta c + total calls) in *.
  assert (Htot : 0 <= total calls).
  { clear -Hrest. induction Hrest as [|x l Hx _ IHl]; [cbn; lia|].
    change (total (x :: l)) with (by_delta x + total l). lia. }
  destruct (increment_step db (at_clock c) user_id (by_delta c) (as_name c))
    as [Hok _]; try assumption; [lia|].
  destruct Hok as (db1 & H1 & H2 & H3); [lia|].
  cbn [increments]. rewrite H1.
  destruct (IH db1) as (db' & I1 & I2); try assumption; [lia | lia |].
  exists db'. split; [exact I1|]. rewrite I2, H2. lia.
Qed.

(** A sequence of credits whose sum does not fit raises. *)
Lemma increments_overflow user_id calls : forall db,
  storable user_id = true -> username_column db = true ->
  0 <= balance db user_id -> balance db user_id <= max_int64 ->
  Forall (fun c => 0 <= by_delta c) calls ->
  max_int64 < balance db user_id + total calls ->
  increments db user_id calls = Py.Raise Py.OverflowError.
Proof.
  intros db Hid. revert db.
  induction calls as [|c calls IH]; intros db Hcol Hb Hstored Hall Hbig.
  { cbn in Hbig. lia. }
  inversion Hall as [|? ? Hc Hrest]; subst.
  change (total (c :: calls)) with (by_delta c + total calls) in *.
  destruct (increment_step db (at_clock c) user_id (by_delta c) (as_name c))
    as [Hok Hraise]; try assumption.
  cbn [increments].
  destruct (Z_le_gt_dec (Z.max 0 (balance db user_id + by_delta c)) max_int64)
    as [Hfit|Hover].
  - destruct (Hok Hfit) as (db1 & H1 & H2 & H3). rewrite H1.
    apply IH; try assumption; lia.
  - rewrite Hraise by lia. reflexivity.
Qed.

Lemma total_permutation calls calls' :
  Permutation calls calls' -> total calls = total calls'.
Proof.
  induction 1 as [|c l l' _ IH|c c' l|l l' l'' _ IH1 _ IH2].
  - reflexivity.
  - change (by_delta c + total l = by_delta c + total l'). lia.
  - change (by_delta c' + (by_delta c + total l)
            = by_delta c + (by_delta c' + total l)). lia.
  - lia.
Qed.

(** X3. Credits add up: after any sequence of calls with non-negative
    deltas the balance is the balance before plus the sum of the deltas,
    whatever the order of the calls, as long as that sum is at most
    2^63 - 1; when it is more, a call of the sequence raises
    OverflowError.  (payments.py's copy, for a user id that fits the
    column, on a table with the [username] column.) *)
Theorem credits_add_up (db : database) (user_id : Z) (calls : list call)
    (Hid : storable user_id = true) (Hcol : username_column db = true)
    (Hb : 0 <= balance db user_id) (Hstored : balance db user_id <= max_int64)
    (Hcredits : Forall (fun c => 0 <= by_delta c) calls) :
  (balance db user_id + total calls <= max_int64 ->
   exists db',
     increments db user_id calls = Py.Ok db'
     /\ balance db' user_id = balance db user_id + total calls
     /\ forall calls',
          Permutation calls calls' ->
          exists db'',
            increments db user_id calls' = Py.Ok db''
            /\ balance db'' user_id = balance db' user_id)
  /\ (max_int64 < balance db user_id + total calls ->
      increments db user_id calls = Py.Raise Py.OverflowError).
Proof.
  split.
  - intros Hfit.
    destruct (increments_balance user_id calls db Hid Hcol Hb Hcredits Hfit)
      as (db' & H1 & H2).
    exists db'. split; [exact H1|]. split; [exact H2|].
    intros calls' Hperm.
    pose proof (total_permutation _ _ Hperm) as Ht.
    destruct (increments_balance user_id calls' db Hid Hcol Hb) as (db'' & I1 & I2).
    + eapply Permutation_Forall; eassumption.
    + lia.
    + exists db''. split; [exact I1|]. lia.
  - intros Hbig. apply increments_overflow; assumption.
Qed.

Lemma credits_add_up_witness :
  exists db',
    increments one_user 7 [mkCall clock0 2 None; mkCall clock0 0 None;
                           mkCall clock0 5 (Some "bob")] = Py.Ok db'
    /\ balance db' 7 = balance one_user 7 + 7.
Proof.
  destruct (credits_add_up one_user 7
              [mkCall clock0 2 None; mkCall clock0 0 None;
               mkCall clock0 5 (Some "bob")]) as [H _].
  - reflexivity.
  - reflexivity.
  - vm_compute. discriminate.
  - vm_compute. discriminate.
  - repeat constructor; cbn; lia.
  - destruct H as (db' & H1 & H2 & _); [vm_compute; discriminate|].
    exists db'. split; [exact H1 | exact H2].
Defined.

(** X4. A credit followed by the same debit gives back the balance, but
    a debit followed by the same credit does not when the debit was
    clamped: the balance is then the larger of the old balance and the
    amount.  (For sums that fit the column: balance plus amount at most
    2^63 - 1.) *)
Theorem credit_debit_round_trip (db : database) (user_id d : Z)
    (c1 c2 : Clock) (n1 n2 : option string)
    (Hid : storable user_id = true) (Hcol : username_column db = true)
    (Hb : 0 <= balance db user_id) (Hd : 0 <= d)
    (Hfit : balance db user_id + d <= max_int64) :
  (exists db',
     increments db user_id [mkCall c1 d n1; mkCall c2 (- d) n2] = Py.Ok db'
     /\ balance db' user_id = balance db user_id)
  /\ (exists db',
        increments db user_id [mkCall c1 (- d) n1; mkCall c2 d n2] = Py.Ok db'
        /\ balance db' user_id = Z.max (balance db user_id) d).
Proof.
  assert (Hstored : balance db user_id <= max_int64) by lia.
  split.
  - destruct (increment_step db c1 user_id d n1) as [Hok _]; try assumption.
    destruct Hok as (db1 & H1 & H2 & H3); [lia|].
    destruct (increment_step db1 c2 user_id (- d) n2) as [Hok _];
      try assumption; [lia | lia |].
    destruct Hok as (db2 & I1 & I2 & I3); [lia|].
    exists db2. cbn [increments at_clock by_delta as_name]. rewrite H1, I1.
    split; [reflexivity|]. lia.
  - destruct (increment_step db c1 user_id (- d) n1) as [Hok _]; try assumption.
    destruct Hok as (db1 & H1 & H2 & H3); [lia|].
    destruct (increment_step db1 c2 user_id d n2) as [Hok _];
      try assumption; [lia | lia |].
    destruct Hok as (db2 & I1 & I2 & I3); [lia|].
    exists db2. cbn [increments at_clock by_delta as_name]. rewrite H1, I1.
    split; [reflexivity|]. lia.
Qed.

Lemma credit_debit_round_trip_witness :
  exists db',
    increments one_user 7 [mkCall clock0 (- 1000) None; mkCall clock0 1000 None]
    = Py.Ok db'
    /\ balance db' 7 = Z.max (balance one_user 7) 1000.
Proof.
  refine (proj2 (credit_debit_round_trip one_user 7 1000 clock0 clock0 None None
                   _ _ _ _ _)).
  - reflexivity.
  - reflexivity.
  - vm_compute. discriminate.
  - lia.
  - vm_compute. discriminate.
Defined.

(** X5. What an increment with a non-zero delta leaves alone on a user
    who has a row, when the new balance fits the column: [created_at] and
    [total_spent_cents] stay, the user name stays unless one is given,
    [last_payment_at] moves to the current time on a credit and stays on a
    debit, and [updated_at] is refreshed; no row of another user changes,
    whatever the delta.  When the new balance does not fit, the call
    raises and no row changes at all. *)
Theorem increment_audit_trail (db : database) (clk : Clock)
    (user_id delta : Z) (uname : option string) (old : Row)
    (Hold : rows db !! user_id = Some old) (Hdelta : delta <> 0)
    (Hid : storable user_id = true) :
  (Z.max 0 (paid_generations old + delta) <= max_int64 ->
   exists db' new,
     KlingBot.increment_user_balance db clk user_id delta
     = Py.Ok (Z.max 0 (paid_generations old + delta), db')
     /\ rows db' !! user_id = Some new
     /\ paid_generations new = Z.max 0 (paid_generations old + delta)
     /\ created_at new = created_at old
     /\ total_spent_cents new = total_spent_cents old
     /\ updated_at new = sql_now clk
     /\ username new = username old
     /\ (0 < delta -> last_payment_at new = Some (utc_iso clk))
     /\ (delta < 0 -> last_payment_at new = last_payment_at old)
     /\ (forall other, other <> user_id -> rows db' !! other = rows db !! other)
     /\ (username_column db = true ->
         Payments.increment_user_balance db clk user_id delta uname
         = Py.Ok (Z.max 0 (paid_generations old + delta),
                  put db user_id
                    (mkRow (match uname with Some _ => uname | None => username old end)
                       (paid_generations new) (last_payment_at new)
                       (total_spent_cents old) (created_at old) (sql_now clk)))))
  /\ (max_int64 < Z.max 0 (paid_generations old + delta) ->
      KlingBot.increment_user_balance db clk user_id delta
      = Py.Raise Py.OverflowError
      /\ (username_column db = true ->
          Payments.increment_user_balance db clk user_id delta uname
          = Py.Raise Py.OverflowError)).
Proof.
  assert (Hbal : balance db user_id = paid_generations old)
    by (unfold balance; now rewrite Hold).
  split.
  - intros Hfit. rewrite <- Hbal in Hfit.
    do 2 eexists. rewrite bot_increment_nonzero by assumption.
    rewrite Hbal. split; [reflexivity|].
    unfold written_row, put. cbn [rows]. rewrite Hold, lookup_insert_eq, Hbal.
    split; [reflexivity|]. cbn.
    split; [reflexivity|]. split; [reflexivity|]. split; [reflexivity|].
    split; [reflexivity|]. split; [reflexivity|].
    split; [intros H; destruct (Z.gtb_spec delta 0); [reflexivity | lia]|].
    split; [intros H; destruct (Z.gtb_spec delta 0); [lia | reflexivity]|].
    split.
    + intros other Hne. rewrite lookup_insert_ne by congruence. reflexivity.
    + intros Hcol. rewrite increment_nonzero by assumption.
      rewrite Hbal. unfold written_row, put. rewrite Hold, Hbal.
      destruct uname; reflexivity.
  - intros Hbig. rewrite <- Hbal in Hbig. split.
    + apply bot_increment_overflow; assumption.
    + intros Hcol. apply increment_overflow; assumption.
Qed.

Lemma increment_audit_trail_witness :
  exists db' new,
    KlingBot.increment_user_balance one_user_bot clock0 7 (- 1) = Py.Ok (2, db')
    /\ rows db' !! 7 = Some new
    /\ last_payment_at new = Some "2025-01-01T00:00:00"
    /\ updated_at new = sql_now clock0.
Proof.
  destruct (increment_audit_trail one_user_bot clock0 7 (- 1) None
              (mkRow None 3 (Some "2025-01-01T00:00:00") 0 "c" "u"))
    as [H _].
  - reflexivity.
  - lia.
  - reflexivity.
  - destruct H as (db' & new & H0 & H1 & _ & _ & _ & H2 & _ & _ & H3 & _).
    { vm_compute. discriminate. }
    exists db', new. split; [exact H0|]. split; [exact H1|].
    split; [apply H3; lia | exact H2].
Defined.

(** ** The label of the payment form, read back by the handlers *)

(** *** Characters and their bytes *)

Lemma append_assoc a b c : (a +:+ b) +:+ c = a +:+ (b +:+ c).
Proof.
  induction a as [|x a IH]; [reflexivity|].
  change ((String x a +:+ b) +:+ c) with (String x ((a +:+ b) +:+ c)).
  now rewrite IH.
Qed.

Lemma chars_from_cons pending need c rest :
  Py.chars_from pending need (String c rest)
  = match need with
    | O =>
        match Py.followers c with
        | O => String c EmptyString :: Py.chars_from EmptyString 0 rest
        | S n => Py.chars_from (String c EmptyString) (S n) rest
        end
    | S n =>
        if Py.is_continuation c then
          match n with
          | O => (pending +:+ String c EmptyString)
                   :: Py.chars_from EmptyString 0 rest
          | S _ => Py.chars_from (pending +:+ String c EmptyString) n rest
          end
        else
          pending
            :: match Py.followers c with
               | O => String c EmptyString :: Py.chars_from EmptyString 0 rest
               | S n => Py.chars_from (String c EmptyString) (S n) rest
               end
    end.
Proof. destruct need; reflexivity. Qed.

(** The continuation bytes a character still lacks complete it. *)
Lemma chars_from_continue rest : forall pending n s,
  String.length rest = S n -> Py.all_continuation rest = true ->
  Py.chars_from pending (S n) (rest +:+ s) = (pending +:+ rest) :: Py.chars s.
Proof.
  induction rest as [|c rest IH]; intros pending n s Hlen Hall; [discriminate|].
  cbn in Hlen. injection Hlen as Hlen.
  cbn in Hall. apply andb_true_iff in Hall as [Hc Hall].
  change (String c rest +:+ s) with (String c (rest +:+ s)).
  rewrite chars_from_cons, Hc.
  destruct n as [|n].
  - destruct rest; [|discriminate]. reflexivity.
  - rewrite (IH _ n s Hlen Hall), append_assoc. reflexivity.
Qed.

(** A well-formed character at the head of a text is its first
    character. *)
Lemma chars_well_formed ch s :
  Py.well_formed ch = true -> Py.chars (ch +:+ s) = ch :: Py.chars s.
Proof.
  destruct ch as [|a rest]; [discriminate|]. cbn [Py.well_formed].
  intros H. apply andb_true_iff in H as [Hlen Hall].
  apply Nat.eqb_eq in Hlen. unfold Py.chars at 1.
  change (String a rest +:+ s) with (String a (rest +:+ s)).
  rewrite chars_from_cons.
  destruct (Py.followers a) as [|n].
  - destruct rest; [reflexivity | discriminate].
  - now rewrite (chars_from_continue rest _ n s Hlen Hall).
Qed.

Lemma chars_join_well_formed l :
  Forall (fun ch => Py.well_formed ch = true) l -> Py.chars (Py.join "" l) = l.
Proof.
  induction 1 as [|ch l Hch _ IH]; [reflexivity|].
  rewrite join_empty_cons, chars_well_formed by exact Hch. now rewrite IH.
Qed.

Lemma code_point_well_formed ch :
  Py.code_point ch <> -1 -> Py.well_formed ch = true.
Proof.
  destruct ch as [|a [|b [|c [|d [|e r]]]]]; cbn [Py.code_point];
    try congruence; cbn [Py.well_formed Py.all_continuation String.length].
  - destruct (Z.ltb_spec (Py.byte a) 128) as [Ha|]; [|congruence]. intros _.
    unfold Py.followers.
    destruct (Z.ltb_spec (Py.byte a) 192); [reflexivity | lia].
  - destruct (Nat.eqb (Py.followers a) 1) eqn:Ea; [|cbn; congruence].
    apply Nat.eqb_eq in Ea. rewrite Ea.
    destruct (_ <=? _); [|cbn; congruence].
    destruct (Py.is_continuation b); [reflexivity | cbn; congruence].
  - destruct (Nat.eqb (Py.followers a) 2) eqn:Ea; [|cbn; congruence].
    apply Nat.eqb_eq in Ea. rewrite Ea.
    destruct (_ <=? _); [|cbn; congruence].
    destruct (Py.is_continuation b); [|cbn; congruence].
    destruct (Py.is_continuation c); [reflexivity | cbn; congruence].
  - destruct (Nat.eqb (Py.followers a) 3) eqn:Ea; [|cbn; congruence].
    apply Nat.eqb_eq in Ea. rewrite Ea.
    destruct (_ <=? _); [|cbn; congruence].
    destruct (_ <=? _); [|cbn; congruence].
    destruct (Py.is_continuation b); [|cbn; congruence].
    destruct (Py.is_continuation c); [|cbn; congruence].
    destruct (Py.is_continuation d); [reflexivity | cbn; congruence].
Qed.

Lemma char_isdigit_well_formed ch :
  Py.char_isdigit ch = true -> Py.well_formed ch = true.
Proof.
  intros H. apply code_point_well_formed. intros Hcp.
  unfold Py.char_isdigit, Py.char_isdecimal in H. rewrite Hcp in H.
  vm_compute in H. discriminate.
Qed.

(** The digit characters of a text, read again, are those characters. *)
Lemma chars_digit_characters cs :
  Py.chars (Spec.digit_characters cs) = List.filter Py.char_isdigit cs.
Proof.
  induction cs as [|ch cs IH]; [reflexivity|].
  cbn [Spec.digit_characters List.filter].
  destruct (Py.char_isdigit ch) eqn:E; [|exact IH].
  rewrite chars_well_formed by (apply char_isdigit_well_formed; exact E).
  now rewrite IH.
Qed.

Lemma digit_characters_app a b :
  Spec.digit_characters (a ++ b)
  = Spec.digit_characters a +:+ Spec.digit_characters b.
Proof.
  induction a as [|ch a IH]; [reflexivity|].
  cbn [app Spec.digit_characters].
  destruct (Py.char_isdigit ch); rewrite IH; [|reflexivity].
  now rewrite append_assoc.
Qed.

(** *** Numbers read from characters *)

Lemma decimal_value_range cp d : Py.decimal_value cp = Some d -> 0 <= d <= 9.
Proof.
  unfold Py.decimal_value.
  destruct (List.find _ Py.decimal_zeros) as [z|] eqn:E; [|discriminate].
  intros H. injection H as <-.
  apply List.find_some in E as [_ E].
  apply andb_true_iff in E as [H1 H2].
  apply Z.leb_le in H1. apply Z.ltb_lt in H2. lia.
Qed.

Lemma int_from_app a : forall acc b,
  Py.int_from acc (a ++ b)
  = match Py.int_from acc a with
    | Some v => Py.int_from v b
    | None => None
    end.
Proof.
  induction a as [|ch a IH]; intros acc b; [reflexivity|].
  cbn [app Py.int_from].
  destruct (Py.decimal_value (Py.code_point ch)); [apply IH | reflexivity].
Qed.

Lemma int_from_grows cs : forall acc v,
  0 <= acc -> Py.int_from acc cs = Some v -> acc <= v.
Proof.
  induction cs as [|ch cs IH]; intros acc v Hacc H; cbn [Py.int_from] in H.
  - injection H as <-. lia.
  - destruct (Py.decimal_value (Py.code_point ch)) as [d|] eqn:E; [|discriminate].
    apply decimal_value_range in E.
    assert (10 * acc + d <= v) by (apply IH; [lia | exact H]). lia.
Qed.

(** One more digit multiplies by ten at least. *)
Lemma int_from_shifts cs acc v :
  cs <> [] -> 0 <= acc -> Py.int_from acc cs = Some v -> 10 * acc <= v.
Proof.
  destruct cs as [|ch cs]; [congruence|]. intros _ Hacc H.
  cbn [Py.int_from] in H.
  destruct (Py.decimal_value (Py.code_point ch)) as [d|] eqn:E; [|discriminate].
  apply decimal_value_range in E.
  assert (10 * acc + d <= v) by (apply (int_from_grows cs); [lia | exact H]).
  lia.
Qed.

Lemma int_ok s v :
  Py.int s = Py.Ok v -> Py.chars s <> [] /\ Py.int_from 0 (Py.chars s) = Some v.
Proof.
  unfold Py.int. destruct (Py.chars s) as [|c cs]; [discriminate|].
  destruct (_ <=? _)%nat; [|discriminate].
  destruct (Py.int_from 0 (c :: cs)) as [n|]; [|discriminate].
  intros H. injection H as <-. split; [discriminate | reflexivity].
Qed.

Lemma int_of_chars s v :
  Py.chars s <> [] ->
  (List.length (Py.chars s) <= Py.int_max_str_digits)%nat ->
  Py.int_from 0 (Py.chars s) = Some v ->
  Py.int s = Py.Ok v.
Proof.
  unfold Py.int. destruct (Py.chars s) as [|c cs]; [congruence|].
  intros _ Hlen ->. apply Nat.leb_le in Hlen. now rewrite Hlen.
Qed.

(** *** The decimal text of a number *)

Lemma chars_ascii c s :
  Py.byte c < 128 -> Py.chars (String c s) = String c "" :: Py.chars s.
Proof.
  intros Hc. unfold Py.chars at 1. rewrite chars_from_cons.
  unfold Py.followers. destruct (Z.ltb_spec (Py.byte c) 192); [reflexivity | lia].
Qed.

(** What holds of the text of an unsigned decimal number, digit by
    digit. *)
Lemma uint_chars d :
  (forall s,
     Py.chars (NilEmpty.string_of_uint d +:+ s)
     = Py.chars (NilEmpty.string_of_uint d) ++ Py.chars s)
  /\ List.forallb Py.char_isdigit (Py.chars (NilEmpty.string_of_uint d)) = true
  /\ Spec.digit_characters (Py.chars (NilEmpty.string_of_uint d))
     = NilEmpty.string_of_uint d
  /\ List.length (Py.chars (NilEmpty.string_of_uint d))
     = String.length (NilEmpty.string_of_uint d)
  /\ Spec.strip_prefix "user_id:" (NilEmpty.string_of_uint d)
     = None.
Proof.
  assert (Hstep : forall (c : ascii) (t : string),
            Py.byte c < 128 -> Py.char_isdigit (String c "") = true ->
            ((forall s, Py.chars (t +:+ s) = Py.chars t ++ Py.chars s)
             /\ List.forallb Py.char_isdigit (Py.chars t) = true
             /\ Spec.digit_characters (Py.chars t) = t
             /\ List.length (Py.chars t) = String.length t) ->
            (forall s, Py.chars (String c t +:+ s)
                       = Py.chars (String c t) ++ Py.chars s)
            /\ List.forallb Py.char_isdigit (Py.chars (String c t)) = true
            /\ Spec.digit_characters (Py.chars (String c t)) = String c t
            /\ List.length (Py.chars (String c t)) = String.length (String c t)).
  { intros c t Hc Hd (H1 & H2 & H3 & H4).
    split; [|split; [|split]].
    - intros s. change (String c t +:+ s) with (String c (t +:+ s)).
      rewrite !chars_ascii by exact Hc. now rewrite H1.
    - rewrite chars_ascii by exact Hc. cbn [List.forallb]. now rewrite Hd, H2.
    - rewrite chars_ascii by exact Hc. cbn [Spec.digit_characters].
      now rewrite Hd, H3.
    - rewrite chars_ascii by exact Hc. cbn. now rewrite H4. }
  assert (Hall : (forall s,
                    Py.chars (NilEmpty.string_of_uint d +:+ s)
                    = Py.chars (NilEmpty.string_of_uint d) ++ Py.chars s)
                 /\ List.forallb Py.char_isdigit
                      (Py.chars (NilEmpty.string_of_uint d)) = true
                 /\ Spec.digit_characters (Py.chars (NilEmpty.string_of_uint d))
                    = NilEmpty.string_of_uint d
                 /\ List.length (Py.chars (NilEmpty.string_of_uint d))
                    = String.length (NilEmpty.string_of_uint d)).
  { induction d; cbn [NilEmpty.string_of_uint];
      [repeat split; reflexivity | ..];
      (apply Hstep; [vm_compute; reflexivity | vm_compute; reflexivity | exact IHd]). }
  destruct Hall as (A & B & C & D).
  split; [exact A|]. split; [exact B|]. split; [exact C|]. split; [exact D|].
  destruct d; reflexivity.
Qed.
Ltac eval_decimal_value :=
  match goal with
  | |- context [Py.decimal_value (Py.code_point ?c)] =>
      let v := eval vm_compute in (Py.decimal_value (Py.code_point c)) in
      change (Py.decimal_value (Py.code_point c)) with v
  end.

Lemma int_from_uint_acc d : forall acc,
  Py.int_from (Z.pos acc) (Py.chars (NilEmpty.string_of_uint d))
  = Some (Z.pos (Pos.of_uint_acc d acc)).
Proof.
  induction d; intros acc; cbn [NilEmpty.string_of_uint Pos.of_uint_acc];
    [reflexivity | ..];
    rewrite chars_ascii by (vm_compute; reflexivity);
    cbn [Py.int_from]; eval_decimal_value; cbv iota beta;
    rewrite <- IHd; do 2 f_equal; lia.
Qed.

Lemma int_from_uint d :
  Py.int_from 0 (Py.chars (NilEmpty.string_of_uint d))
  = Some (Z.of_N (Pos.of_uint d)).
Proof.
  induction d; cbn [NilEmpty.string_of_uint Pos.of_uint];
    [reflexivity | ..];
    rewrite chars_ascii by (vm_compute; reflexivity);
    cbn [Py.int_from]; eval_decimal_value; cbv iota beta;
    [exact IHd | ..]; apply int_from_uint_acc.
Qed.

(** [str(n)] for [n >= 0] is the text of an unsigned decimal number that
    reads as [n]. *)
Lemma str_int_uint n :
  0 <= n ->
  exists d,
    str_int n = NilEmpty.string_of_uint d
    /\ str_int n <> "" /\ Z.of_N (Pos.of_uint d) = n.
Proof.
  intros Hn. destruct n as [|p|p]; [| | lia].
  - exists (Decimal.D0 Decimal.Nil). repeat split. discriminate.
  - exists (Pos.to_uint p). unfold str_int.
    cbn [Z.to_int NilZero.string_of_int].
    pose proof (DecimalPos.Unsigned.of_to p) as Hp.
    unfold NilZero.string_of_uint.
    destruct (Pos.to_uint p) eqn:E; [cbn in Hp; discriminate | ..];
      (split; [reflexivity|]; split; [discriminate|]; rewrite Hp; reflexivity).
Qed.

(** [int(str(n)) == n] for an [n >= 0] of at most 4300 digits, and what
    the characters of [str(n)] followed by more text are. *)
Lemma str_int_chars n :
  0 <= n ->
  (forall s, Py.chars (str_int n +:+ s) = Py.chars (str_int n) ++ Py.chars s)
  /\ Py.chars (str_int n) <> []
  /\ List.forallb Py.char_isdigit (Py.chars (str_int n)) = true
  /\ Spec.digit_characters (Py.chars (str_int n)) = str_int n
  /\ List.length (Py.chars (str_int n)) = String.length (str_int n)
  /\ Py.int_from 0 (Py.chars (str_int n)) = Some n
  /\ str_int n <> ""
  /\ forall s, Spec.strip_prefix "user_id:" (str_int n +:+ s) = None.
Proof.
  intros Hn. destruct (str_int_uint n Hn) as (d & Hd & Hne & Hv).
  destruct (uint_chars d) as (A & B & C & D & E).
  rewrite Hd in *.
  split; [exact A|]. split.
  { intros H. rewrite H in D. cbn in D.
    destruct (NilEmpty.string_of_uint d); [congruence | discriminate]. }
  split; [exact B|]. split; [exact C|]. split; [exact D|].
  split; [now rewrite int_from_uint, Hv|]. split; [exact Hne|].
  intros s. destruct (NilEmpty.string_of_uint d) as [|c t] eqn:Es; [congruence|].
  change (String c t +:+ s) with (String c (t +:+ s)).
  change (Spec.strip_prefix "user_id:" (String c t))
    with (if Ascii.eqb "u" c then Spec.strip_prefix "ser_id:" t else None) in E.
  change (Spec.strip_prefix "user_id:" (String c (t +:+ s)))
    with (if Ascii.eqb "u" c then Spec.strip_prefix "ser_id:" (t +:+ s) else None).
  destruct (Ascii.eqb "u" c) eqn:Eu; [|reflexivity].
  apply Ascii.eqb_eq in Eu. subst c.
  pose proof B as B'. rewrite chars_ascii in B' by (vm_compute; reflexivity).
  cbn [List.forallb] in B'. apply andb_true_iff in B' as [B' _].
  vm_compute in B'. discriminate.
Qed.

Lemma has_digit_filter cs :
  List.existsb Py.char_isdigit cs = true -> List.filter Py.char_isdigit cs <> [].
Proof.
  induction cs as [|ch cs IH]; [discriminate|]. cbn.
  destruct (Py.char_isdigit ch); [discriminate | exact IH].
Qed.

Lemma no_digit_filter cs :
  List.existsb Py.char_isdigit cs = false ->
  Spec.digit_characters cs = ""
  /\ (cs <> [] -> List.forallb Py.char_isdigit cs = false).
Proof.
  intros H. split; [now apply digit_characters_empty|].
  destruct cs as [|ch cs]; [congruence|]. intros _. cbn in *.
  apply orb_false_iff in H as [-> _]. reflexivity.
Qed.

(** X6. The label [pay_by_text] puts on the payment form is the user's id
    followed by the user's name.  When the name has no digit, both
    handlers read the payer's id back from it.  When the name has a digit
    they never do: whatever id a handler then reads spells the payer's id
    followed by at least one more digit, so the credit goes to another
    user, if to any.  (For an id that [int] can read back: not negative,
    at most 4300 digits.) *)
Theorem payment_label_round_trip
    (receiver pay_type price success_url : string) (user_id : Z)
    (user_name : string) (data : list (string * string))
    (Hid : 0 <= user_id)
    (Hlen : (String.length (str_int user_id) <= Py.int_max_str_digits)%nat)
    (Hform : pay_by_text receiver pay_type price success_url user_id user_name
             = Some data) :
  form_label data = str_int user_id +:+ user_name
  /\ (Spec.has_digit user_name = false ->
      Notification.user_id_from_label (form_label data) = Py.Ok (Some user_id)
      /\ Notification.user_id (form_label data) = Py.Ok (Some user_id))
  /\ (Spec.has_digit user_name = true ->
      forall other,
        Notification.user_id_from_label (form_label data) = Py.Ok (Some other)
        \/ Notification.user_id (form_label data) = Py.Ok (Some other) ->
        10 * user_id <= other
        /\ (0 < user_id -> other <> user_id)).
Proof.
  unfold pay_by_text in Hform. destruct receiver as [|c r]; [discriminate|].
  injection Hform as <-. cbn [form_label List.find fst snd String.eqb].
  change (form_label _) with (str_int user_id +:+ user_name).
  destruct (str_int_chars user_id Hid) as (A & Hne & B & C & D & E & F & G).
  set (label := str_int user_id +:+ user_name).
  assert (Hchars : Py.chars label
                   = Py.chars (str_int user_id) ++ Py.chars user_name)
    by apply A.
  assert (Hprefixed : Spec.prefixed label = None).
  { unfold Spec.prefixed, label. now rewrite G. }
  assert (Hwhole : Py.isdigit label
                   = List.forallb Py.char_isdigit (Py.chars user_name)).
  { unfold Py.isdigit. rewrite Hchars.
    destruct (Py.chars (str_int user_id)) as [|c0 cs0] eqn:Ecs; [congruence|].
    cbn [app]. rewrite <- Ecs in *.
    change (c0 :: cs0 ++ Py.chars user_name)
      with ((c0 :: cs0) ++ Py.chars user_name).
    rewrite <- Ecs, List.forallb_app, B. reflexivity. }
  assert (Hstripped : Spec.digit_characters (Py.chars label)
                      = str_int user_id
                        +:+ Spec.digit_characters (Py.chars user_name)).
  { rewrite Hchars, digit_characters_app, C. reflexivity. }
  split; [reflexivity|]. split.
  - intros Hno. unfold Spec.has_digit in Hno.
    destruct (no_digit_filter _ Hno) as [Hd Hall].
    assert (Hres : Spec.resolve label = Some (Py.Ok user_id)).
    { unfold Spec.resolve, Spec.whole_label, Spec.stripped. cbn [Spec.first_of].
      rewrite Hwhole, Hprefixed, Hstripped, Hd, append_empty_r.
      destruct (Py.chars user_name) as [|n0 ns] eqn:En.
      - cbn [List.forallb]. f_equal. apply int_of_chars.
        + rewrite Hchars, app_nil_r. exact Hne.
        + rewrite Hchars, app_nil_r, D. exact Hlen.
        + rewrite Hchars, app_nil_r. exact E.
      - rewrite Hall by discriminate.
        destruct (str_int user_id) as [|c0 s0] eqn:Es; [congruence|].
        rewrite <- Es in *. f_equal. apply int_of_chars.
        + exact Hne.
        + rewrite D. exact Hlen.
        + exact E. }
    split; apply resolved_iff; exact Hres.
  - intros Hyes other Hother.
    assert (Hres : Spec.resolve label = Some (Py.Ok other))
      by (destruct Hother as [H|H]; apply resolved_iff in H; exact H).
    assert (Hbig : 10 * user_id <= other).
    { unfold Spec.resolve, Spec.whole_label, Spec.stripped in Hres.
      cbn [Spec.first_of] in Hres. rewrite Hprefixed, Hstripped in Hres.
      unfold Spec.has_digit in Hyes.
      destruct (Py.isdigit label) eqn:Ew.
      - injection Hres as Hint. apply int_ok in Hint as [_ Hint].
        rewrite Hchars, int_from_app, E in Hint.
        apply (int_from_shifts (Py.chars user_name)); [|exact Hid | exact Hint].
        intros Hnil. rewrite Hnil in Hyes. discriminate.
      - destruct (str_int user_id +:+ Spec.digit_characters (Py.chars user_name))
          as [|c0 s0] eqn:Es; [discriminate|].
        rewrite <- Es in Hres. injection Hres as Hint.
        apply int_ok in Hint as [_ Hint].
        rewrite A, chars_digit_characters, int_from_app, E in Hint.
        apply (int_from_shifts (List.filter Py.char_isdigit (Py.chars user_name)));
          [apply has_digit_filter; exact Hyes | exact Hid | exact Hint]. }
    split; [exact Hbig | lia].
Qed.

Lemma payment_label_round_trip_witness :
  Notification.user_id_from_label "123456789Ann Lee" = Py.Ok (Some 123456789)
  /\ 10 * 123456789 <= 1234567893.
Proof.
  split.
  - refine (proj1 (proj1 (proj2
      (payment_label_round_trip "4100" "AC" "50.00" "https://t.me/b" 123456789
         "Ann Lee" _ _ _ eq_refl)) _)).
    + lia.
    + vm_compute. lia.
    + vm_compute. reflexivity.
  - refine (proj1 (proj2 (proj2
      (payment_label_round_trip "4100" "AC" "50.00" "https://t.me/b" 123456789
         "Agent ٣" _ _ _ eq_refl)) _ 1234567893 _)).
    + lia.
    + vm_compute. lia.
    + vm_compute. reflexivity.
    + left. vm_compute. reflexivity.
Defined.

(** ** Normalised keys *)

Lemma lower_ascii_idem c : Py.lower_ascii (Py.lower_ascii c) = Py.lower_ascii c.
Proof. destruct c as [[] [] [] [] [] [] [] []]; reflexivity. Qed.

Lemma lower_idem s : Py.lower (Py.lower s) = Py.lower s.
Proof.
  induction s as [|c s IH]; [reflexivity|].
  cbn. now rewrite lower_ascii_idem, IH.
Qed.

Lemma key_map_fixed k v :
  Notification.key_map !! k = Some v ->
  Py.lower v = v /\ Notification.key_map !! v = Some v.
Proof.
  unfold Notification.key_map. intros H.
  apply elem_of_list_to_map_2 in H.
  repeat (apply elem_of_cons in H as [H|H];
          [injection H as -> ->; split; vm_compute; reflexivity|]).
  apply elem_of_nil in H. destruct H.
Qed.

(** X7. Key normalisation is insensitive to letter case and stable: a
    key and its lower-case form have the same canonical name, and a
    canonical name is its own canonical name. *)
Theorem canonical_stable (k : string) :
  Notification.canonical (Py.lower k) = Notification.canonical k
  /\ Notification.canonical (Notification.canonical k) = Notification.canonical k
  /\ Py.lower (Notification.canonical k) = Notification.canonical k.
Proof.
  unfold Notification.canonical. rewrite lower_idem.
  split; [reflexivity|].
  destruct (Notification.key_map !! Py.lower k) as [v|] eqn:E;
    cbn [default from_option id].
  - destruct (key_map_fixed _ _ E) as [Hl Hv]. rewrite Hl, Hv. auto.
  - rewrite !lower_idem, E. split; reflexivity.
Qed.

Lemma normalize_snoc raw k v :
  Notification.normalize (raw ++ [(k, v)])
  = <[Notification.canonical k := v]> (Notification.normalize raw).
Proof. unfold Notification.normalize. now rewrite fold_left_app. Qed.

(** X8. In the normalised parameters a name holds the value of the last
    pair whose key has that canonical name (so aliases and different
    spellings of a key overwrite each other, the later winning), and
    nothing when no key has it. *)
Theorem normalize_last_wins (raw : list (string * string)) (c : string) :
  (Forall (fun kv => Notification.canonical kv.1 <> c) raw ->
   Notification.normalize raw !! c = None)
  /\ (forall before k v after,
        raw = before ++ (k, v) :: after ->
        Notification.canonical k = c ->
        Forall (fun kv => Notification.canonical kv.1 <> c) after ->
        Notification.normalize raw !! c = Some v).
Proof.
  split.
  - induction raw as [|[k v] raw IH] using rev_ind; intros Hall.
    + apply lookup_empty.
    + apply Forall_app in Hall as [Hraw Hkv].
      rewrite normalize_snoc. inversion Hkv as [|? ? Hk _]; subst. cbn in Hk.
      rewrite lookup_insert_ne by exact Hk. apply IH. exact Hraw.
  - intros before k v after -> Hk. revert c Hk.
    induction after as [|[k' v'] after IH] using rev_ind; intros c Hk Hall.
    + rewrite normalize_snoc, Hk. apply lookup_insert_eq.
    + apply Forall_app in Hall as [Hafter Hkv].
      inversion Hkv as [|? ? Hk' _]; subst. cbn in Hk'.
      change (before ++ (k, v) :: after ++ [(k', v')])
        with (before ++ ((k, v) :: after) ++ [(k', v')]).
      rewrite app_assoc, normalize_snoc.
      rewrite lookup_insert_ne by exact Hk'. apply IH; [reflexivity | exact Hafter].
Qed.

Lemma normalize_last_wins_witness :
  Notification.normalize
    [("SHA1-HASH", "aa"); ("sha1_hash", "bb"); ("Amount", "1")] !! "sha1_hash"
  = Some "bb".
Proof.
  refine (proj2 (normalize_last_wins _ "sha1_hash")
            [("SHA1-HASH", "aa")] "sha1_hash" "bb" [("Amount", "1")]
            eq_refl eq_refl _).
  repeat constructor. vm_compute. discriminate.
Defined.

(** ** Accepted notifications *)

Lemma hexdigest_present s : Spec.present (Some (Sha1.hexdigest s)) = true.
Proof. reflexivity. Qed.

(** X9. A notification that carries in [sha1_hash] the digest of its own
    base string passes the signature check; with [codepro] absent or
    ["false"] the bot accepts it, and the webhook too when the currency is
    ["643"].  When no secret is configured the digest is computed from the
    payload alone, its [secret] field included, so every sender can sign. *)
Theorem signed_notification_accepted
    (YOOMONEY_SECRET : string) (params : gmap string string)
    (Hcodepro : Notification.codepro_ok params = true) :
  let signed :=
    <["sha1_hash" := Notification.sha1_hex YOOMONEY_SECRET params]> params in
  Notification.hash_matches YOOMONEY_SECRET signed = true
  /\ BotHandler.is_valid YOOMONEY_SECRET signed = true
  /\ (Notification.currency_ok params = true ->
      WebhookHandler.is_valid YOOMONEY_SECRET signed = true)
  /\ (YOOMONEY_SECRET = "" ->
      Notification.sha1_hex YOOMONEY_SECRET params
      = Sha1.hexdigest
          (Py.join "&" (List.map (Notification.get params) Notification.ordered_keys
                        ++ [Notification.get params "secret"]))).
Proof.
  intros signed.
  assert (Hm : Notification.hash_matches YOOMONEY_SECRET signed = true).
  { unfold Notification.hash_matches, Notification.sha1_hex, signed.
    rewrite sign_string_hash_field by auto.
    unfold Notification.received_hash. rewrite lookup_insert_eq.
    rewrite get_or_present by apply hexdigest_present.
    apply String.eqb_refl. }
  assert (Hc : Notification.codepro_ok signed = true).
  { unfold Notification.codepro_ok, signed in *.
    now rewrite lookup_insert_ne by discriminate. }
  split; [exact Hm|]. split; [|split].
  - unfold BotHandler.is_valid. now rewrite Hm, Hc.
  - intros Hcur. unfold WebhookHandler.is_valid. rewrite Hm, Hc.
    unfold Notification.currency_ok, signed in *.
    now rewrite lookup_insert_ne by discriminate.
  - intros ->. reflexivity.
Qed.

Lemma signed_notification_accepted_witness :
  BotHandler.is_valid ""
    (<["sha1_hash" := Notification.sha1_hex "" {["label" := "42"]}]>
       {["label" := "42"]}) = true.
Proof.
  refine (proj1 (proj2
    (signed_notification_accepted "" {["label" := "42"]} _))).
  vm_compute. reflexivity.
Defined.

Lemma webhook_valid_bot_valid YOOMONEY_SECRET params :
  WebhookHandler.is_valid YOOMONEY_SECRET params = true ->
  BotHandler.is_valid YOOMONEY_SECRET params = true
  /\ Notification.currency_ok params = true.
Proof.
  unfold WebhookHandler.is_valid, BotHandler.is_valid.
  rewrite !andb_true_iff. tauto.
Qed.

(** The two resolutions give the same answer, except that digits met at
    the third step that spell no number stop the webhook with the error
    where the bot goes on without a user. *)
Lemma resolutions_agree label :
  Notification.user_id label = Notification.user_id_from_label label
  \/ (Notification.user_id label = Py.Raise Py.ValueError
      /\ Notification.user_id_from_label label = Py.Ok None).
Proof.
  rewrite user_id_from_label_refines, user_id_refines.
  unfold Spec.resolve. cbn [Spec.first_of].
  destruct (Spec.whole_label label) as [r|]; [left; reflexivity|].
  destruct (Spec.prefixed label) as [r|]; [left; reflexivity|].
  unfold Spec.stripped.
  destruct (Spec.digit_characters (Py.chars label)) as [|c d];
    [left; reflexivity|].
  destruct (Py.int (String c d)) as [n|e] eqn:E; [left; reflexivity|].
  apply int_raises in E. subst e. right. split; reflexivity.
Qed.

Lemma webhook_eq_bot YOOMONEY_SECRET raw clk db :
  Notification.currency_ok (Notification.normalize raw) = true ->
  username_column db = true ->
  Notification.user_id (Notification.get (Notification.normalize raw) "label")
  = Notification.user_id_from_label
      (Notification.get (Notification.normalize raw) "label") ->
  WebhookHandler.yoomoney_webhook YOOMONEY_SECRET raw clk db
  = BotHandler.on_yoomoney_notification YOOMONEY_SECRET raw clk db.
Proof.
  intros Hcur Hcol Hsame.
  unfold WebhookHandler.yoomoney_webhook, BotHandler.on_yoomoney_notification,
    WebhookHandler.is_valid, BotHandler.is_valid.
  rewrite Hcur, andb_true_r, Hsame.
  destruct (negb _); [reflexivity|].
  destruct (Notification.user_id_from_label _) as [[uid|]|e]; try reflexivity.
  now rewrite (bot_increment_eq db clk uid 1 Hcol).
Qed.

(** On the table [kling_bot.init_db] creates the webhook cannot credit:
    the statement of payments.py is refused. *)
Lemma webhook_without_column YOOMONEY_SECRET raw clk db uid :
  WebhookHandler.is_valid YOOMONEY_SECRET (Notification.normalize raw) = true ->
  Notification.user_id (Notification.get (Notification.normalize raw) "label")
  = Py.Ok (Some uid) ->
  storable uid = true -> username_column db = false ->
  WebhookHandler.yoomoney_webhook YOOMONEY_SECRET raw clk db
  = (HandlerError Py.OperationalError, db).
Proof.
  intros Hv Hu Hid Hcol.
  rewrite (webhook_resolved YOOMONEY_SECRET raw clk db uid Hv Hu).
  rewrite increment_without_column by (assumption || lia). reflexivity.
Qed.

(** X10. The two handlers agree on a notification whose currency is
    ["643"] when the table has the [username] column that payments.py
    writes and the label is resolved alike: same outcome, same table
    afterwards; and the label is resolved alike unless digits met at the
    third step spell no number, which stops the webhook with the error
    and leaves the bot without a user.  On any notification the webhook
    accepts only what the bot accepts.  On the table that
    [kling_bot.init_db] creates, which has no such column, the webhook
    answers every accepted notification whose label names a user with its
    error and credits nobody. *)
Theorem handlers_agree
    (YOOMONEY_SECRET : string) (raw : list (string * string))
    (clk : Clock) (db : database) :
  let label := Notification.get (Notification.normalize raw) "label" in
  (Notification.currency_ok (Notification.normalize raw) = true ->
   username_column db = true ->
   Notification.user_id label = Notification.user_id_from_label label ->
   WebhookHandler.yoomoney_webhook YOOMONEY_SECRET raw clk db
   = BotHandler.on_yoomoney_notification YOOMONEY_SECRET raw clk db)
  /\ (Notification.user_id label = Notification.user_id_from_label label
      \/ (Notification.user_id label = Py.Raise Py.ValueError
          /\ Notification.user_id_from_label label = Py.Ok None))
  /\ (WebhookHandler.is_valid YOOMONEY_SECRET (Notification.normalize raw) = true ->
      BotHandler.is_valid YOOMONEY_SECRET (Notification.normalize raw) = true)
  /\ (Notification.currency_ok (Notification.normalize raw) = false ->
      (WebhookHandler.yoomoney_webhook YOOMONEY_SECRET raw clk db).2 = db)
  /\ (forall uid,
        WebhookHandler.is_valid YOOMONEY_SECRET (Notification.normalize raw) = true ->
        Notification.user_id label = Py.Ok (Some uid) ->
        storable uid = true -> username_column db = false ->
        WebhookHandler.yoomoney_webhook YOOMONEY_SECRET raw clk db
        = (HandlerError Py.OperationalError, db)).
Proof.
  intros label. split; [|split; [|split; [|split]]].
  - apply webhook_eq_bot.
  - apply resolutions_agree.
  - intros Hw. apply (webhook_valid_bot_valid _ _ Hw).
  - intros Hcur. rewrite webhook_rejects; [reflexivity|].
    unfold WebhookHandler.is_valid. rewrite Hcur. apply andb_false_r.
  - intros uid. apply webhook_without_column.
Qed.

Lemma handlers_agree_witness :
  WebhookHandler.yoomoney_webhook "s3cret" signed_ok clock0 one_user
  = BotHandler.on_yoomoney_notification "s3cret" signed_ok clock0 one_user
  /\ WebhookHandler.yoomoney_webhook "s3cret" signed_ok clock0 bot_table
     = (HandlerError Py.OperationalError, bot_table).
Proof.
  split.
  - refine (proj1 (handlers_agree "s3cret" signed_ok clock0 one_user) _ _ _);
      vm_compute; reflexivity.
  - refine (proj2 (proj2 (proj2 (proj2
      (handlers_agree "s3cret" signed_ok clock0 bot_table)))) 123456789 _ _ _ _);
      vm_compute; reflexivity.
Defined.

(** One accepted delivery to the bot, for an id and a balance that leave
    room for one more. *)
Lemma credit_step YOOMONEY_SECRET raw clk db uid :
  BotHandler.is_valid YOOMONEY_SECRET (Notification.normalize raw) = true ->
  Notification.user_id_from_label
    (Notification.get (Notification.normalize raw) "label") = Py.Ok (Some uid) ->
  storable uid = true ->
  0 <= balance db uid -> balance db uid < max_int64 ->
  let r := BotHandler.on_yoomoney_notification YOOMONEY_SECRET raw clk db in
  r.1 = Credited uid (balance db uid + 1)
  /\ balance r.2 uid = balance db uid + 1
  /\ username_column r.2 = username_column db
  /\ (forall other, other <> uid -> rows r.2 !! other = rows db !! other).
Proof.
  intros Hvalid Huser Hid Hb Hroom r. subst r.
  rewrite (bot_resolved YOOMONEY_SECRET raw clk db uid Hvalid Huser).
  rewrite bot_increment_nonzero by (assumption || lia).
  replace (Z.max 0 (balance db uid + 1)) with (balance db uid + 1) by lia.
  cbn [fst snd]. split; [reflexivity|].
  split; [rewrite balance_put, written_row_balance; lia|].
  split; [reflexivity|].
  intros other Hne. apply rows_put_other. exact Hne.
Qed.

(** With no room left, or an id that does not fit, the bot reports the
    error and writes nothing. *)
Lemma credit_refused YOOMONEY_SECRET raw clk db uid :
  BotHandler.is_valid YOOMONEY_SECRET (Notification.normalize raw) = true ->
  Notification.user_id_from_label
    (Notification.get (Notification.normalize raw) "label") = Py.Ok (Some uid) ->
  storable uid = false \/ max_int64 <= balance db uid ->
  BotHandler.on_yoomoney_notification YOOMONEY_SECRET raw clk db
  = (HandlerError Py.OverflowError, db).
Proof.
  intros Hvalid Huser Hfull.
  rewrite (bot_resolved YOOMONEY_SECRET raw clk db uid Hvalid Huser).
  destruct (storable uid) eqn:Hid.
  - destruct Hfull as [Hfull|Hfull]; [discriminate|].
    rewrite bot_increment_overflow by (assumption || lia). reflexivity.
  - unfold KlingBot.increment_user_balance. cbn [Z.eqb]. rewrite Hid. reflexivity.
Qed.

(** X11. An accepted notification whose label names a user credits that
    user with exactly one generation, whatever its amount: the bot
    answers with the new balance, the balance before plus one, and no
    other user's row changes, provided the id fits the 64-bit column and
    the balance is below 2^63 - 1; otherwise it reports the error of the
    write and credits nobody.  The webhook does as the bot on a table
    with the [username] column, and answers with its error on a table
    without. *)
Theorem accepted_notification_credits_one
    (YOOMONEY_SECRET : string) (raw : list (string * string))
    (clk : Clock) (db : database) (uid : Z)
    (Hvalid : BotHandler.is_valid YOOMONEY_SECRET (Notification.normalize raw)
              = true)
    (Huser : Notification.user_id_from_label
               (Notification.get (Notification.normalize raw) "label")
             = Py.Ok (Some uid))
    (Hb : 0 <= balance db uid) :
  let r := BotHandler.on_yoomoney_notification YOOMONEY_SECRET raw clk db in
  (storable uid = true -> balance db uid < max_int64 ->
   r.1 = Credited uid (balance db uid + 1)
   /\ balance r.2 uid = balance db uid + 1
   /\ (forall other, other <> uid -> rows r.2 !! other = rows db !! other))
  /\ (storable uid = false \/ max_int64 <= balance db uid ->
      r = (HandlerError Py.OverflowError, db))
  /\ (WebhookHandler.is_valid YOOMONEY_SECRET (Notification.normalize raw) = true ->
      username_column db = true ->
      WebhookHandler.yoomoney_webhook YOOMONEY_SECRET raw clk db = r)
  /\ (WebhookHandler.is_valid YOOMONEY_SECRET (Notification.normalize raw) = true ->
      username_column db = false -> storable uid = true ->
      WebhookHandler.yoomoney_webhook YOOMONEY_SECRET raw clk db
      = (HandlerError Py.OperationalError, db)).
Proof.
  intros r.
  assert (Hweb : Notification.user_id
                   (Notification.get (Notification.normalize raw) "label")
                 = Py.Ok (Some uid)).
  { apply resolved_iff. apply resolved_iff in Huser. exact Huser. }
  split; [|split; [|split]].
  - intros Hid Hroom.
    destruct (credit_step YOOMONEY_SECRET raw clk db uid Hvalid Huser Hid Hb Hroom)
      as (H1 & H2 & _ & H3).
    split; [exact H1|]. split; [exact H2 | exact H3].
  - intros Hfull. apply (credit_refused _ _ _ _ uid); assumption.
  - intros Hw Hcol. apply webhook_eq_bot.
    + apply (webhook_valid_bot_valid _ _ Hw).
    + exact Hcol.
    + now rewrite Hweb, Huser.
  - intros Hw Hcol Hid. apply (webhook_without_column _ _ _ _ uid); assumption.
Qed.

Lemma accepted_notification_credits_one_witness :
  (BotHandler.on_yoomoney_notification "s3cret" signed_ok clock0 bot_table).1
  = Credited 123456789 (balance bot_table 123456789 + 1).
Proof.
  refine (proj1 (proj1 (accepted_notification_credits_one "s3cret" signed_ok clock0
                          bot_table 123456789 _ _ _) _ _)).
  - vm_compute. reflexivity.
  - vm_compute. reflexivity.
  - vm_compute. discriminate.
  - reflexivity.
  - vm_compute. reflexivity.
Defined.

(** X12. No delivery is remembered: handing the same accepted
    notification to the bot again credits the user again, so after n
    deliveries the balance is the balance before plus n, as long as that
    is at most 2^63 - 1.  So it is for the webhook on a table with the
    [username] column; on a table without, none of its deliveries changes
    anything. *)
Theorem replayed_notification_credits_again
    (YOOMONEY_SECRET : string) (raw : list (string * string))
    (clocks : list Clock) (db : database) (uid : Z)
    (Hvalid : BotHandler.is_valid YOOMONEY_SECRET (Notification.normalize raw)
              = true)
    (Huser : Notification.user_id_from_label
               (Notification.get (Notification.normalize raw) "label")
             = Py.Ok (Some uid))
    (Hid : storable uid = true)
    (Hb : 0 <= balance db uid)
    (Hroom : balance db uid + Z.of_nat (List.length clocks) <= max_int64) :
  balance (deliveries_bot YOOMONEY_SECRET raw clocks db) uid
  = balance db uid + Z.of_nat (List.length clocks)
  /\ (WebhookHandler.is_valid YOOMONEY_SECRET (Notification.normalize raw) = true ->
      username_column db = true ->
      balance (deliveries_webhook YOOMONEY_SECRET raw clocks db) uid
      = balance db uid + Z.of_nat (List.length clocks))
  /\ (WebhookHandler.is_valid YOOMONEY_SECRET (Notification.normalize raw) = true ->
      username_column db = false ->
      deliveries_webhook YOOMONEY_SECRET raw clocks db = db).
Proof.
  assert (Hweb : Notification.user_id
                   (Notification.get (Notification.normalize raw) "label")
                 = Py.Ok (Some uid)).
  { apply resolved_iff. apply resolved_iff in Huser. exact Huser. }
  split; [|split].
  - revert db Hb Hroom. induction clocks as [|clk clocks IH]; intros db Hb Hroom.
    + cbn. lia.
    + cbn [List.length] in Hroom.
      destruct (credit_step YOOMONEY_SECRET raw clk db uid Hvalid Huser Hid Hb)
        as (_ & H2 & _); [lia|].
      unfold deliveries_bot in *. cbn [List.fold_left List.length].
      rewrite IH by lia. lia.
  - intros Hw Hcol. destruct (webhook_valid_bot_valid _ _ Hw) as [_ Hcur].
    revert db Hb Hroom Hcol.
    induction clocks as [|clk clocks IH]; intros db Hb Hroom Hcol.
    + cbn. lia.
    + cbn [List.length] in Hroom.
      destruct (credit_step YOOMONEY_SECRET raw clk db uid Hvalid Huser Hid Hb)
        as (_ & H2 & H3 & _); [lia|].
      unfold deliveries_webhook in *. cbn [List.fold_left List.length].
      rewrite (webhook_eq_bot YOOMONEY_SECRET raw clk db Hcur Hcol)
        by (now rewrite Hweb, Huser).
      rewrite IH by (lia || congruence). lia.
  - intros Hw Hcol. clear Hroom.
    induction clocks as [|clk clocks IH]; [reflexivity|].
    unfold deliveries_webhook in *. cbn [List.fold_left].
    rewrite (webhook_without_column YOOMONEY_SECRET raw clk db uid Hw Hweb Hid Hcol).
    exact IH.
Qed.

Lemma replayed_notification_credits_again_witness :
  balance (deliveries_bot "s3cret" signed_ok [clock0; clock0; clock0] bot_table)
    123456789
  = balance bot_table 123456789 + 3.
Proof.
  refine (proj1 (replayed_notification_credits_again "s3cret" signed_ok
                   [clock0; clock0; clock0] bot_table 123456789 _ _ _ _ _)).
  - vm_compute. reflexivity.
  - vm_compute. reflexivity.
  - reflexivity.
  - vm_compute. discriminate.
  - vm_compute. discriminate.
Defined.

(** ** Reading the message text *)

Section TextLemmas.

Import Text.

Lemma split_on_nonempty sep s : split_on sep s <> [].
Proof.
  destruct s as [|c s]; cbn; [discriminate|].
  destruct (Ascii.eqb c sep); [discriminate|].
  destruct (split_on sep s); discriminate.
Qed.

Lemma split_on_app sep a b :
  split_on sep (a +:+ String sep b) = split_on sep a ++ split_on sep b.
Proof.
  induction a as [|x a IH].
  - change ("" +:+ String sep b) with (String sep b). cbn [split_on].
    now rewrite Ascii.eqb_refl.
  - change (String x a +:+ String sep b) with (String x (a +:+ String sep b)).
    cbn [split_on]. rewrite IH.
    destruct (Ascii.eqb x sep); [reflexivity|].
    pose proof (split_on_nonempty sep a) as Hne.
    destruct (split_on sep a) as [|h t]; [congruence | reflexivity].
Qed.

Lemma join_cons sep x y l :
  Py.join sep (x :: y :: l) = x +:+ sep +:+ Py.join sep (y :: l).
Proof. reflexivity. Qed.

Lemma append_cons c a b : String c a +:+ b = String c (a +:+ b).
Proof. reflexivity. Qed.

Lemma append_nil b : "" +:+ b = b.
Proof. reflexivity. Qed.

(** [sep.join(s.split(sep)) == s] *)
Lemma join_split_on sep s : Py.join (String sep "") (split_on sep s) = s.
Proof.
  induction s as [|c s IH]; [reflexivity|]. cbn [split_on].
  pose proof (split_on_nonempty sep s) as Hne.
  destruct (Ascii.eqb_spec c sep) as [->|_].
  - destruct (split_on sep s) as [|h t] eqn:E; [congruence|].
    rewrite join_cons, IH. reflexivity.
  - destruct (split_on sep s) as [|h t] eqn:E; [congruence|].
    destruct t as [|h2 t].
    + cbn in IH. subst h. reflexivity.
    + rewrite join_cons in *. rewrite append_cons. now rewrite IH.
Qed.

Lemma replace_char_app a b x y :
  replace_char a b (x +:+ y) = replace_char a b x +:+ replace_char a b y.
Proof.
  induction x as [|c x IH]; [reflexivity|].
  rewrite append_cons. cbn [replace_char]. now rewrite IH.
Qed.

(** Splitting at [&] after turning line feeds into [&] is splitting at
    both. *)
Lemma split_replaced s :
  split_on "&" (replace_char LF "&" s)
  = List.concat (List.map (split_on "&") (split_on LF s)).
Proof.
  induction s as [|c s IH]; [reflexivity|].
  cbn [replace_char split_on].
  pose proof (split_on_nonempty LF s) as Hne.
  destruct (Ascii.eqb_spec c LF) as [->|Hc].
  - cbn [split_on Ascii.eqb]. change (Ascii.eqb "&" "&") with true. cbn iota.
    rewrite IH. reflexivity.
  - destruct (split_on LF s) as [|h t] eqn:E; [congruence|].
    cbn [List.map List.concat] in *. cbn [split_on].
    destruct (Ascii.eqb c "&"); rewrite IH; [reflexivity|].
    pose proof (split_on_nonempty "&" h) as Hh.
    destruct (split_on "&" h) as [|h1 t1]; [congruence | reflexivity].
Qed.

Lemma fold_add_part_skip parts : forall raw,
  Forall (fun p => contains "=" p = false) parts ->
  List.fold_left add_part parts raw = raw.
Proof.
  induction parts as [|p parts IH]; intros raw Hall; [reflexivity|].
  inversion Hall as [|? ? Hp Hrest]; subst. cbn [List.fold_left].
  unfold add_part at 2. rewrite Hp, orb_true_r. apply IH. exact Hrest.
Qed.

Lemma contains_split_on c sep s :
  contains c s = false ->
  Forall (fun p => contains c p = false) (split_on sep s).
Proof.
  induction s as [|x s IH]; intros H; [repeat constructor|].
  cbn in H. apply orb_false_iff in H as [Hx Hs]. specialize (IH Hs).
  cbn [split_on]. destruct (Ascii.eqb x sep); [constructor; [reflexivity|exact IH]|].
  destruct (split_on sep s) as [|h t]; [repeat constructor; cbn; now rewrite Hx|].
  inversion IH as [|? ? Hh Ht]; subst.
  constructor; [cbn; now rewrite Hx, Hh | exact Ht].
Qed.

(** No character is empty. *)
Lemma chars_from_nonempty s : forall pending need,
  (need <> O -> pending <> "") ->
  Forall (fun ch => ch <> "") (Py.chars_from pending need s).
Proof.
  induction s as [|x s IH]; intros pending need Hinv.
  - cbn. destruct pending; constructor; [discriminate | constructor].
  - assert (Hfresh : Forall (fun ch => ch <> "")
                       match Py.followers x with
                       | O => String x "" :: Py.chars_from "" 0 s
                       | S n => Py.chars_from (String x "") (S n) s
                       end).
    { destruct (Py.followers x).
      - constructor; [discriminate | apply IH; congruence].
      - apply IH. discriminate. }
    assert (Hpend : forall p, p +:+ String x "" <> "")
      by (intros [|a p]; discriminate).
    rewrite chars_from_cons. destruct need as [|n]; [exact Hfresh|].
    destruct (Py.is_continuation x).
    + destruct n as [|n].
      * constructor; [apply Hpend | apply IH; congruence].
      * apply IH. intros _. apply Hpend.
    + constructor; [apply Hinv; discriminate | exact Hfresh].
Qed.

Lemma chars_nonempty s : Forall (fun ch => ch <> "") (Py.chars s).
Proof. apply chars_from_nonempty. congruence. Qed.

(** The characters of a text, put together again, are the text. *)
Lemma join_chars_from s : forall pending need,
  (need = O -> pending = "") ->
  Py.join "" (Py.chars_from pending need s) = pending +:+ s.
Proof.
  induction s as [|x s IH]; intros pending need Hinv.
  - cbn. destruct pending; [reflexivity|]. cbn. now rewrite append_empty_r.
  - assert (Hfresh : Py.join ""
                       match Py.followers x with
                       | O => String x "" :: Py.chars_from "" 0 s
                       | S n => Py.chars_from (String x "") (S n) s
                       end = String x s).
    { destruct (Py.followers x).
      - rewrite join_empty_cons, IH by reflexivity. reflexivity.
      - rewrite IH by discriminate. reflexivity. }
    assert (Happ : forall p, (p +:+ String x "") +:+ s = p +:+ String x s)
      by (intros p; now rewrite append_assoc).
    rewrite chars_from_cons. destruct need as [|n].
    + rewrite (Hinv eq_refl). exact Hfresh.
    + destruct (Py.is_continuation x).
      * destruct n as [|n].
        -- rewrite join_empty_cons, IH by reflexivity. apply Happ.
        -- rewrite IH by discriminate. apply Happ.
      * rewrite join_empty_cons, Hfresh. reflexivity.
Qed.

Lemma join_chars s : Py.join "" (Py.chars s) = s.
Proof. unfold Py.chars. now rewrite join_chars_from. Qed.

Lemma contains_app c a b :
  contains c (a +:+ b) = contains c a || contains c b.
Proof.
  induction a as [|x a IH]; [reflexivity|].
  change (String x a +:+ b) with (String x (a +:+ b)). cbn [contains].
  now rewrite IH, orb_assoc.
Qed.

Lemma contains_join c l :
  contains c (Py.join "" l) = List.existsb (contains c) l.
Proof.
  induction l as [|ch l IH]; [reflexivity|].
  rewrite join_empty_cons, contains_app, IH. reflexivity.
Qed.

(** A byte of the ASCII range is a character of its own. *)
Lemma chars_from_ascii c s : forall pending need,
  Py.byte c < 128 -> contains c s = true ->
  In (String c "") (Py.chars_from pending need s).
Proof.
  intros pending need Hc. revert pending need.
  assert (Hf : Py.followers c = O).
  { unfold Py.followers. destruct (Z.ltb_spec (Py.byte c) 192); [reflexivity | lia]. }
  assert (Hn : Py.is_continuation c = false).
  { unfold Py.is_continuation. destruct (Z.leb_spec 128 (Py.byte c)); [lia|].
    reflexivity. }
  induction s as [|x s IH]; intros pending need H; [discriminate|].
  cbn [contains] in H. rewrite chars_from_cons.
  destruct (Ascii.eqb_spec x c) as [->|Hx].
  - rewrite Hf, Hn. destruct need; [left; reflexivity | right; left; reflexivity].
  - cbn [orb] in H.
    assert (Hfresh : In (String c "")
                       match Py.followers x with
                       | O => String x "" :: Py.chars_from "" 0 s
                       | S n => Py.chars_from (String x "") (S n) s
                       end).
    { destruct (Py.followers x); [right|]; apply IH; exact H. }
    destruct need as [|n]; [exact Hfresh|].
    destruct (Py.is_continuation x).
    + destruct n; [right|]; apply IH; exact H.
    + right. exact Hfresh.
Qed.

Lemma lstrip_spaces cs :
  List.forallb is_space (lstrip cs) = true -> List.forallb is_space cs = true.
Proof.
  induction cs as [|ch cs IH]; [reflexivity|]. cbn [lstrip].
  destruct (is_space ch) eqn:E; [|intros H; exact H].
  intros H. cbn [List.forallb]. now rewrite E, IH.
Qed.

Lemma rstrip_nil cs : rstrip cs = [] -> List.forallb is_space cs = true.
Proof.
  induction cs as [|ch cs IH]; [reflexivity|]. cbn [rstrip].
  destruct (rstrip cs) as [|k ks]; [|discriminate].
  destruct (is_space ch) eqn:E; [|discriminate].
  intros _. cbn [List.forallb]. now rewrite E, IH.
Qed.

Lemma join_nil l :
  Forall (fun ch => ch <> "") l -> Py.join "" l = "" -> l = [].
Proof.
  intros Hall H. destruct l as [|ch l]; [reflexivity|].
  inversion Hall as [|? ? Hch _]; subst.
  rewrite join_empty_cons in H. destruct ch; [congruence | discriminate].
Qed.

Lemma lstrip_incl cs ch : In ch (lstrip cs) -> In ch cs.
Proof.
  induction cs as [|x cs IH]; [intros []|]. cbn [lstrip].
  destruct (is_space x); [intros H; right; apply IH; exact H | intros H; exact H].
Qed.

Lemma rstrip_incl cs ch : In ch (rstrip cs) -> In ch cs.
Proof.
  induction cs as [|x cs IH]; [intros []|]. cbn [rstrip].
  destruct (rstrip cs) as [|k ks].
  - destruct (is_space x); [intros [] | intros [<-|[]]; left; reflexivity].
  - intros [<-|H]; [left; reflexivity | right; apply IH; exact H].
Qed.

(** What is left of a text that strips to nothing is white space. *)
Lemma blank_spaces l : strip l = "" -> List.forallb is_space (Py.chars l) = true.
Proof.
  unfold strip. intros H. apply lstrip_spaces, rstrip_nil.
  apply join_nil; [|exact H].
  apply List.Forall_forall. intros ch Hin.
  apply rstrip_incl, lstrip_incl in Hin.
  pose proof (chars_nonempty l) as Hne.
  rewrite List.Forall_forall in Hne. apply Hne. exact Hin.
Qed.

(** A blank line has no [=]. *)
Lemma blank_has_no_eq l : strip l = "" -> contains "=" l = false.
Proof.
  intros H. apply blank_spaces in H.
  destruct (contains "=" l) eqn:E; [|reflexivity].
  apply (chars_from_ascii "=" l "" 0) in E; [|vm_compute; reflexivity].
  rewrite List.forallb_forall in H. specialize (H _ E).
  vm_compute in H. discriminate.
Qed.

Lemma fold_concat_filter (keep : string -> bool) lines : forall raw,
  (forall l, keep l = false -> contains "=" l = false) ->
  List.fold_left add_part
    (List.concat (List.map (split_on "&") (List.filter keep lines))) raw
  = List.fold_left add_part (List.concat (List.map (split_on "&") lines)) raw.
Proof.
  intros raw Hkeep. revert raw.
  induction lines as [|l lines IH]; intros raw; [reflexivity|].
  cbn [List.filter List.map List.concat].
  destruct (keep l) eqn:E.
  - cbn [List.map List.concat]. rewrite !fold_left_app. apply IH.
  - rewrite fold_left_app.
    rewrite (fold_add_part_skip (split_on "&" l))
      by (apply contains_split_on, Hkeep, E).
    apply IH.
Qed.

Lemma split_on_parts_free sep s :
  Forall (fun p => contains sep p = false) (split_on sep s).
Proof.
  induction s as [|x s IH]; [repeat constructor|]. cbn [split_on].
  destruct (Ascii.eqb x sep) eqn:E; [constructor; [reflexivity | exact IH]|].
  destruct (split_on sep s) as [|h t]; [repeat constructor; cbn; now rewrite E|].
  inversion IH as [|? ? Hh Ht]; subst.
  constructor; [cbn; now rewrite E, Hh | exact Ht].
Qed.

Lemma split_on_free sep s : contains sep s = false -> split_on sep s = [s].
Proof.
  induction s as [|x s IH]; intros H; [reflexivity|].
  cbn in H. apply orb_false_iff in H as [Hx Hs].
  cbn [split_on]. now rewrite Hx, (IH Hs).
Qed.

(** [sep.join(lines).split(sep) == lines] for lines without [sep]. *)
Lemma split_on_join sep lines :
  lines <> [] ->
  Forall (fun l => contains sep l = false) lines ->
  split_on sep (Py.join (String sep "") lines) = lines.
Proof.
  induction lines as [|l0 lines IH]; intros Hne Hall; [congruence|].
  inversion Hall as [|? ? H0 Hrest]; subst.
  destruct lines as [|l1 lines].
  - apply split_on_free. exact H0.
  - rewrite join_cons. change (String sep "" +:+ ?x) with (String sep x).
    rewrite split_on_app, (split_on_free _ _ H0), IH by (congruence || assumption).
    reflexivity.
Qed.

Lemma message_lines_free body :
  Forall (fun l => contains LF l = false) (message_lines body).
Proof.
  unfold message_lines.
  assert (H : Forall (fun l => contains LF l = false)
                (List.filter (fun ln => negb (String.eqb (strip ln) ""))
                   (split_on LF (remove_char CR body)))).
  { pose proof (split_on_parts_free LF (remove_char CR body)) as Hall.
    induction Hall as [|l ls Hl _ IH]; [constructor|].
    cbn [List.filter]. destruct (negb _); [constructor; assumption | exact IH]. }
  destruct (List.filter _ _) as [|first rest]; [exact H|].
  destruct (negb _); [inversion H; assumption | exact H].
Qed.

(** Dropping the blank lines and the header line changes nothing for
    the loop: they have no part with [=]. *)
Lemma message_lines_parts body raw :
  List.fold_left add_part
    (List.concat (List.map (split_on "&") (message_lines body))) raw
  = List.fold_left add_part
      (List.concat (List.map (split_on "&") (split_on LF (remove_char CR body))))
      raw.
Proof.
  rewrite <- (fold_concat_filter (fun ln => negb (String.eqb (strip ln) ""))
                (split_on LF (remove_char CR body)) raw).
  2:{ intros l Hl. apply negb_false_iff, String.eqb_eq in Hl.
      apply blank_has_no_eq. exact Hl. }
  unfold message_lines.
  destruct (List.filter _ _) as [|first rest]; [reflexivity|].
  destruct (negb (contains "=" first || contains "&" first)) eqn:E; [|reflexivity].
  apply negb_true_iff, orb_false_iff in E as [He _].
  cbn [List.map List.concat]. rewrite fold_left_app.
  now rewrite (fold_add_part_skip (split_on "&" first))
    by (apply contains_split_on; exact He).
Qed.

Lemma parse_flat body :
  parse body
  = List.fold_left add_part
      (split_on "&" (replace_char LF "&" (remove_char CR body))) [].
Proof.
  unfold parse. rewrite !split_replaced.
  destruct (message_lines body) as [|l0 lines] eqn:E.
  - rewrite <- (message_lines_parts body), E. reflexivity.
  - rewrite split_on_join; [|discriminate | rewrite <- E; apply message_lines_free].
    rewrite <- E. apply message_lines_parts.
Qed.

End TextLemmas.

(** X13. What [on_yoomoney_notification] reads from a message does not
    depend on its lines: the pairs are those of the parts with an [=]
    found by cutting the text, carriage returns removed, at every line
    feed and every [&].  Blank lines and a first line without [=] and [&]
    contribute nothing, dropped or not, and a line feed is as good a
    separator as [&]. *)
Theorem parse_ignores_line_structure (body : string) :
  Text.parse body
  = List.fold_left Text.add_part
      (Text.split_on "&"
         (Text.replace_char Text.LF "&" (Text.remove_char Text.CR body))) []
  /\ Text.parse (Text.replace_char Text.LF "&" body) = Text.parse body
  /\ Text.parse (Text.remove_char Text.CR body) = Text.parse body.
Proof.
  split; [apply parse_flat|]. split.
  - rewrite !parse_flat. do 2 f_equal.
    induction body as [|c body IH]; [reflexivity|].
    cbn [Text.replace_char Text.remove_char].
    destruct (Ascii.eqb_spec c Text.LF) as [->|Hc].
    + cbn. f_equal. exact IH.
    + destruct (Ascii.eqb c Text.CR) eqn:Ecr.
      * exact IH.
      * cbn [Text.replace_char]. destruct (Ascii.eqb_spec c Text.LF);
          [contradiction|]. f_equal. exact IH.
  - rewrite !parse_flat. do 3 f_equal.
    induction body as [|c body IH]; [reflexivity|]. cbn [Text.remove_char].
    destruct (Ascii.eqb c Text.CR) eqn:E; [exact IH|].
    cbn [Text.remove_char]. rewrite E. now rewrite IH.
Qed.

Section ParsedPairs.

Import Text.

(** Stripping adds no byte. *)
Lemma strip_sub c s : contains c s = false -> contains c (strip s) = false.
Proof.
  intros H. rewrite <- (join_chars s), contains_join in H.
  unfold strip. rewrite contains_join.
  destruct (List.existsb (contains c) (rstrip (lstrip (Py.chars s)))) eqn:E;
    [|reflexivity].
  apply List.existsb_exists in E as (ch & Hin & Hch).
  apply rstrip_incl, lstrip_incl in Hin.
  assert (Hex : List.existsb (contains c) (Py.chars s) = true)
    by (apply List.existsb_exists; exists ch; auto).
  congruence.
Qed.

Lemma rstrip_cons x cs :
  rstrip (x :: cs)
  = match rstrip cs with
    | [] => if is_space x then [] else [x]
    | k :: ks => x :: k :: ks
    end.
Proof. reflexivity. Qed.

Lemma rstrip_idem cs : rstrip (rstrip cs) = rstrip cs.
Proof.
  induction cs as [|x cs IH]; [reflexivity|]. rewrite rstrip_cons.
  destruct (rstrip cs) as [|y r] eqn:E.
  - destruct (is_space x) eqn:Ex; [reflexivity|]. cbn [rstrip]. now rewrite Ex.
  - rewrite rstrip_cons, IH. reflexivity.
Qed.

Lemma lstrip_clean_start cs :
  match lstrip cs with
  | ch :: _ => is_space ch = false
  | [] => True
  end.
Proof.
  induction cs as [|x cs IH]; [exact I|]. cbn [lstrip].
  destruct (is_space x) eqn:E; [exact IH | exact E].
Qed.

Lemma lstrip_rstrip cs :
  match cs with ch :: _ => is_space ch = false | [] => True end ->
  lstrip (rstrip cs) = rstrip cs.
Proof.
  destruct cs as [|c cs]; [reflexivity|]. intros Hc. cbn [rstrip].
  destruct (rstrip cs); rewrite ?Hc; cbn [lstrip]; now rewrite Hc.
Qed.

(** Stripping a list of characters twice is stripping it once. *)
Lemma strip_chars_idem cs :
  rstrip (lstrip (rstrip (lstrip cs))) = rstrip (lstrip cs).
Proof.
  rewrite (lstrip_rstrip (lstrip cs)) by apply lstrip_clean_start.
  apply rstrip_idem.
Qed.

(** What stripping removes, in front and behind, is white space. *)
Lemma lstrip_split cs :
  exists front, cs = front ++ lstrip cs /\ List.forallb is_space front = true.
Proof.
  induction cs as [|x cs IH]; [exists []; split; reflexivity|]. cbn [lstrip].
  destruct (is_space x) eqn:E.
  - destruct IH as (front & H1 & H2). exists (x :: front).
    cbn [app List.forallb]. rewrite E, H2. split; [now rewrite <- H1 | reflexivity].
  - exists []. split; reflexivity.
Qed.

Lemma rstrip_split cs :
  exists back, cs = rstrip cs ++ back /\ List.forallb is_space back = true.
Proof.
  induction cs as [|x cs IH]; [exists []; split; reflexivity|].
  rewrite rstrip_cons. destruct IH as (back & H1 & H2).
  destruct (rstrip cs) as [|k ks].
  - cbn [app] in H1. subst back. destruct (is_space x) eqn:E.
    + exists (x :: cs). cbn [app List.forallb]. rewrite E, H2.
      split; reflexivity.
    + exists cs. split; [reflexivity | exact H2].
  - exists back. split; [|exact H2].
    change ((x :: k :: ks) ++ back) with (x :: (k :: ks) ++ back).
    now rewrite <- H1.
Qed.

Lemma is_space_well_formed ch : is_space ch = true -> Py.well_formed ch = true.
Proof.
  intros H. apply code_point_well_formed. intros Hcp.
  unfold is_space in H. rewrite Hcp in H. vm_compute in H. discriminate.
Qed.

Lemma spaces_well_formed cs :
  List.forallb is_space cs = true ->
  Forall (fun ch => Py.well_formed ch = true) cs.
Proof.
  intros H. apply List.Forall_forall. intros ch Hin.
  rewrite List.forallb_forall in H. apply is_space_well_formed, H, Hin.
Qed.

(** Well-formed characters in front of a text are its first characters. *)
Lemma chars_front front s :
  Forall (fun ch => Py.well_formed ch = true) front ->
  Py.chars (Py.join "" front +:+ s) = front ++ Py.chars s.
Proof.
  induction 1 as [|ch front Hch _ IH]; [reflexivity|].
  rewrite join_empty_cons, append_assoc, chars_well_formed by exact Hch.
  now rewrite IH.
Qed.

(** A byte that continues no character ends the one before it, so the
    text can be cut there. *)
Lemma chars_from_cut a u t : forall pending need,
  Py.is_continuation a = false ->
  (need = O -> pending = "") -> (need <> O -> pending <> "") ->
  Py.chars_from pending need (t +:+ String a u)
  = Py.chars_from pending need t ++ Py.chars (String a u).
Proof.
  intros pending need Ha. revert pending need.
  induction t as [|x t IH]; intros pending need H0 H1.
  - change ("" +:+ String a u) with (String a u). unfold Py.chars.
    rewrite !chars_from_cons, Ha. destruct need as [|n].
    + rewrite (H0 eq_refl). reflexivity.
    + cbn [Py.chars_from]. destruct pending; [now destruct H1 | reflexivity].
  - change (String x t +:+ String a u) with (String x (t +:+ String a u)).
    assert (Hpend : forall p, p +:+ String x "" <> "")
      by (intros [|b p]; discriminate).
    assert (Hfresh : match Py.followers x with
                     | O => String x "" :: Py.chars_from "" 0 (t +:+ String a u)
                     | S n => Py.chars_from (String x "") (S n) (t +:+ String a u)
                     end
                     = match Py.followers x with
                       | O => String x "" :: Py.chars_from "" 0 t
                       | S n => Py.chars_from (String x "") (S n) t
                       end ++ Py.chars (String a u)).
    { destruct (Py.followers x).
      - rewrite IH by congruence. reflexivity.
      - apply IH; [discriminate | intros _; discriminate]. }
    rewrite !chars_from_cons. destruct need as [|n]; [exact Hfresh|].
    destruct (Py.is_continuation x).
    + destruct n as [|n].
      * rewrite IH by congruence. reflexivity.
      * apply IH; [discriminate | intros _; apply Hpend].
    + rewrite Hfresh. reflexivity.
Qed.

(** A white-space character starts with a byte that continues nothing. *)
Lemma is_space_head ch :
  is_space ch = true ->
  exists a u, ch = String a u /\ Py.is_continuation a = false.
Proof.
  intros H. pose proof (is_space_well_formed _ H) as Hwf.
  destruct ch as [|a u]; [discriminate|]. exists a, u. split; [reflexivity|].
  destruct (Py.is_continuation a) eqn:Ea; [|reflexivity].
  exfalso. unfold Py.is_continuation in Ea.
  apply andb_true_iff in Ea as [E1 E2].
  apply Z.leb_le in E1. apply Z.ltb_lt in E2.
  cbn [Py.well_formed] in Hwf. apply andb_true_iff in Hwf as [Hlen _].
  apply Nat.eqb_eq in Hlen. unfold Py.followers in Hlen.
  destruct (Z.ltb_spec (Py.byte a) 192); [|lia].
  destruct u; [|discriminate].
  unfold is_space in H. cbn [Py.code_point] in H.
  destruct (Z.ltb_spec (Py.byte a) 128); [lia|].
  vm_compute in H. discriminate.
Qed.

(** The characters of a stripped text are the characters kept. *)
Lemma chars_strip s : Py.chars (strip s) = rstrip (lstrip (Py.chars s)).
Proof.
  destruct (lstrip_split (Py.chars s)) as (front & Hfront & Hfs).
  destruct (rstrip_split (lstrip (Py.chars s))) as (back & Hback & Hbs).
  set (kept := rstrip (lstrip (Py.chars s))) in *.
  assert (Hs : s = Py.join "" front +:+ (strip s +:+ Py.join "" back)).
  { rewrite <- (join_chars s) at 1. rewrite Hfront, Hback.
    unfold strip. fold kept. clear.
    induction front as [|ch front IH].
    - cbn [app]. induction kept as [|k kept IH]; [reflexivity|].
      cbn [app]. rewrite !join_empty_cons, IH, append_assoc. reflexivity.
    - cbn [app]. rewrite !join_empty_cons, IH, append_assoc. reflexivity. }
  assert (Hcs : Py.chars (strip s +:+ Py.join "" back) = kept ++ back).
  { apply (app_inv_head front).
    rewrite <- chars_front by (apply spaces_well_formed; exact Hfs).
    rewrite <- Hs, Hfront at 1. now rewrite Hback. }
  destruct back as [|b back].
  - cbn in Hcs. rewrite append_empty_r, app_nil_r in Hcs. exact Hcs.
  - cbn [List.forallb] in Hbs. apply andb_true_iff in Hbs as [Hb Hbs].
    destruct (is_space_head b Hb) as (a & u & -> & Ha).
    rewrite join_empty_cons in Hcs.
    change (String a u +:+ Py.join "" back)
      with (String a (u +:+ Py.join "" back)) in Hcs.
    unfold Py.chars at 1 in Hcs.
    rewrite chars_from_cut in Hcs by (exact Ha || congruence).
    fold (Py.chars (strip s)) in Hcs.
    change (String a (u +:+ Py.join "" back))
      with (Py.join "" [String a u] +:+ Py.join "" back) in Hcs.
    rewrite chars_front in Hcs
      by (constructor; [apply is_space_well_formed; exact Hb | constructor]).
    rewrite <- (join_chars (Py.join "" back)) in Hcs at 1.
    assert (Hbk : Py.chars (Py.join "" back) = back)
      by (apply chars_join_well_formed, spaces_well_formed; exact Hbs).
    rewrite join_chars, Hbk in Hcs.
    apply (app_inv_tail (String a u :: back)).
    exact Hcs.
Qed.

(** [s.strip().strip() == s.strip()] *)
Lemma strip_idem s : strip (strip s) = strip s.
Proof.
  unfold strip at 1. rewrite chars_strip, strip_chars_idem. reflexivity.
Qed.

Lemma split_first_sub sep c s k v :
  split_first sep s = Some (k, v) ->
  contains sep k = false
  /\ (contains c s = false -> contains c k = false /\ contains c v = false).
Proof.
  revert k. induction s as [|x s IH]; intros k H; [discriminate|].
  cbn [split_first] in H. destruct (Ascii.eqb x sep) eqn:E.
  - injection H as <- <-. split; [reflexivity|].
    intros Hc. cbn in Hc. apply orb_false_iff in Hc as [_ Hc]. auto.
  - destruct (split_first sep s) as [[k0 v0]|]; [|discriminate].
    injection H as <- <-. destruct (IH k0 eq_refl) as [H1 H2].
    split; [cbn; now rewrite E, H1|].
    intros Hc. cbn in Hc. apply orb_false_iff in Hc as [Hx Hc].
    destruct (H2 Hc) as [H3 H4]. split; [cbn; now rewrite Hx, H3 | exact H4].
Qed.

Lemma dict_set_keys d k v :
  forall k', In k' (List.map fst (dict_set d k v))
             <-> k' = k \/ In k' (List.map fst d).
Proof.
  induction d as [|[k0 v0] d IH]; intros k'; cbn [dict_set].
  - cbn. intuition.
  - destruct (String.eqb_spec k0 k) as [->|Hne]; cbn [List.map fst In].
    + intuition.
    + rewrite IH. intuition.
Qed.

Lemma dict_set_nodup d k v :
  List.NoDup (List.map fst d) -> List.NoDup (List.map fst (dict_set d k v)).
Proof.
  induction d as [|[k0 v0] d IH]; intros H; cbn [dict_set].
  - cbn. constructor; [intros [] | constructor].
  - cbn in H. inversion H as [|? ? Hk0 Hd]; subst.
    destruct (String.eqb_spec k0 k) as [->|Hne]; cbn [List.map fst].
    + constructor; assumption.
    + constructor; [|apply IH; exact Hd].
      rewrite dict_set_keys. intros [->|Hin]; [congruence | contradiction].
Qed.

Lemma dict_set_stored d k v :
  Forall stored d -> stored (k, v) -> Forall stored (dict_set d k v).
Proof.
  induction d as [|[k0 v0] d IH]; intros Hd Hkv; cbn [dict_set].
  - constructor; [exact Hkv | constructor].
  - inversion Hd as [|? ? H0 Hrest]; subst.
    destruct (String.eqb_spec k0 k) as [->|Hne].
    + constructor; [exact Hkv | exact Hrest].
    + constructor; [exact H0 | apply IH; assumption].
Qed.

Lemma clean_strip s :
  contains "&" s = false -> contains LF s = false -> contains CR s = false ->
  clean (strip s).
Proof.
  intros H1 H2 H3. unfold clean.
  split; [apply strip_idem|]. repeat split; apply strip_sub; assumption.
Qed.

Lemma add_part_invariant raw part :
  contains "&" part = false -> contains LF part = false ->
  contains CR part = false ->
  List.NoDup (List.map fst raw) /\ Forall stored raw ->
  List.NoDup (List.map fst (add_part raw part)) /\ Forall stored (add_part raw part).
Proof.
  intros H1 H2 H3 [Hnd Hst]. unfold add_part.
  destruct (String.eqb part "" || negb (contains "=" part)); [auto|].
  destruct (split_first "=" part) as [[k v]|] eqn:E; [|auto].
  destruct (split_first_sub "=" "&" _ _ _ E) as [Hk Ha].
  destruct (split_first_sub "=" LF _ _ _ E) as [_ Hl].
  destruct (split_first_sub "=" CR _ _ _ E) as [_ Hc].
  destruct (Ha H1), (Hl H2), (Hc H3).
  split; [apply dict_set_nodup; exact Hnd|].
  apply dict_set_stored; [exact Hst|].
  unfold stored. cbn [fst snd].
  split; [apply clean_strip; assumption|].
  split; [apply clean_strip; assumption|].
  apply strip_sub. exact Hk.
Qed.

Lemma replace_char_free a b s : a <> b -> contains a (replace_char a b s) = false.
Proof.
  intros Hab. induction s as [|x s IH]; [reflexivity|]. cbn.
  rewrite IH, orb_false_r. destruct (Ascii.eqb_spec x a) as [->|Hx].
  - apply Ascii.eqb_neq. congruence.
  - apply Ascii.eqb_neq. exact Hx.
Qed.

Lemma replace_char_sub a b c s :
  c <> b -> contains c s = false -> contains c (replace_char a b s) = false.
Proof.
  intros Hcb. induction s as [|x s IH]; intros H; [reflexivity|].
  cbn in H. apply orb_false_iff in H as [Hx Hs]. cbn. rewrite (IH Hs), orb_false_r.
  destruct (Ascii.eqb x a); [apply Ascii.eqb_neq; congruence | exact Hx].
Qed.

Lemma remove_char_free c s : contains c (remove_char c s) = false.
Proof.
  induction s as [|x s IH]; [reflexivity|]. cbn [remove_char].
  destruct (Ascii.eqb x c) eqn:E; [exact IH|]. cbn. now rewrite E, IH.
Qed.

Lemma remove_char_sub a c s :
  contains c s = false -> contains c (remove_char a s) = false.
Proof.
  induction s as [|x s IH]; intros H; [reflexivity|].
  cbn in H. apply orb_false_iff in H as [Hx Hs]. cbn [remove_char].
  destruct (Ascii.eqb x a); [apply IH; exact Hs|]. cbn. now rewrite Hx, IH.
Qed.

Lemma fold_add_part_invariant parts : forall raw,
  Forall (fun p => contains "&" p = false /\ contains LF p = false
                   /\ contains CR p = false) parts ->
  List.NoDup (List.map fst raw) /\ Forall stored raw ->
  List.NoDup (List.map fst (List.fold_left add_part parts raw))
  /\ Forall stored (List.fold_left add_part parts raw).
Proof.
  induction parts as [|p parts IH]; intros raw Hall Hraw; [exact Hraw|].
  inversion Hall as [|? ? (H1 & H2 & H3) Hrest]; subst. cbn [List.fold_left].
  apply IH; [exact Hrest|]. apply add_part_invariant; assumption.
Qed.

Lemma parse_invariant body :
  List.NoDup (List.map fst (parse body)) /\ Forall stored (parse body).
Proof.
  rewrite parse_flat. apply fold_add_part_invariant.
  - set (t := replace_char LF "&" (remove_char CR body)).
    assert (Hlf : contains LF t = false) by (apply replace_char_free; discriminate).
    assert (Hcr : contains CR t = false).
    { apply replace_char_sub; [discriminate | apply remove_char_free]. }
    pose proof (split_on_parts_free "&" t) as H1.
    pose proof (contains_split_on LF "&" t Hlf) as H2.
    pose proof (contains_split_on CR "&" t Hcr) as H3.
    revert H2 H3. induction H1 as [|p ps Hp _ IH]; intros H2 H3; [constructor|].
    inversion H2; inversion H3; subst. constructor; auto.
  - split; constructor.
Qed.

Lemma parse_without_eq body : contains "=" body = false -> parse body = [].
Proof.
  intros H. rewrite parse_flat. apply fold_add_part_skip.
  apply contains_split_on. apply replace_char_sub; [discriminate|].
  apply remove_char_sub. exact H.
Qed.

End ParsedPairs.

Lemma last_cons_default (l : list string) : forall a d1 d2,
  List.last (a :: l) d1 = List.last (a :: l) d2.
Proof.
  induction l as [|b l IH]; intros a d1 d2; [reflexivity|].
  change (List.last (b :: l) d1 = List.last (b :: l) d2). apply IH.
Qed.

Lemma rstrip_ends cs x rest :
  Text.rstrip cs = x :: rest ->
  (exists tl, cs = x :: tl)
  /\ Text.is_space (List.last (x :: rest) x) = false.
Proof.
  revert x rest. induction cs as [|c cs IH]; intros x rest H; [discriminate|].
  rewrite rstrip_cons in H. destruct (Text.rstrip cs) as [|k ks] eqn:E.
  - destruct (Text.is_space c) eqn:Ec; [discriminate|].
    injection H as <- <-. split; [eexists; reflexivity | exact Ec].
  - injection H as <- <-. split; [eexists; reflexivity|].
    destruct (IH k ks eq_refl) as [_ Hlast].
    change (List.last (c :: k :: ks) c) with (List.last (k :: ks) c).
    rewrite (last_cons_default ks k c k). exact Hlast.
Qed.

(** A text that stripping leaves alone has no white space at either
    end. *)
Lemma trimmed_of_stripped s : Text.strip s = s -> trimmed s.
Proof.
  intros H. unfold trimmed. rewrite <- H, chars_strip.
  destruct (Text.rstrip (Text.lstrip (Py.chars s))) as [|x rest] eqn:E;
    [exact I|].
  destruct (rstrip_ends _ _ _ E) as [[tl Htl] Hlast].
  split; [|exact Hlast].
  pose proof (lstrip_clean_start (Py.chars s)) as Hstart.
  rewrite Htl in Hstart. exact Hstart.
Qed.

(** X14. The pairs read from a message form a dict: no key occurs twice.
    Every key and every value is stripped of surrounding white space,
    Unicode's included (stripping it again changes nothing, and neither
    its first nor its last character is white space), and holds no [&],
    line feed or carriage return, and no key holds an [=] (a value may:
    the part is cut at its first [=]). *)
Theorem parsed_pairs_well_formed (body : string) :
  List.NoDup (List.map fst (Text.parse body))
  /\ Forall (fun kv => clean kv.1 /\ clean kv.2
                       /\ trimmed kv.1 /\ trimmed kv.2
                       /\ Text.contains "=" kv.1 = false) (Text.parse body)
  /\ Text.parse "token = a=b " = [("token", "a=b")]
  /\ Text.parse (NBSP +:+ "token" +:+ NBSP +:+ "= a=b" +:+ NBSP)
     = [("token", "a=b")].
Proof.
  destruct (parse_invariant body) as [H1 H2].
  split; [exact H1|]. split; [|split; vm_compute; reflexivity].
  eapply List.Forall_impl; [|exact H2].
  intros kv (Hk & Hv & He).
  split; [exact Hk|]. split; [exact Hv|].
  split; [apply trimmed_of_stripped, Hk|].
  split; [apply trimmed_of_stripped, Hv | exact He].
Qed.

(** X15. A message without any [=] yields no pair, and so is rejected:
    the handler answers that the signature is invalid, the received hash
    being empty, and leaves the table as it was.  So it is for a message
    without text. *)
Theorem message_without_pairs_rejected
    (YOOMONEY_SECRET : string) (body : string) (clk : Clock) (db : database)
    (Hbody : Text.contains "=" body = false) :
  Text.parse body = []
  /\ on_yoomoney_message YOOMONEY_SECRET (Some body) clk db
     = (InvalidSignature (Notification.sha1_hex YOOMONEY_SECRET ∅) "", db)
  /\ on_yoomoney_message YOOMONEY_SECRET None clk db
     = (InvalidSignature (Notification.sha1_hex YOOMONEY_SECRET ∅) "", db).
Proof.
  assert (Hrej : BotHandler.on_yoomoney_notification YOOMONEY_SECRET [] clk db
                 = (InvalidSignature (Notification.sha1_hex YOOMONEY_SECRET ∅) "",
                    db)).
  { rewrite bot_rejects; [reflexivity|].
    unfold BotHandler.is_valid.
    now rewrite (empty_hash_rejected YOOMONEY_SECRET (Notification.normalize [])). }
  pose proof (parse_without_eq body Hbody) as Hp.
  split; [exact Hp|]. split.
  - unfold on_yoomoney_message. cbn [default from_option id]. now rewrite Hp.
  - exact Hrej.
Qed.

Lemma message_without_pairs_rejected_witness :
  on_yoomoney_message "s3cret" (Some "hello & goodbye") clock0 one_user
  = (InvalidSignature (Notification.sha1_hex "s3cret" ∅) "", one_user).
Proof.
  exact (proj1 (proj2
    (message_without_pairs_rejected "s3cret" "hello & goodbye" clock0 one_user
       eq_refl))).
Defined.

Lemma test_body_sign_string YOOMONEY_SECRET :
  Notification.sign_string YOOMONEY_SECRET
    (Notification.normalize (Text.parse test_body))
  = test_base +:+ YOOMONEY_SECRET.
Proof.
  unfold Notification.sign_string, Notification.secret.
  replace (List.map (Notification.get (Notification.normalize (Text.parse test_body)))
             Notification.ordered_keys)
    with ["p2p-incoming"; "test-notification"; "255.80"; "643";
          "2025-10-29T23:57:00Z"; "41001000040"; "false"; "user_id:123456789"]
    by (vm_compute; reflexivity).
  replace (Notification.get (Notification.normalize (Text.parse test_body)) "secret")
    with "" by (vm_compute; reflexivity).
  destruct YOOMONEY_SECRET; reflexivity.
Qed.

(** X16. [cmd_test_notification] runs the real handler on its sample
    message: whoever sends the command, the message is checked against
    the configured secret, and when the digest of its base string with
    that secret is the sample's hash, user 123456789 is credited in the
    ledger (or, with a balance of 2^63 - 1 already, the write is refused
    and the error reported); otherwise the table stays as it was. *)
Theorem test_notification_outcome
    (YOOMONEY_SECRET : string) (clk : Clock) (db : database) :
  cmd_test_notification YOOMONEY_SECRET clk db
  = if String.eqb "46898d2aaddb327c902e958ea3bb71822183923a"
         (Py.lower (Sha1.hexdigest (test_base +:+ YOOMONEY_SECRET)))
    then
      if Z.max 0 (balance db 123456789 + 1) <=? max_int64
      then (Credited 123456789 (Z.max 0 (balance db 123456789 + 1)),
            put db 123456789 (written_row db clk 123456789 1 None))
      else (HandlerError Py.OverflowError, db)
    else (InvalidSignature (Sha1.hexdigest (test_base +:+ YOOMONEY_SECRET))
            "46898d2aaddb327c902e958ea3bb71822183923a", db).
Proof.
  unfold cmd_test_notification, on_yoomoney_message. cbn [default from_option id].
  assert (Hr : Notification.received_hash
                 (Notification.normalize (Text.parse test_body))
               = "46898d2aaddb327c902e958ea3bb71822183923a")
    by (vm_compute; reflexivity).
  assert (Hc : Notification.codepro_ok
                 (Notification.normalize (Text.parse test_body)) = true)
    by (vm_compute; reflexivity).
  assert (Hu : Notification.user_id_from_label
                 (Notification.get (Notification.normalize (Text.parse test_body))
                    "label") = Py.Ok (Some 123456789))
    by (vm_compute; reflexivity).
  assert (Hv : BotHandler.is_valid YOOMONEY_SECRET
                 (Notification.normalize (Text.parse test_body))
               = String.eqb "46898d2aaddb327c902e958ea3bb71822183923a"
                   (Py.lower (Sha1.hexdigest (test_base +:+ YOOMONEY_SECRET)))).
  { unfold BotHandler.is_valid, Notification.hash_matches, Notification.sha1_hex.
    rewrite Hc, andb_true_r, Hr, test_body_sign_string. reflexivity. }
  destruct (String.eqb _ (Py.lower _)) eqn:E.
  - rewrite (bot_resolved _ _ _ _ _ Hv Hu).
    destruct (Z.leb_spec (Z.max 0 (balance db 123456789 + 1)) max_int64) as [Hfit|Hbig].
    + rewrite bot_increment_nonzero by (reflexivity || assumption || lia).
      reflexivity.
    + rewrite bot_increment_overflow by (reflexivity || assumption || lia).
      reflexivity.
  - rewrite bot_rejects by exact Hv.
    unfold Notification.sha1_hex. now rewrite Hr, test_body_sign_string.
Qed.

(** ** What the status loop returns, and when *)

Lemma poll_loop_decided w :
  forall fuel i e pi log0 log r,
    poll_loop fuel w i e pi log0 = Some (log, r) ->
    exists n,
      log = log0 ++ poll_intervals n pi
      /\ (forall j, (j < n)%nat ->
            reply_result (polls w (i + j)) = None
            /\ elapsed_after w i e pi j <= MAX_WAIT)
      /\ (if elapsed_after w i e pi n >? MAX_WAIT then r = Raised TimeoutError
          else reply_result (polls w (i + n)) = Some r).
Proof.
  induction fuel as [|fuel IH]; intros i e pi log0 log r H; [discriminate|].
  cbn [poll_loop] in H.
  destruct (e >? MAX_WAIT) eqn:Ee.
  { injection H as <- <-. exists 0%nat. cbn [poll_intervals elapsed_after].
    rewrite app_nil_r, Ee. split; [reflexivity|]. split; [intros j Hj; lia | reflexivity]. }
  assert (Hstop : forall r', reply_result (polls w i) = Some r' ->
            Some (log0, r') = Some (log, r) ->
            exists n,
              log = log0 ++ poll_intervals n pi
              /\ (forall j, (j < n)%nat ->
                    reply_result (polls w (i + j)) = None
                    /\ elapsed_after w i e pi j <= MAX_WAIT)
              /\ (if elapsed_after w i e pi n >? MAX_WAIT
                  then r = Raised TimeoutError
                  else reply_result (polls w (i + n)) = Some r)).
  { intros r' Hr' Heq. injection Heq as <- <-. exists 0%nat.
    cbn [poll_intervals elapsed_after]. rewrite app_nil_r, Ee, Nat.add_0_r.
    split; [reflexivity|]. split; [intros j Hj; lia | exact Hr']. }
  assert (Hagain : reply_result (polls w i) = None ->
            poll_loop fuel w (S i) (e + Z.of_nat (latency w i) + pi)
              (next_poll_interval pi) (log0 ++ [pi]) = Some (log, r) ->
            exists n,
              log = log0 ++ poll_intervals n pi
              /\ (forall j, (j < n)%nat ->
                    reply_result (polls w (i + j)) = None
                    /\ elapsed_after w i e pi j <= MAX_WAIT)
              /\ (if elapsed_after w i e pi n >? MAX_WAIT
                  then r = Raised TimeoutError
                  else reply_result (polls w (i + n)) = Some r)).
  { intros Hnone Hrec. destruct (IH _ _ _ _ _ _ Hrec) as (n & Hlog & Hbefore & Hend).
    exists (S n). cbn [poll_intervals elapsed_after].
    split; [rewrite Hlog, <- app_assoc; reflexivity|]. split.
    - intros [|j] Hj.
      + rewrite Nat.add_0_r. split; [exact Hnone|]. cbn [elapsed_after].
        destruct (Z.gtb_spec e MAX_WAIT); [discriminate | lia].
      + rewrite Nat.add_succ_r. apply (Hbefore j). lia.
    - rewrite Nat.add_succ_r. exact Hend. }
  unfold reply_result in Hstop, Hagain.
  destruct (polls w i) as [| |m|status video reason]; eauto.
  destruct (String.eqb status "succeed"); [destruct video; eauto|].
  destruct (String.eqb status "failed"); eauto.
Qed.

Lemma poll_loop_decides w :
  forall n fuel i e pi log0 r,
    (n < fuel)%nat ->
    (forall j, (j < n)%nat ->
       reply_result (polls w (i + j)) = None
       /\ elapsed_after w i e pi j <= MAX_WAIT) ->
    (if elapsed_after w i e pi n >? MAX_WAIT then r = Raised TimeoutError
     else reply_result (polls w (i + n)) = Some r) ->
    poll_loop fuel w i e pi log0 = Some (log0 ++ poll_intervals n pi, r).
Proof.
  induction n as [|n IH]; intros fuel i e pi log0 r Hfuel Hbefore Hend;
    (destruct fuel as [|fuel]; [lia|]); cbn [poll_loop].
  - cbn [elapsed_after poll_intervals] in *. rewrite app_nil_r.
    rewrite Nat.add_0_r in Hend.
    destruct (e >? MAX_WAIT); [now subst r|].
    unfold reply_result in Hend.
    destruct (polls w i) as [| |m|status video reason]; try congruence.
    destruct (String.eqb status "succeed"); [destruct video; congruence|].
    destruct (String.eqb status "failed"); congruence.
  - destruct (Hbefore 0%nat) as [Hnone He]; [lia|].
    rewrite Nat.add_0_r in Hnone. cbn [elapsed_after] in He.
    destruct (Z.gtb_spec e MAX_WAIT); [lia|].
    assert (Hrec : poll_loop fuel w (S i) (e + Z.of_nat (latency w i) + pi)
                     (next_poll_interval pi) (log0 ++ [pi])
                   = Some (log0 ++ poll_intervals (S n) pi, r)).
    { cbn [poll_intervals].
      replace (log0 ++ pi :: poll_intervals n (next_poll_interval pi))
        with ((log0 ++ [pi]) ++ poll_intervals n (next_poll_interval pi))
        by (rewrite <- app_assoc; reflexivity).
      apply IH; [lia | |].
      - intros j Hj. specialize (Hbefore (S j)).
        rewrite Nat.add_succ_r in Hbefore. apply Hbefore. lia.
      - rewrite Nat.add_succ_r in Hend. exact Hend. }
    unfold reply_result in Hnone.
    destruct (polls w i) as [| |m|status video reason]; try discriminate;
      [exact Hrec|].
    destruct (String.eqb status "succeed"); [destruct video; discriminate|].
    destruct (String.eqb status "failed"); [discriminate | exact Hrec].
Qed.

Lemma poll_intervals_length n : forall pi, List.length (poll_intervals n pi) = n.
Proof. induction n as [|n IH]; intros pi; cbn; [reflexivity | now rewrite IH]. Qed.

Lemma elapsed_after_sum w : forall n i e pi,
  elapsed_after w i e pi n
  = e + sum_Z (poll_intervals n pi)
    + sum_Z (List.map (fun j => Z.of_nat (latency w j)) (List.seq i n)).
Proof.
  induction n as [|n IH]; intros i e pi; cbn [elapsed_after]; [cbn; lia|].
  rewrite IH. cbn [poll_intervals List.seq List.map sum_Z List.fold_right].
  unfold sum_Z. lia.
Qed.

(** X17. What [kling_generate_video] returns once the job is submitted
    is decided by the first status reply that is not pending, unless more
    than 20 minutes have passed when that reply would be asked for: then,
    and only then, it raises [TimeoutError].  In particular a url it
    returns is the one the service reported with status [succeed].  The
    time passed is the sum of the sleeps 5, 8, 11, 14, 15, 15, ... and of
    what the requests took. *)
Theorem status_loop_decision
    (w : world) (task_id : string) (n : nat) (r : gen_result)
    (Hsubmit : submit w = Submitted task_id) :
  ((exists fuel, kling_generate_video fuel w = Some (poll_intervals n 5, r))
   <-> (forall j, (j < n)%nat ->
          reply_result (polls w j) = None /\ elapsed_at w j <= MAX_WAIT)
       /\ (if elapsed_at w n >? MAX_WAIT then r = Raised TimeoutError
           else reply_result (polls w n) = Some r))
  /\ (forall fuel slept r',
        kling_generate_video fuel w = Some (slept, r') ->
        slept = poll_intervals (List.length slept) 5)
  /\ elapsed_at w n = sum_Z (poll_intervals n 5) + latencies w n.
Proof.
  unfold kling_generate_video. rewrite Hsubmit. split; [split|split].
  - intros [fuel H]. destruct (poll_loop_decided w _ _ _ _ _ _ _ H)
      as (m & Hlog & Hbefore & Hend).
    cbn [app] in Hlog.
    assert (m = n) as ->.
    { apply (f_equal (@List.length Z)) in Hlog.
      now rewrite !poll_intervals_length in Hlog. }
    split; [exact Hbefore | exact Hend].
  - intros [Hbefore Hend]. exists (S n).
    apply (poll_loop_decides w n (S n) 0 0 5 [] r); [lia | exact Hbefore | exact Hend].
  - intros fuel slept r' H.
    destruct (poll_loop_decided w _ _ _ _ _ _ _ H) as (m & -> & _).
    cbn [app]. now rewrite poll_intervals_length.
  - unfold elapsed_at, latencies. rewrite elapsed_after_sum. lia.
Qed.

Lemma status_loop_decision_witness :
  exists fuel,
    kling_generate_video fuel pending_then_done
    = Some (poll_intervals 1 5, VideoUrl "https://v/1.mp4").
Proof.
  refine (proj2 (proj1 (status_loop_decision pending_then_done "task-1" 1
                          (VideoUrl "https://v/1.mp4") eq_refl)) _).
  split.
  - intros [|j] Hj; [|lia]. split; [reflexivity | vm_compute; discriminate].
  - reflexivity.
Defined.

Lemma sum_Z_app a b : sum_Z (a ++ b) = sum_Z a + sum_Z b.
Proof. induction a as [|x a IH]; cbn; [reflexivity | unfold sum_Z in *; lia]. Qed.

Lemma poll_intervals_app a : forall b pi,
  poll_intervals (a + b) pi
  = poll_intervals a pi ++ poll_intervals b (Nat.iter a next_poll_interval pi).
Proof.
  induction a as [|a IH]; intros b pi; [reflexivity|].
  cbn [Nat.add poll_intervals app]. rewrite IH, iter_next_poll_interval.
  reflexivity.
Qed.

Lemma next_poll_interval_range pi :
  5 <= pi <= 15 -> 5 <= next_poll_interval pi <= 15.
Proof. unfold next_poll_interval. destruct (pi <? 15) eqn:E; lia. Qed.

Lemma iter_poll_interval_range n pi :
  5 <= pi <= 15 -> 5 <= Nat.iter n next_poll_interval pi <= 15.
Proof.
  intros H. induction n as [|n IH]; [exact H|].
  change (Nat.iter (S n) next_poll_interval pi)
    with (next_poll_interval (Nat.iter n next_poll_interval pi)).
  apply next_poll_interval_range. exact IH.
Qed.

Lemma poll_intervals_range n : forall pi,
  5 <= pi <= 15 ->
  Forall (fun d => 5 <= d <= 15) (poll_intervals n pi)
  /\ 0 <= sum_Z (poll_intervals n pi).
Proof.
  induction n as [|n IH]; intros pi H; [split; [constructor | cbn; lia]|].
  destruct (IH (next_poll_interval pi) (next_poll_interval_range pi H)) as [I1 I2].
  cbn [poll_intervals]. split; [constructor; assumption|].
  unfold sum_Z in *. cbn. lia.
Qed.

Lemma latency_sum_nonneg w n : forall i,
  0 <= sum_Z (List.map (fun j => Z.of_nat (latency w j)) (List.seq i n)).
Proof.
  induction n as [|n IH]; intros i; [cbn; lia|].
  specialize (IH (S i)). unfold sum_Z in *. cbn. lia.
Qed.

Lemma sleeps_within_deadline m :
  sum_Z (poll_intervals m 5) <= MAX_WAIT -> (m <= 81)%nat.
Proof.
  intros H. destruct (Nat.le_gt_cases m 81) as [|Hgt]; [assumption|].
  replace m with (82 + (m - 82))%nat in H by lia.
  rewrite poll_intervals_app, sum_Z_app in H.
  destruct (poll_intervals_range (m - 82)
              (Nat.iter 82 next_poll_interval 5)) as [_ Hrest];
    [apply iter_poll_interval_range; lia|].
  assert (H82 : sum_Z (poll_intervals 82 5) = 1208) by (vm_compute; reflexivity).
  unfold MAX_WAIT in H. lia.
Qed.

Lemma call_bounds w fuel slept r :
  kling_generate_video fuel w = Some (slept, r) ->
  (List.length slept <= 82)%nat
  /\ Forall (fun d => 5 <= d <= 15) slept
  /\ sum_Z slept <= 1215
  /\ (r <> Raised TimeoutError -> (List.length slept <= 81)%nat).
Proof.
  intros Hcall.
  unfold kling_generate_video in Hcall.
  destruct (submit w);
    try (injection Hcall as <- <-; repeat split;
         [cbn; lia | constructor | cbn; lia | cbn; lia]).
  destruct (poll_loop_decided w _ _ _ _ _ _ _ Hcall) as (n & -> & Hbefore & Hend).
  cbn [app]. rewrite poll_intervals_length.
  destruct (poll_intervals_range n 5) as [Hrange _]; [lia|].
  assert (Hprefix : forall m, (m <= n)%nat ->
            elapsed_after w 0 0 5 m <= MAX_WAIT -> (m <= 81)%nat).
  { intros m _ Hm. apply sleeps_within_deadline.
    rewrite elapsed_after_sum in Hm.
    pose proof (latency_sum_nonneg w m 0%nat). lia. }
  split; [|split; [exact Hrange|split]].
  - destruct n as [|m]; [lia|].
    destruct (Hbefore m) as [_ Hm]; [lia|].
    specialize (Hprefix m). lia.
  - destruct n as [|m]; [cbn; lia|].
    destruct (Hbefore m) as [_ Hm]; [lia|].
    rewrite poll_intervals_snoc, sum_Z_app.
    rewrite elapsed_after_sum in Hm.
    pose proof (latency_sum_nonneg w m 0%nat).
    pose proof (iter_poll_interval_range m 5). unfold MAX_WAIT in Hm.
    unfold sum_Z at 2. cbn [List.fold_right]. lia.
  - intros Hr. destruct (Z.gtb_spec (elapsed_after w 0 0 5 n) MAX_WAIT);
      [contradiction | apply Hprefix; lia].
Qed.

(** X18. One call of [kling_generate_video] is bounded: it returns (242
    rounds of the loop are enough for it to), having slept at most 82
    times, each time between 5 and 15 seconds, 1215 seconds in all at
    most, and so having asked for the status at most 82 times, however
    the service answers. *)
Theorem status_loop_bounded
    (w : world) (fuel : nat) (Hfuel : (242 <= fuel)%nat) :
  exists slept r,
    kling_generate_video fuel w = Some (slept, r)
    /\ (List.length slept <= 82)%nat
    /\ Forall (fun d => 5 <= d <= 15) slept
    /\ sum_Z slept <= 1215
    /\ (r <> Raised TimeoutError -> (List.length slept <= 81)%nat).
Proof.
  destruct (kling_generate_video_total w fuel Hfuel) as [[slept r] Hcall].
  exists slept, r. split; [exact Hcall|].
  exact (call_bounds w fuel slept r Hcall).
Qed.

Lemma status_loop_bounded_witness :
  exists slept r,
    kling_generate_video 242 processing_world = Some (slept, r)
    /\ (List.length slept <= 82)%nat /\ sum_Z slept <= 1215.
Proof.
  destruct (status_loop_bounded processing_world 242) as (slept & r & H0 & H1 & _ & H3 & _);
    [lia|].
  exists slept, r. split; [exact H0|]. split; assumption.
Defined.

(** ** How a run of [_poll_and_send] ends, and how long it can take *)

Lemma send_loop_answer worlds gen_fuel :
  forall fuel k notify_count next_delay tr,
    send_loop fuel gen_fuel worlds k notify_count next_delay = Some tr ->
    exists init final,
      tr = init ++ [final]
      /\ Forall (fun e => is_answer e = false) init
      /\ (final = AnswerTimeout
          \/ exists url j slept,
               final = AnswerVideo url /\ url <> ""
               /\ In (Generate j slept (VideoUrl url)) init
               /\ kling_generate_video gen_fuel (worlds j)
                  = Some (slept, VideoUrl url)).
Proof.
  induction fuel as [|fuel IH]; intros k nc d tr H; [discriminate|].
  cbn [send_loop] in H.
  destruct (kling_generate_video gen_fuel (worlds k)) as [[slept0 r0]|] eqn:Hk;
    [|discriminate].
  assert (Hquiet : forall init, Forall (fun e => is_answer e = false) init ->
            exists init' final,
              [Sleep d; Generate k slept0 r0] ++ init ++ [AnswerTimeout]
              = init' ++ [final]
              /\ Forall (fun e => is_answer e = false) init'
              /\ (final = AnswerTimeout
                  \/ exists url j slept,
                       final = AnswerVideo url /\ url <> ""
                       /\ In (Generate j slept (VideoUrl url)) init'
                       /\ kling_generate_video gen_fuel (worlds j)
                          = Some (slept, VideoUrl url))).
  { intros init Hinit. exists ([Sleep d; Generate k slept0 r0] ++ init), AnswerTimeout.
    split; [now rewrite <- app_assoc|]. split; [|left; reflexivity].
    repeat (constructor; [reflexivity|]). exact Hinit. }
  assert (Hnote : is_answer (if nc =? 0 then NotifyWaitMinute else NotifyChecking)
                  = false) by (destruct (nc =? 0); reflexivity).
  assert (Hretry :
            (if nc + 1 >=? 20
             then Some ([Sleep d; Generate k slept0 r0]
                          ++ [if nc =? 0 then NotifyWaitMinute else NotifyChecking]
                          ++ finish None)
             else
               match send_loop fuel gen_fuel worlds (S k) (nc + 1) (bump_delay d) with
               | Some rest =>
                   Some ([Sleep d; Generate k slept0 r0]
                           ++ [if nc =? 0 then NotifyWaitMinute else NotifyChecking]
                           ++ rest)
               | None => None
               end) = Some tr ->
            exists init final,
              tr = init ++ [final]
              /\ Forall (fun e => is_answer e = false) init
              /\ (final = AnswerTimeout
                  \/ exists url j slept,
                       final = AnswerVideo url /\ url <> ""
                       /\ In (Generate j slept (VideoUrl url)) init
                       /\ kling_generate_video gen_fuel (worlds j)
                          = Some (slept, VideoUrl url))).
  { intros Htr. destruct (nc + 1 >=? 20).
    - injection Htr as <-. apply (Hquiet [_]). constructor; [exact Hnote | constructor].
    - destruct (send_loop fuel gen_fuel worlds (S k) (nc + 1) (bump_delay d))
        as [rest|] eqn:Hrest; [|discriminate].
      injection Htr as <-.
      destruct (IH _ _ _ _ Hrest) as (init & final & -> & Hinit & Hfinal).
      eexists (_ :: _ :: _ :: init), final. split; [reflexivity|]. split.
      + repeat (constructor; [first [reflexivity | exact Hnote]|]). exact Hinit.
      + destruct Hfinal as [->|(url & j & slept & -> & Hu & Hin & Hcall)];
          [left; reflexivity|].
        right. exists url, j, slept. repeat split; try assumption.
        right. right. right. exact Hin. }
  destruct r0 as [url|e].
  - injection H as <-. destruct url as [|c u].
    + apply (Hquiet []). constructor.
    + exists [Sleep d; Generate k slept0 (VideoUrl (String c u))],
        (AnswerVideo (String c u)).
      split; [reflexivity|]. split; [repeat constructor|].
      right. exists (String c u), k, slept0.
      repeat split; [discriminate | right; left; reflexivity | exact Hk].
  - destruct e; try (apply Hretry; exact H).
    injection H as <-. apply (Hquiet []). constructor.
Qed.

(** X19. A run of [_poll_and_send] ends (20 rounds of its loop and 242 of
    the status loop are enough for it to), and gives exactly one answer,
    at its very end: the timeout message, or the video of a non-empty url
    that a call of [kling_generate_video] in this run returned.  No other
    outcome is told to the user: an error of a call, a failed generation
    included, shows only as a progress notification. *)
Theorem run_ends_with_one_answer
    (worlds : nat -> world) (fuel gen_fuel : nat)
    (Hfuel : (20 <= fuel)%nat) (Hgen : (242 <= gen_fuel)%nat) :
  exists tr init final,
    _poll_and_send fuel gen_fuel worlds = Some tr
    /\ tr = init ++ [final]
    /\ Forall (fun e => is_answer e = false) init
    /\ (final = AnswerTimeout
        \/ exists url j slept,
             final = AnswerVideo url /\ url <> ""
             /\ In (Generate j slept (VideoUrl url)) init
             /\ kling_generate_video gen_fuel (worlds j)
                = Some (slept, VideoUrl url)).
Proof.
  destruct (send_loop_scheduled worlds gen_fuel Hgen fuel 0)
    as (tr & m & Hrun & _); [lia | lia |].
  change (send_loop fuel gen_fuel worlds 0 (Z.of_nat 0) (Spec.delay_schedule 0))
    with (_poll_and_send fuel gen_fuel worlds) in Hrun.
  destruct (send_loop_answer worlds gen_fuel _ _ _ _ _ Hrun)
    as (init & final & H1 & H2 & H3).
  exists tr, init, final. auto.
Qed.

Lemma run_ends_with_one_answer_witness :
  exists tr init final,
    _poll_and_send 20 242 (fun _ => pending_then_done) = Some tr
    /\ tr = init ++ [final]
    /\ Forall (fun e => is_answer e = false) init.
Proof.
  destruct (run_ends_with_one_answer (fun _ => pending_then_done) 20 242)
    as (tr & init & final & H0 & H1 & H2 & _); [lia | lia |].
  exists tr, init, final. split; [exact H0|]. split; assumption.
Defined.

(** X20. When the first status reply of the first call reports
    [succeed] with a url, the run is the 30-second wait, the call without
    any sleep, and the video: no progress notification.  With an empty url
    the answer is the timeout message instead. *)
Theorem first_poll_success
    (worlds : nat -> world) (fuel gen_fuel : nat) (task_id url : string)
    (msg : option string)
    (Hsubmit : submit (worlds 0%nat) = Submitted task_id)
    (Hreply : polls (worlds 0%nat) 0%nat = TaskStatus "succeed" (Some url) msg)
    (Hfuel : (1 <= fuel)%nat) (Hgen : (1 <= gen_fuel)%nat) :
  _poll_and_send fuel gen_fuel worlds
  = Some [Sleep 30; Generate 0 [] (VideoUrl url);
          if String.eqb url "" then AnswerTimeout else AnswerVideo url].
Proof.
  destruct fuel as [|fuel]; [lia|]. destruct gen_fuel as [|gen_fuel]; [lia|].
  unfold _poll_and_send. cbn [send_loop]. unfold kling_generate_video.
  rewrite Hsubmit. cbn [poll_loop]. rewrite Hreply. cbn.
  destruct url; reflexivity.
Qed.

Lemma first_poll_success_witness :
  _poll_and_send 1 1 (fun _ => done_without_url)
  = Some [Sleep 30; Generate 0 [] (VideoUrl ""); AnswerTimeout].
Proof.
  refine (first_poll_success (fun _ => done_without_url) 1 1 "task-1" "" None
            eq_refl eq_refl _ _); lia.
Defined.

Lemma sleep_budget_step k :
  (k < 20)%nat ->
  sleep_budget k = Spec.delay_schedule k + 1215 + sleep_budget (S k).
Proof.
  intros Hk. unfold sleep_budget.
  replace (20 - k)%nat with (S (20 - S k)) by lia.
  cbn [List.seq List.map]. unfold sum_Z. cbn [List.fold_right]. lia.
Qed.

Lemma sleep_budget_nonneg k : 0 <= sleep_budget k.
Proof.
  unfold sleep_budget.
  assert (H : forall n i, 0 <= sum_Z (List.map Spec.delay_schedule (List.seq i n))).
  { induction n as [|n IH]; intros i; [cbn; lia|].
    specialize (IH (S i)). unfold sum_Z in *. cbn [List.seq List.map List.fold_right].
    assert (0 <= Spec.delay_schedule i) by (destruct i as [|[|[|i]]]; cbn; lia).
    lia. }
  specialize (H (20 - k)%nat k). lia.
Qed.

Lemma send_loop_budget worlds gen_fuel :
  forall fuel k tr,
    send_loop fuel gen_fuel worlds k (Z.of_nat k) (Spec.delay_schedule k) = Some tr ->
    (k < 20)%nat ->
    total_sleep tr <= sleep_budget k /\ (calls tr <= 20 - k)%nat.
Proof.
  induction fuel as [|fuel IH]; intros k tr H Hk; [discriminate|].
  cbn [send_loop] in H.
  destruct (kling_generate_video gen_fuel (worlds k)) as [[slept r]|] eqn:Hcall;
    [|discriminate].
  destruct (call_bounds _ _ _ _ Hcall) as (_ & _ & Hsum & _).
  pose proof (sleep_budget_step k Hk) as Hstep.
  pose proof (sleep_budget_nonneg (S k)) as Hnn.
  assert (Hhead : forall rest,
            total_sleep rest <= sleep_budget (S k) ->
            (calls rest <= 20 - S k)%nat ->
            total_sleep (Sleep (Spec.delay_schedule k) :: Generate k slept r :: rest)
            <= sleep_budget k
            /\ (calls (Sleep (Spec.delay_schedule k) :: Generate k slept r :: rest)
                <= 20 - k)%nat).
  { intros rest H1 H2. unfold total_sleep, calls, sum_Z in *.
    cbn [List.map List.fold_right List.filter is_call List.length]. lia. }
  assert (Hfinish : forall v, total_sleep (finish v) = 0 /\ calls (finish v) = 0%nat).
  { intros [[|c u]|]; split; reflexivity. }
  assert (Hnote : forall rest,
            total_sleep ((if Z.of_nat k =? 0 then NotifyWaitMinute
                          else NotifyChecking) :: rest) = total_sleep rest
            /\ calls ((if Z.of_nat k =? 0 then NotifyWaitMinute
                       else NotifyChecking) :: rest) = calls rest).
  { intros rest. destruct (Z.of_nat k =? 0); split; reflexivity. }
  assert (Hstop : forall v,
            Some ([Sleep (Spec.delay_schedule k); Generate k slept r] ++ finish v)
            = Some tr ->
            total_sleep tr <= sleep_budget k /\ (calls tr <= 20 - k)%nat).
  { intros v Htr. injection Htr as <-. cbn [app].
    destruct (Hfinish v) as [F1 F2]. apply Hhead; lia. }
  assert (Hretry :
            (if Z.of_nat k + 1 >=? 20
             then Some ([Sleep (Spec.delay_schedule k); Generate k slept r]
                          ++ [if Z.of_nat k =? 0 then NotifyWaitMinute
                              else NotifyChecking] ++ finish None)
             else
               match send_loop fuel gen_fuel worlds (S k) (Z.of_nat k + 1)
                               (bump_delay (Spec.delay_schedule k)) with
               | Some rest =>
                   Some ([Sleep (Spec.delay_schedule k); Generate k slept r]
                           ++ [if Z.of_nat k =? 0 then NotifyWaitMinute
                               else NotifyChecking] ++ rest)
               | None => None
               end) = Some tr ->
            total_sleep tr <= sleep_budget k /\ (calls tr <= 20 - k)%nat).
  { intros Htr. destruct (Z.geb_spec (Z.of_nat k + 1) 20) as [Hcap|Hcap].
    - injection Htr as <-. cbn [app].
      destruct (Hnote [AnswerTimeout]) as [N1 N2].
      change (total_sleep [AnswerTimeout]) with 0 in N1.
      change (calls [AnswerTimeout]) with 0%nat in N2.
      apply Hhead; lia.
    - rewrite bump_delay_schedule in Htr.
      replace (Z.of_nat k + 1) with (Z.of_nat (S k)) in Htr by lia.
      destruct (send_loop fuel gen_fuel worlds (S k) (Z.of_nat (S k))
                  (Spec.delay_schedule (S k))) as [rest|] eqn:Hrest; [|discriminate].
      injection Htr as <-. cbn [app].
      destruct (IH (S k) rest Hrest) as [I1 I2]; [lia|].
      destruct (Hnote rest) as [N1 N2]. apply Hhead; lia. }
  destruct r as [url|e]; [apply (Hstop (Some url)); exact H|].
  destruct e; try (apply Hretry; exact H). apply (Hstop None); exact H.
Qed.

(** X21. A run of [_poll_and_send] ends (20 rounds of its loop and 242 of
    the status loop are enough for it to) after at most 20 calls of
    [kling_generate_video], and all its sleeping, between the calls and
    inside them, adds up to at most 25995 seconds: the 1695 seconds of the
    waits 30, 60, 75 and seventeen times 90, and 1215 seconds in each
    call. *)
Theorem run_is_bounded
    (worlds : nat -> world) (fuel gen_fuel : nat)
    (Hfuel : (20 <= fuel)%nat) (Hgen : (242 <= gen_fuel)%nat) :
  exists tr,
    _poll_and_send fuel gen_fuel worlds = Some tr
    /\ (calls tr <= 20)%nat
    /\ total_sleep tr <= 25995
    /\ sum_Z (List.map Spec.delay_schedule (List.seq 0 20)) = 1695.
Proof.
  destruct (send_loop_scheduled worlds gen_fuel Hgen fuel 0)
    as (tr & m & Hrun & _); [lia | lia |].
  change (send_loop fuel gen_fuel worlds 0 (Z.of_nat 0) (Spec.delay_schedule 0))
    with (_poll_and_send fuel gen_fuel worlds) in Hrun.
  destruct (send_loop_budget worlds gen_fuel fuel 0 tr Hrun) as [H1 H2]; [lia|].
  assert (Hb : sleep_budget 0 = 25995) by (vm_compute; reflexivity).
  exists tr. split; [exact Hrun|].
  split; [lia|]. split; [lia | vm_compute; reflexivity].
Qed.

Lemma run_is_bounded_witness :
  exists tr,
    _poll_and_send 20 242 (fun _ => pending_then_done) = Some tr
    /\ (calls tr <= 20)%nat
    /\ total_sleep tr <= 25995.
Proof.
  destruct (run_is_bounded (fun _ => pending_then_done) 20 242)
    as (tr & H0 & H1 & H2 & _); [lia | lia |].
  exists tr. split; [exact H0|]. split; assumption.
Defined.

Lemma send_loop_all_fail worlds gen_fuel :
  (forall k, (k < 20)%nat ->
     exists slept e,
       kling_generate_video gen_fuel (worlds k) = Some (slept, Raised e)
       /\ e <> TimeoutError) ->
  forall fuel k,
    (k < 20)%nat -> (20 <= fuel + k)%nat ->
    exists tr,
      send_loop fuel gen_fuel worlds k (Z.of_nat k) (Spec.delay_schedule k) = Some tr
      /\ notifications tr = (20 - k)%nat
      /\ calls tr = (20 - k)%nat
      /\ terminal_of tr = Some TimedOut.
Proof.
  intros Hfail. induction fuel as [|fuel IH]; intros k Hk Hfuel; [lia|].
  cbn [send_loop].
  destruct (Hfail k Hk) as (slept & e & -> & He).
  assert (Hnote : forall rest,
            notifications ((if Z.of_nat k =? 0 then NotifyWaitMinute
                            else NotifyChecking) :: rest) = S (notifications rest)
            /\ calls ((if Z.of_nat k =? 0 then NotifyWaitMinute
                       else NotifyChecking) :: rest) = calls rest).
  { intros rest. destruct (Z.of_nat k =? 0); split; reflexivity. }
  assert (Hgoal :
            exists tr,
              (if Z.of_nat k + 1 >=? 20
               then Some ([Sleep (Spec.delay_schedule k); Generate k slept (Raised e)]
                            ++ [if Z.of_nat k =? 0 then NotifyWaitMinute
                                else NotifyChecking] ++ finish None)
               else
                 match send_loop fuel gen_fuel worlds (S k) (Z.of_nat k + 1)
                                 (bump_delay (Spec.delay_schedule k)) with
                 | Some rest =>
                     Some ([Sleep (Spec.delay_schedule k);
                            Generate k slept (Raised e)]
                             ++ [if Z.of_nat k =? 0 then NotifyWaitMinute
                                 else NotifyChecking] ++ rest)
                 | None => None
                 end) = Some tr
              /\ notifications tr = (20 - k)%nat
              /\ calls tr = (20 - k)%nat
              /\ terminal_of tr = Some TimedOut).
  { destruct (Z.geb_spec (Z.of_nat k + 1) 20) as [Hcap|Hcap].
    - eexists. split; [reflexivity|]. cbn [app finish].
      destruct (Hnote [AnswerTimeout]) as [N1 N2].
      assert (k = 19)%nat as -> by lia. repeat split.
    - rewrite bump_delay_schedule.
      replace (Z.of_nat k + 1) with (Z.of_nat (S k)) by lia.
      destruct (IH (S k)) as (rest & Hrest & R1 & R2 & R3); [lia | lia |].
      rewrite Hrest. eexists. split; [reflexivity|]. cbn [app].
      destruct (Hnote rest) as [N1 N2].
      destruct (send_loop_head _ _ _ _ _ _ _ Hrest) as (s1 & r1 & rest1 & Heq).
      split; [|split].
      + change (notifications (Sleep ?d :: Generate ?a ?b ?c :: ?l))
          with (notifications l). rewrite N1, R1. lia.
      + change (calls (Sleep ?d :: Generate ?a ?b ?c :: ?l)) with (S (calls l)).
        rewrite N2, R2. lia.
      + rewrite terminal_of_skip by (rewrite Heq; discriminate). exact R3. }
  destruct e; try exact Hgoal. congruence.
Qed.

(** X22. When every call of [kling_generate_video] ends in an error
    other than [TimeoutError] (the service reporting the generation as
    failed, for one), the run makes all 20 calls, sends 20 progress
    notifications and ends with the timeout message: the user is never
    told of the failure. *)
Theorem persistent_failure_ends_as_timeout
    (worlds : nat -> world) (fuel gen_fuel : nat)
    (Hfail : forall k, (k < 20)%nat ->
       exists slept e,
         kling_generate_video gen_fuel (worlds k) = Some (slept, Raised e)
         /\ e <> TimeoutError)
    (Hfuel : (20 <= fuel)%nat) :
  exists tr,
    _poll_and_send fuel gen_fuel worlds = Some tr
    /\ notifications tr = 20%nat
    /\ calls tr = 20%nat
    /\ terminal_of tr = Some TimedOut.
Proof.
  destruct (send_loop_all_fail worlds gen_fuel Hfail fuel 0) as (tr & H); [lia | lia |].
  exists tr. exact H.
Qed.

Lemma persistent_failure_ends_as_timeout_witness :
  exists tr,
    _poll_and_send 20 1 (fun _ => failing_world) = Some tr
    /\ notifications tr = 20%nat
    /\ calls tr = 20%nat
    /\ terminal_of tr = Some TimedOut.
Proof.
  apply (persistent_failure_ends_as_timeout (fun _ => failing_world) 20 1).
  - intros k _. exists [], (GenerationFailed (Some "bad input")).
    split; [reflexivity | discriminate].
  - lia.
Defined.

(** ** Sessions of different users, and the two-image flow *)

Lemma reset_wf st u : store_wf st -> store_wf (reset st u).
Proof.
  intros [Hlt Hinj]. unfold reset. split; cbn.
  - intros u' a. destruct (decide (u = u')) as [->|Hne].
    + rewrite lookup_insert_eq. intros H. injection H as <-. lia.
    + rewrite lookup_insert_ne by exact Hne. intros H. specialize (Hlt _ _ H). lia.
  - intros u1 u2 a.
    destruct (decide (u = u1)) as [E1|H1], (decide (u = u2)) as [E2|H2].
    + congruence.
    + subst u1. rewrite lookup_insert_eq, lookup_insert_ne by exact H2.
      intros Ha Hb. injection Ha as <-. specialize (Hlt _ _ Hb). lia.
    + subst u2. rewrite lookup_insert_eq, lookup_insert_ne by exact H1.
      intros Ha Hb. injection Hb as <-. specialize (Hlt _ _ Ha). lia.
    + rewrite !lookup_insert_ne by assumption. apply Hinj.
Qed.

Lemma do_action_wf st act : store_wf st -> store_wf (do_action st act).
Proof.
  intros H. destruct act as [u|u|a dir|a b64]; cbn.
  - apply reset_wf; exact H.
  - unfold setdefault. destruct (SESSIONS st !! u); cbn;
      [exact H | apply reset_wf; exact H].
  - exact H.
  - exact H.
Qed.

Lemma reachable_wf st : reachable st -> store_wf st.
Proof.
  induction 1 as [|st act _ IH].
  - split; cbn; intros *; rewrite lookup_empty; discriminate.
  - apply do_action_wf; exact IH.
Qed.

Lemma session_of_reset_other st u u' :
  store_wf st -> u <> u' -> session_of (reset st u) u' = session_of st u'.
Proof.
  intros [Hlt _] Hne. unfold session_of, reset. cbn.
  rewrite lookup_insert_ne by exact Hne.
  destruct (SESSIONS st !! u') as [a|] eqn:E; [|reflexivity].
  specialize (Hlt _ _ E). rewrite lookup_insert_ne by lia. reflexivity.
Qed.

Lemma session_of_update_other st a g u' :
  SESSIONS st !! u' <> Some a ->
  session_of (update_session st a g) u' = session_of st u'.
Proof.
  intros Hne. unfold session_of, update_session. cbn.
  destruct (SESSIONS st !! u') as [a'|]; [|reflexivity].
  rewrite lookup_alter_ne; [reflexivity | congruence].
Qed.

Lemma setdefault_spec st u :
  store_wf st ->
  let r := setdefault st u in
  store_wf r.2 /\ SESSIONS r.2 !! u = Some r.1
  /\ forall u', u <> u' -> session_of r.2 u' = session_of st u'
                           /\ SESSIONS r.2 !! u' <> Some r.1.
Proof.
  intros Hwf. unfold setdefault.
  destruct (SESSIONS st !! u) as [a|] eqn:E; cbn.
  - split; [exact Hwf|]. split; [exact E|].
    intros u' Hne. split; [reflexivity|].
    intros H. destruct Hwf as [_ Hinj]. apply Hne. exact (Hinj _ _ _ E H).
  - split; [apply reset_wf; exact Hwf|]. split; [apply lookup_insert_eq|].
    intros u' Hne. split; [apply session_of_reset_other; assumption|].
    rewrite lookup_insert_ne by exact Hne. intros H.
    destruct Hwf as [Hlt _]. specialize (Hlt _ _ H). lia.
Qed.

Lemma on_image_other st u msg u' :
  store_wf st -> u <> u' ->
  session_of (on_image st u msg) u' = session_of st u'.
Proof.
  intros Hwf Hne. unfold on_image.
  destruct (setdefault_spec st u Hwf) as (Hwf1 & Hu & Hother).
  destruct (Hother u' Hne) as [Hsame Hfree].
  destruct (setdefault st u) as [a st1]. cbn [fst snd] in *.
  assert (Hupd : forall g, store_wf (update_session st1 a g)) by (intros g; exact Hwf1).
  destruct msg as [| |b64 dir].
  - exact Hsame.
  - rewrite session_of_reset_other by assumption. exact Hsame.
  - set (st2 := update_session st1 a (ensure_workdir dir)).
    assert (H2 : session_of st2 u' = session_of st u').
    { unfold st2. rewrite session_of_update_other by exact Hfree. exact Hsame. }
    assert (H3 : session_of (update_session st2 a (store_image b64)) u'
                 = session_of st u').
    { rewrite session_of_update_other by exact Hfree. exact H2. }
    destruct (match heap st2 !! a with
              | Some s => falsy (start_b64 s)
              | None => true
              end); [exact H3|].
    rewrite session_of_reset_other; [exact H3 | exact Hwf1 | exact Hne].
Qed.

(** X23. A message of one user never changes the session of another: in
    every reachable state, after [on_image] for a user, and after
    [/start], [/cancel] or the create-video button, every other user has
    the session they had. *)
Theorem sessions_are_isolated
    (st : store) (user other : Z) (msg : incoming)
    (Hreach : reachable st) (Hother : user <> other) :
  session_of (on_image st user msg) other = session_of st other
  /\ session_of (cmd_start st user) other = session_of st other
  /\ session_of (cmd_cancel st user) other = session_of st other
  /\ session_of (start_flow_by_text st user) other = session_of st other.
Proof.
  pose proof (reachable_wf st Hreach) as Hwf.
  split; [apply on_image_other; assumption|].
  repeat split; apply session_of_reset_other; assumption.
Qed.

Lemma sessions_are_isolated_witness :
  session_of (on_image two_images_stored 8 (ImageData "CCCC" "runs/c")) 7
  = session_of two_images_stored 7.
Proof.
  refine (proj1 (sessions_are_isolated two_images_stored 8 7
                   (ImageData "CCCC" "runs/c") _ _)).
  - apply run_actions_reachable. apply reach_init.
  - discriminate.
Defined.

Lemma on_image_after_start st u b64 dir :
  on_image (cmd_start st u) u (ImageData b64 dir)
  = mkStore (<[next_addr st := mkSession (Some b64) None (Some dir)]> (heap st))
            (<[u := next_addr st]> (SESSIONS st)) (S (next_addr st)).
Proof.
  unfold on_image, cmd_start, setdefault, reset. cbn [SESSIONS heap next_addr].
  rewrite lookup_insert_eq. unfold update_session. cbn [SESSIONS heap next_addr].
  rewrite !alter_insert_eq, lookup_insert_eq. reflexivity.
Qed.

Lemma two_image_steps st user first second dir1 dir2 :
  let st1 := on_image (cmd_start st user) user (ImageData first dir1) in
  let st2 := on_image st1 user (ImageData second dir2) in
  session_of st1 user = Some (mkSession (Some first) None (Some dir1))
  /\ (first <> "" ->
      session_of st2 user = Some fresh_session
      /\ heap st2 !! next_addr st
         = Some (mkSession (Some first) (Some second) (Some dir1)))
  /\ (first = "" ->
      session_of st2 user = Some (mkSession (Some second) None (Some dir1))).
Proof.
  intros st1 st2. subst st2 st1. rewrite on_image_after_start.
  split; [|split].
  - unfold session_of. cbn [SESSIONS heap]. rewrite lookup_insert_eq.
    apply lookup_insert_eq.
  - intros Hne. unfold on_image, setdefault. cbn [SESSIONS heap next_addr].
    rewrite lookup_insert_eq. unfold update_session. cbn [SESSIONS heap next_addr].
    rewrite !alter_insert_eq, lookup_insert_eq.
    destruct first as [|c f]; [congruence|]. cbn [ensure_workdir workdir falsy
      start_b64 store_image end_b64].
    split; [apply session_of_reset|].
    unfold reset. cbn [heap next_addr].
    rewrite lookup_insert_ne by lia. apply lookup_insert_eq.
  - intros ->. unfold on_image, setdefault. cbn [SESSIONS heap next_addr].
    rewrite lookup_insert_eq. unfold update_session. cbn [SESSIONS heap next_addr].
    rewrite !alter_insert_eq, lookup_insert_eq.
    cbn [ensure_workdir workdir falsy start_b64 store_image end_b64].
    unfold session_of. cbn [SESSIONS heap]. rewrite lookup_insert_eq.
    apply lookup_insert_eq.
Qed.

(** X24. The two-image flow.  After [/start] the first image is kept in
    the user's session, with its working directory.  The second image
    completes the session object, which stays as it is for the task that
    polls, while the user is bound to a fresh empty session.  But a first
    image whose base64 text is empty counts as none: the next image takes
    its place and nothing is started. *)
Theorem two_image_flow
    (st : store) (user : Z) (first second dir1 dir2 : string) :
  let st1 := on_image (cmd_start st user) user (ImageData first dir1) in
  let st2 := on_image st1 user (ImageData second dir2) in
  session_of st1 user = Some (mkSession (Some first) None (Some dir1))
  /\ (first <> "" ->
      session_of st2 user = Some fresh_session
      /\ heap st2 !! next_addr st
         = Some (mkSession (Some first) (Some second) (Some dir1)))
  /\ (first = "" ->
      session_of st2 user = Some (mkSession (Some second) None (Some dir1))).
Proof. exact (two_image_steps st user first second dir1 dir2). Qed.

(** ** The base64 text of an image *)

Lemma list_ind3 (P : list Z -> Prop) :
  P [] -> (forall a, P [a]) -> (forall a b, P [a; b]) ->
  (forall a b c l, P l -> P (a :: b :: c :: l)) ->
  forall l, P l.
Proof.
  intros H0 H1 H2 H3 l.
  assert (H : P l /\ (forall a, P (a :: l)) /\ (forall a b, P (a :: b :: l))).
  { induction l as [|x l (I0 & I1 & I2)]; [auto|].
    split; [exact (I1 x)|]. split; [intros a; exact (I2 a x)|].
    intros a b. apply H3. exact I0. }
  apply H.
Qed.

Lemma base64_index_char_nat n :
  (n < 64)%nat ->
  Base64.index (Base64.char (Z.of_nat n)) = Z.of_nat n
  /\ Ascii.eqb (Base64.char (Z.of_nat n)) "=" = false.
Proof.
  intros Hn.
  do 64 (destruct n as [|n]; [split; vm_compute; reflexivity|]). lia.
Qed.

Lemma base64_index_char s :
  0 <= s < 64 ->
  Base64.index (Base64.char s) = s /\ Ascii.eqb (Base64.char s) "=" = false.
Proof.
  intros Hs. rewrite <- (Z2Nat.id s) by lia.
  apply base64_index_char_nat. lia.
Qed.

Lemma base64_length data :
  Z.of_nat (String.length (Base64.encode data))
  = 4 * ((Z.of_nat (List.length data) + 2) / 3).
Proof.
  induction data as [| a | a b | a b c l IH] using list_ind3; try reflexivity.
  cbn [Base64.encode String.length List.length].
  rewrite !Nat2Z.inj_succ, IH.
  replace (Z.succ (Z.succ (Z.succ (Z.of_nat (List.length l)))) + 2)
    with ((Z.of_nat (List.length l) + 2) + 1 * 3) by lia.
  rewrite Z.div_add by lia. lia.
Qed.

Lemma base64_round_trip data :
  Forall is_byte data -> Base64.decode (Base64.encode data) = data.
Proof.
  induction data as [| a | a b | a b c l IH] using list_ind3; intros Hall.
  - reflexivity.
  - inversion Hall as [|? ? Ha _]; subst. unfold is_byte in Ha.
    cbn [Base64.encode Base64.decode].
    destruct (base64_index_char (a / 4)) as [-> _];
      [split; [apply Z.div_pos; lia | apply Z.div_lt_upper_bound; lia]|].
    destruct (base64_index_char (a mod 4 * 16)) as [-> _];
      [pose proof (Z.mod_pos_bound a 4); lia|].
    change (Ascii.eqb "=" "=") with true. cbn iota. f_equal.
    pose proof (Z.mod_pos_bound a 4).
    rewrite Z.div_mul by lia. rewrite (Z.div_mod a 4) at 3 by lia. lia.
  - inversion Hall as [|? ? Ha Hrest]; subst.
    inversion Hrest as [|? ? Hb _]; subst. unfold is_byte in Ha, Hb.
    cbn [Base64.encode Base64.decode].
    pose proof (Z.mod_pos_bound a 4). pose proof (Z.mod_pos_bound b 16).
    assert (0 <= b / 16 < 16)
      by (split; [apply Z.div_pos; lia | apply Z.div_lt_upper_bound; lia]).
    destruct (base64_index_char (a / 4)) as [-> _];
      [split; [apply Z.div_pos; lia | apply Z.div_lt_upper_bound; lia]|].
    destruct (base64_index_char (a mod 4 * 16 + b / 16)) as [-> _]; [lia|].
    destruct (base64_index_char (b mod 16 * 4)) as [-> ->]; [lia|].
    change (Ascii.eqb "=" "=") with true. cbn iota.
    f_equal; [|f_equal].
    + rewrite (Z.div_mod a 4) at 3 by lia.
      replace (a mod 4 * 16 + b / 16) with (b / 16 + a mod 4 * 16) by lia.
      rewrite Z.div_add by lia. rewrite (Z.div_small (b / 16)) by lia. lia.
    + rewrite (Z.div_mod b 16) at 3 by lia.
      replace (a mod 4 * 16 + b / 16) with (b / 16 + a mod 4 * 16) by lia.
      rewrite Z.mod_add by lia. rewrite (Z.mod_small (b / 16)) by lia.
      rewrite Z.div_mul by lia. lia.
  - inversion Hall as [|? ? Ha Hrest]; subst.
    inversion Hrest as [|? ? Hb Hrest2]; subst.
    inversion Hrest2 as [|? ? Hc Hl]; subst. unfold is_byte in Ha, Hb, Hc.
    cbn [Base64.encode Base64.decode].
    pose proof (Z.mod_pos_bound a 4). pose proof (Z.mod_pos_bound b 16).
    pose proof (Z.mod_pos_bound c 64).
    assert (0 <= b / 16 < 16)
      by (split; [apply Z.div_pos; lia | apply Z.div_lt_upper_bound; lia]).
    assert (0 <= c / 64 < 4)
      by (split; [apply Z.div_pos; lia | apply Z.div_lt_upper_bound; lia]).
    destruct (base64_index_char (a / 4)) as [-> _];
      [split; [apply Z.div_pos; lia | apply Z.div_lt_upper_bound; lia]|].
    destruct (base64_index_char (a mod 4 * 16 + b / 16)) as [-> _]; [lia|].
    destruct (base64_index_char (b mod 16 * 4 + c / 64)) as [-> ->]; [lia|].
    destruct (base64_index_char (c mod 64)) as [-> ->]; [lia|].
    rewrite (IH Hl). f_equal; [|f_equal; [|f_equal]].
    + rewrite (Z.div_mod a 4) at 3 by lia.
      replace (a mod 4 * 16 + b / 16) with (b / 16 + a mod 4 * 16) by lia.
      rewrite Z.div_add by lia. rewrite (Z.div_small (b / 16)) by lia. lia.
    + rewrite (Z.div_mod b 16) at 3 by lia.
      replace (a mod 4 * 16 + b / 16) with (b / 16 + a mod 4 * 16) by lia.
      rewrite Z.mod_add by lia. rewrite (Z.mod_small (b / 16)) by lia.
      replace (b mod 16 * 4 + c / 64) with (c / 64 + b mod 16 * 4) by lia.
      rewrite Z.div_add by lia. rewrite (Z.div_small (c / 64)) by lia. lia.
    + rewrite (Z.div_mod c 64) at 3 by lia.
      replace (b mod 16 * 4 + c / 64) with (c / 64 + b mod 16 * 4) by lia.
      rewrite Z.mod_add by lia. rewrite (Z.mod_small (c / 64)) by lia. lia.
Qed.

Lemma base64_empty data : Base64.encode data = "" <-> data = [].
Proof.
  split; [|intros ->; reflexivity].
  destruct data as [|a [|b [|c l]]]; [reflexivity | | |]; discriminate.
Qed.

(** X25. [bytes_to_b64] loses nothing: two files with the same text are
    the same bytes.  The text has four characters for every three bytes
    begun, so it is empty for the empty file only; and since an empty text
    counts as no first image, an empty file sent first is forgotten when
    the next image comes, while any other file is kept and the next image
    starts the generation. *)
Theorem image_text_keeps_the_bytes
    (data data' : list Z) (st : store) (user : Z) (dir1 dir2 : string)
    (Hbytes : Forall is_byte data) (Hbytes' : Forall is_byte data') :
  (bytes_to_b64 data = bytes_to_b64 data' -> data = data')
  /\ Z.of_nat (String.length (bytes_to_b64 data))
     = 4 * ((Z.of_nat (List.length data) + 2) / 3)
  /\ (bytes_to_b64 data = "" <-> data = [])
  /\ (data <> [] ->
      session_of
        (on_image_file (on_image_file (cmd_start st user) user data dir1)
           user data' dir2) user
      = Some fresh_session)
  /\ (data = [] ->
      session_of
        (on_image_file (on_image_file (cmd_start st user) user data dir1)
           user data' dir2) user
      = Some (mkSession (Some (bytes_to_b64 data')) None (Some dir1))).
Proof.
  unfold bytes_to_b64, on_image_file.
  destruct (two_image_steps st user (Base64.encode data) (Base64.encode data')
              dir1 dir2) as (_ & Hfull & Hempty).
  split; [|split; [apply base64_length|split; [apply base64_empty|split]]].
  - intros Heq. rewrite <- (base64_round_trip data Hbytes), Heq.
    apply base64_round_trip. exact Hbytes'.
  - intros Hne. apply Hfull. rewrite base64_empty. exact Hne.
  - intros He. apply Hempty. apply base64_empty. exact He.
Qed.

Lemma image_text_keeps_the_bytes_witness :
  session_of
    (on_image_file (on_image_file (cmd_start initial_store 7) 7 [] "runs/a")
       7 [77; 97; 110] "runs/b") 7
  = Some (mkSession (Some "TWFu") None (Some "runs/a")).
Proof.
  refine (proj2 (proj2 (proj2 (proj2
    (image_text_keeps_the_bytes [] [77; 97; 110] initial_store 7 "runs/a" "runs/b"
       _ _)))) eq_refl).
  - constructor.
  - repeat constructor; unfold is_byte; lia.
Defined.
